(** * bromine: a shallow embedding of [bromine/browser.py]

The module wraps a Selenium driver.  Python objects that the wrapper
only passes around are kept as small inductive types, keyword
dictionaries are insertion-ordered association lists, and every method
that touches the driver runs in a state-and-exception monad over a
world that records the driver calls made so far. *)

From stdpp Require Import base strings list pretty gmap.
From Stdlib Require Import ZArith Lia Ascii.

Open Scope string_scope.
Open Scope list_scope.

(** ** Python values that reach the wrapper as arguments *)

Inductive pyval :=
  | VNone
  | VBool (b : bool)
  | VInt (z : Z)
  | VStr (s : string).

#[global] Instance pyval_eq_dec : EqDecision pyval.
Proof. solve_decision. Defined.

(** [x is not None] *)
Definition is_not_None (v : pyval) : bool :=
  match v with VNone => false | _ => true end.

(** [type(x).__name__] *)
Definition type_name (v : pyval) : string :=
  match v with
  | VNone => "NoneType"
  | VBool _ => "bool"
  | VInt _ => "int"
  | VStr _ => "str"
  end.

(** [str(x)], which is what [%s] formats with *)
Definition py_str (v : pyval) : string :=
  match v with
  | VNone => "None"
  | VBool true => "True"
  | VBool false => "False"
  | VInt z => pretty z
  | VStr s => s
  end.

(** ** Exceptions *)

Inductive exn_class :=
  | TypeError
  | IndexError
  | KeyError
  | AttributeError
  | WebDriverException
  | NoSuchElementException
  | StaleElementReferenceException
  | TimeoutException
  | InvalidSelectorException
  | ElementNotInteractableException.

#[global] Instance exn_class_eq_dec : EqDecision exn_class.
Proof. solve_decision. Defined.

(** [issubclass(c, WebDriverException)] *)
Definition is_WebDriverException (c : exn_class) : bool :=
  match c with
  | TypeError | IndexError | KeyError | AttributeError => false
  | _ => true
  end.

(** [c.__name__] *)
Definition class_name (c : exn_class) : string :=
  match c with
  | TypeError => "TypeError"
  | IndexError => "IndexError"
  | KeyError => "KeyError"
  | AttributeError => "AttributeError"
  | WebDriverException => "WebDriverException"
  | NoSuchElementException => "NoSuchElementException"
  | StaleElementReferenceException => "StaleElementReferenceException"
  | TimeoutException => "TimeoutException"
  | InvalidSelectorException => "InvalidSelectorException"
  | ElementNotInteractableException => "ElementNotInteractableException"
  end.

(** An exception instance: its class, its [msg], and the two optional
    fields a Selenium exception carries. *)
Record exn := Exn {
  exn_cls : exn_class;
  exn_msg : string;
  exn_screen : option string;
  exn_stacktrace : option (list string)
}.

#[global] Instance exn_eq_dec : EqDecision exn.
Proof. solve_decision. Defined.

(** [cls(msg)]: an exception built from a message alone *)
Definition new_exn (c : exn_class) (msg : string) : exn :=
  Exn c msg None None.

(** [str.join] *)
Fixpoint join (sep : string) (l : list string) : string :=
  match l with
  | [] => ""
  | [x] => x
  | x :: rest => x +:+ sep +:+ join sep rest
  end.

(** The one-character string [\n] *)
Definition newline : string := String (Ascii.ascii_of_nat 10) "".

(** Selenium's [WebDriverException.__str__] *)
Definition WebDriverException_str (e : exn) : string :=
  "Message: " +:+ exn_msg e +:+ newline
  +:+ (match exn_screen e with
       | Some _ => "Screenshot: available via screen" +:+ newline
       | None => ""
       end)
  +:+ (match exn_stacktrace e with
       | Some st => "Stacktrace:" +:+ newline +:+ join (newline) st
       | None => ""
       end).

(** [str(e)] *)
Definition exn_str (e : exn) : string :=
  if is_WebDriverException (exn_cls e) then WebDriverException_str e
  else exn_msg e.

(** The outcome of a Python call: a value or a raised exception. *)
Inductive outcome (A : Type) :=
  | Ok (a : A)
  | Raise (e : exn).
Arguments Ok {A} a.
Arguments Raise {A} e.

Definition raised {A} (o : outcome A) : option exn :=
  match o with Ok _ => None | Raise e => Some e end.

Definition raises_class {A} (c : exn_class) (o : outcome A) : Prop :=
  exists e, o = Raise e /\ exn_cls e = c.

(** ** Keyword dictionaries

A [**kwargs] dictionary keeps its keys in insertion order, and both
the loop over its keys and [list(kwargs.items())[0]] depend on that
order, so a dictionary is the list of its items. *)

Definition dict (V : Type) := list (string * V).

Definition keys {V} (d : dict V) : list string := map fst d.

(** A dictionary never holds a key twice. *)
Definition dict_wf {V} (d : dict V) : Prop := NoDup (keys d).

(** [d[k]], [None] standing for [KeyError] *)
Fixpoint dict_get {V} (k : string) (d : dict V) : option V :=
  match d with
  | [] => None
  | (k', v) :: rest => if String.eqb k k' then Some v else dict_get k rest
  end.

(** [k in d] *)
Definition dict_mem {V} (k : string) (d : dict V) : bool :=
  match dict_get k d with Some _ => true | None => false end.

(** [d[k] = v]: an existing key keeps its place, a new one goes last *)
Fixpoint dict_set {V} (k : string) (v : V) (d : dict V) : dict V :=
  match d with
  | [] => [(k, v)]
  | (k', v') :: rest =>
      if String.eqb k k' then (k, v) :: rest else (k', v') :: dict_set k v rest
  end.

(** [del d[k]] for a key that may be absent *)
Fixpoint dict_remove {V} (k : string) (d : dict V) : dict V :=
  match d with
  | [] => []
  | (k', v) :: rest =>
      if String.eqb k k' then rest else (k', v) :: dict_remove k rest
  end.

(** How Python binds a call to the signature [(self, css=None, **kwargs)]
    that [elem] and [find] have on both classes.  One positional
    argument is [css]; the keyword [css] is the same parameter and does
    not reach [kwargs]; every other keyword does.  [fname] is the name
    the interpreter gives the function in its messages, and the count
    in the second message has [self] in it. *)
Definition bind_css (fname : string) (positional : list pyval)
    (keywords : dict pyval) : outcome (pyval * dict pyval) :=
  match positional with
  | [] =>
      Ok (match dict_get "css" keywords with Some v => v | None => VNone end,
          dict_remove "css" keywords)
  | [v] =>
      if dict_mem "css" keywords
      then Raise (new_exn TypeError
                    (fname +:+ "() got multiple values for argument 'css'"))
      else Ok (v, keywords)
  | _ =>
      Raise (new_exn TypeError
               (fname +:+ "() takes from 1 to 2 positional arguments but "
                +:+ pretty (S (length positional)) +:+ " were given"))
  end.

(** ** Selector and condition tables *)

(** Selenium's [By] constants *)
Inductive By :=
  | By_ID
  | By_XPATH
  | By_LINK_TEXT
  | By_PARTIAL_LINK_TEXT
  | By_NAME
  | By_TAG_NAME
  | By_CLASS_NAME
  | By_CSS_SELECTOR.

#[global] Instance By_eq_dec : EqDecision By.
Proof. solve_decision. Defined.

(** The three [Select] methods that [ElemWrapper._select_selectors] names *)
Inductive select_method :=
  | select_by_index
  | select_by_visible_text
  | select_by_value.

#[global] Instance select_method_eq_dec : EqDecision select_method.
Proof. solve_decision. Defined.

(** The two page-level conditions that [Browser.conditions] names *)
Inductive page_condition :=
  | title_contains
  | title_is.

#[global] Instance page_condition_eq_dec : EqDecision page_condition.
Proof. solve_decision. Defined.

(** ** Strings the way Python 3 sees them

A string is its sequence of code points; the model has the code
points below 256. *)

(** [c.isspace()], which is also what [split()] and [lstrip()] cut at *)
Definition is_space (c : Ascii.ascii) : bool :=
  let n := Ascii.N_of_ascii c in
  ((9 <=? n) && (n <=? 13) || (28 <=? n) && (n <=? 32)
   || (n =? 133) || (n =? 160))%N.

(** [s.lstrip()] *)
Fixpoint lstrip (s : string) : string :=
  match s with
  | String c rest => if is_space c then lstrip rest else s
  | EmptyString => EmptyString
  end.

(** The longest prefix without white space *)
Fixpoint take_word (s : string) : string :=
  match s with
  | String c rest => if is_space c then EmptyString else String c (take_word rest)
  | EmptyString => EmptyString
  end.

(** [s.split(None, 1)[0]]: the first word, [None] when the split is
    empty and the index is out of range *)
Definition first_word (s : string) : option string :=
  match take_word (lstrip s) with
  | EmptyString => None
  | w => Some w
  end.

(** [s[n:]] *)
Fixpoint drop_chars (n : nat) (s : string) : string :=
  match n, s with
  | O, _ => s
  | S n', String _ rest => drop_chars n' rest
  | S _, EmptyString => EmptyString
  end.

(** [needle in haystack] *)
Fixpoint str_contains (needle haystack : string) : bool :=
  String.prefix needle haystack
  || match haystack with
     | String _ rest => str_contains needle rest
     | EmptyString => false
     end.

(** [sorted(d.items())].  Items are compared as tuples, key first; the
    keys of a dictionary differ, so the comparison stops at the key. *)
Fixpoint insert_item {V} (x : string * V) (l : list (string * V)) : list (string * V) :=
  match l with
  | [] => [x]
  | y :: rest =>
      if String.ltb (fst x) (fst y) then x :: l else y :: insert_item x rest
  end.

Definition sorted_items {V} (d : dict V) : list (string * V) :=
  fold_left (fun acc x => insert_item x acc) d [].

(** ** The driver

Selenium is the environment.  A WebElement is the number the driver
knows it by; the wrapper sends the driver the requests below and the
driver answers each with a value or an exception, moving to a new
state of its own. *)

Definition elem := nat.

(** What a wait hands back and what an [ElemWrapper] can hold: a
    WebElement, or the [True]/[False] of a condition. *)
Inductive pyobj :=
  | OElem (e : elem)
  | OBool (b : bool).

#[global] Instance pyobj_eq_dec : EqDecision pyobj.
Proof. solve_decision. Defined.

(** [bool(x)] *)
Definition truthy (x : pyobj) : bool :=
  match x with OElem _ => true | OBool b => b end.

(** The expected conditions of Selenium that [FutureElement.wait] names *)
Inductive stock_condition :=
  | presence_of_element_located
  | element_to_be_clickable
  | visibility_of_element_located.

#[global] Instance stock_condition_eq_dec : EqDecision stock_condition.
Proof. solve_decision. Defined.

(** What reading an attribute of the wrapped object gives: for a
    WebElement a property or a bound method, for a boolean one of the
    attributes of [bool] *)
Inductive elem_attr :=
  | Property (v : pyval)
  | ElemMethod (e : elem) (name : string)
  | BoolAttr (b : bool) (name : string).

Inductive request : Type -> Type :=
  | Rfind_element (root : option elem) (by_ : By) (value : pyval) : request elem
  | Rfind_elements (root : option elem) (by_ : By) (value : pyval) : request (list elem)
  | Rtext (e : elem) : request string
  | Rgetattr (e : elem) (name : string) : request elem_attr
  | Rclear (e : elem) : request unit
  | Rclick (e : elem) : request unit
  | Rsend_keys (e : elem) (args : list pyval) : request unit
  | Rselect (m : select_method) (e : elem) (value : pyval) : request unit
  | Rcondition (c : stock_condition) (locator : By * pyval) : request pyobj
  | Rpage_condition (c : page_condition) (value : pyval) : request pyobj.

Record Driver (St : Type) := {
  respond : forall A, request A -> St -> outcome A * St;
  (** what the page does during one [time.sleep(poll)] *)
  sleep : St -> St;
  (** whether [bool] has an attribute of that name ([real],
      [bit_length], [__class__], ...): the interpreter says *)
  bool_has : string -> bool
}.
Arguments respond {St} _ {A} _ _.
Arguments sleep {St} _ _.
Arguments bool_has {St} _ _.

(** One entry of the record of what was asked of the driver *)
Inductive call :=
  | Call {A} (r : request A)
  | Sleep.

(** [True] for the requests that look elements up: [find_element],
    [find_elements], and the evaluation of a condition *)
Definition is_lookup (c : call) : bool :=
  match c with
  | Call (Rfind_element _ _ _) | Call (Rfind_elements _ _ _)
  | Call (Rcondition _ _) => true
  | _ => false
  end.

(** ** Objects of the wrapper *)

(** An [ElemWrapper] never changes after [__init__]; [w_id] tells two
    wrappers of the same element apart. *)
Record elem_wrapper := ElemWrapper_obj {
  w_id : nat;
  w_elem : pyobj
}.

#[global] Instance elem_wrapper_eq_dec : EqDecision elem_wrapper.
Proof. solve_decision. Defined.

(** A [FutureElement]: [_kwargs] is fixed at [__init__]; the one field
    that is assigned later, [_elem], lives in the world under [fe_id].
    The [_browser] of every handle is the one browser of the world. *)
Record future_element := FutureElement_obj {
  fe_id : nat;
  fe_kwargs : dict pyval
}.

(** ** The world and the monad of methods *)

Record World (St : Type) := {
  drv : St;
  calls : list call;
  next_id : nat;
  (** [self._elem] of each handle; a handle without an entry holds [None] *)
  slots : gmap nat elem_wrapper
}.
Arguments drv {St} _.
Arguments calls {St} _.
Arguments next_id {St} _.
Arguments slots {St} _.

Definition M (St A : Type) : Type := World St -> outcome A * World St.

#[global] Instance M_ret {St} : MRet (M St) := fun A a w => (Ok a, w).

#[global] Instance M_bind {St} : MBind (M St) := fun A B f m w =>
  match m w with
  | (Ok a, w') => f a w'
  | (Raise e, w') => (Raise e, w')
  end.

Section Effects.
Context {St : Type}.

(** [raise e] *)
Definition raise {A} (e : exn) : M St A := fun w => (Raise e, w).

(** A pure outcome inside a method *)
Definition lift {A} (o : outcome A) : M St A := fun w => (o, w).

(** [try: body  except <classes>: handler]; an exception of any other
    class passes through *)
Definition try_except {A} (body : M St A) (catches : exn_class -> bool)
    (handler : exn -> M St A) : M St A := fun w =>
  match body w with
  | (Raise e, w') =>
      if catches (exn_cls e) then handler e w' else (Raise e, w')
  | r => r
  end.

(** A fresh object identity *)
Definition fresh : M St nat := fun w =>
  (Ok (next_id w),
   {| drv := drv w; calls := calls w;
      next_id := S (next_id w); slots := slots w |}).

(** [self._elem], [None] when unset *)
Definition read_slot (self : future_element) : M St (option elem_wrapper) :=
  fun w => (Ok (slots w !! fe_id self), w).

(** [self._elem = wr] *)
Definition write_slot (self : future_element) (wr : elem_wrapper) : M St unit :=
  fun w =>
    (Ok tt,
     {| drv := drv w; calls := calls w; next_id := next_id w;
        slots := <[fe_id self := wr]> (slots w) |}).

(** [self._elem = None] *)
Definition clear_slot (self : future_element) : M St unit :=
  fun w =>
    (Ok tt,
     {| drv := drv w; calls := calls w; next_id := next_id w;
        slots := delete (fe_id self) (slots w) |}).

(** [ElemWrapper(x)] *)
Definition new_ElemWrapper (x : pyobj) : M St elem_wrapper :=
  i ← fresh; mret (ElemWrapper_obj i x).

(** [do_raise(e)]: the exception itself, its traceback dropped *)
Definition do_raise {A} (e : exn) : M St A := raise e.

(** [[ElemWrapper(i) for i in found]] *)
Fixpoint wrap_all (found : list elem) : M St (list elem_wrapper) :=
  match found with
  | [] => mret []
  | i :: rest =>
      wr ← new_ElemWrapper (OElem i);
      wrs ← wrap_all rest;
      mret (wr :: wrs)
  end.

Variable D : Driver St.

(** Send one request to the driver and note it. *)
Definition perform {A} (r : request A) : M St A := fun w =>
  let '(o, s) := respond D r (drv w) in
  (o, {| drv := s; calls := calls w ++ [Call r];
         next_id := next_id w; slots := slots w |}).

(** [time.sleep(poll)] *)
Definition pause : M St unit := fun w =>
  (Ok tt, {| drv := sleep D (drv w); calls := calls w ++ [Sleep];
             next_id := next_id w; slots := slots w |}).

(** [x.<name>] for the names the wrapper itself asks for
    ([find_element], [find_elements], [tag_name], [clear], [click],
    [send_keys]): a WebElement has them, a [bool] has none of them *)
Definition as_elem (x : pyobj) (name : string) : M St elem :=
  match x with
  | OElem e => mret e
  | OBool _ =>
      raise (new_exn AttributeError
               ("'bool' object has no attribute '" +:+ name +:+ "'"))
  end.

End Effects.

(** ** Selenium's [WebDriverWait]

[until] and [until_not] poll a method against the driver.  The loop
of the library runs on the clock; here [polls] counts how many more
polls the timeout leaves room for after the current one, and the
method is always tried at least once. *)

Module WebDriverWait.
Section Wait.
Context {St : Type} (D : Driver St).

(** [_ignored_exceptions], by default [(NoSuchElementException,)]: the
    [except] clause catches that class and its subclasses, and in the
    Selenium the wrapper is written for [InvalidSelectorException] is
    one *)
Definition ignored (c : exn_class) : bool :=
  match c with
  | NoSuchElementException | InvalidSelectorException => true
  | _ => false
  end.

(** [until(method)] *)
Fixpoint until_from (polls : nat) (screen : option string)
    (stacktrace : option (list string)) (method : M St pyobj) : M St pyobj :=
  fun w =>
    let again (screen : option string) (stacktrace : option (list string))
        (w1 : World St) :=
      let '(_, w2) := pause D w1 in
      match polls with
      | O => (Raise (Exn TimeoutException "" screen stacktrace), w2)
      | S polls' => until_from polls' screen stacktrace method w2
      end in
    match method w with
    | (Ok value, w1) =>
        if truthy value then (Ok value, w1) else again screen stacktrace w1
    | (Raise e, w1) =>
        if ignored (exn_cls e)
        then again (exn_screen e) (exn_stacktrace e) w1
        else (Raise e, w1)
    end.

Definition until (polls : nat) (method : M St pyobj) : M St pyobj :=
  until_from polls None None method.

(** [until_not(method)] *)
Fixpoint until_not (polls : nat) (method : M St pyobj) : M St pyobj :=
  fun w =>
    match method w with
    | (Ok value, w1) =>
        if negb (truthy value) then (Ok value, w1)
        else
          let '(_, w2) := pause D w1 in
          match polls with
          | O => (Raise (Exn TimeoutException "" None None), w2)
          | S polls' => until_not polls' method w2
          end
    | (Raise e, w1) =>
        if ignored (exn_cls e) then (Ok (OBool true), w1)
        else (Raise e, w1)
    end.

End Wait.
End WebDriverWait.

Module Browser.

(** [Browser.selectors] *)
Definition selectors : dict By :=
  [ ("id", By_ID);
    ("xpath", By_XPATH);
    ("link", By_LINK_TEXT);
    ("partial_link", By_PARTIAL_LINK_TEXT);
    ("name", By_NAME);
    ("tag", By_TAG_NAME);
    ("cls", By_CLASS_NAME);
    ("css", By_CSS_SELECTOR) ].

(** [Browser.conditions] *)
Definition conditions : dict page_condition :=
  [ ("title_has", title_contains); ("title", title_is) ].

(** The first key of [kwargs] that the table does not know: the loop
    [for k in kwargs: if k not in table: raise ...] stops there. *)
Definition first_bad_key {V T} (kwargs : dict V) (table : dict T) : option string :=
  List.find (fun k => negb (dict_mem k table)) (keys kwargs).

(** [Browser._get_selector(kwargs, selectors)].  The table is passed
    by every caller here; where the Python caller leaves it out, the
    default [cls.selectors] is the argument. *)
Definition _get_selector {T} (kwargs : dict pyval) (selectors : dict T)
  : outcome (T * pyval) :=
  match first_bad_key kwargs selectors with
  | Some k => Raise (new_exn TypeError ("bad selector: " +:+ k))
  | None =>
      match kwargs with
      | [] => Raise (new_exn TypeError "no selector specified")
      | (sel, val) :: _ =>
          if (1 <? length kwargs)%nat
          then Raise (new_exn TypeError "only one selector, please")
          else
            match dict_get sel selectors with
            | Some s => Ok (s, val)
            | None => Raise (new_exn KeyError sel)
            end
      end
  end.

(** [Browser._get_condition(kwargs)] *)
Definition _get_condition (kwargs : dict pyval)
  : outcome (page_condition * list pyval) :=
  match first_bad_key kwargs conditions with
  | Some k => Raise (new_exn TypeError ("bad wait condition: " +:+ k))
  | None =>
      if (1 <? length kwargs)%nat
      then Raise (new_exn TypeError "only one condition, please")
      else
        match kwargs with
        | [] => Raise (new_exn TypeError "no condition specified")
        | (cond, val) :: _ =>
            match dict_get cond conditions with
            | Some c => Ok (c, [val])
            | None => Raise (new_exn KeyError cond)
            end
        end
  end.

Section Methods.
Context {St : Type} (D : Driver St).

(** How many more polls the two seconds of [self._wait] leave room
    for after the first *)
Variable polls : nat.

(** [if css is not None: kwargs["css"] = css] *)
Definition with_css (css : pyval) (kwargs : dict pyval) : dict pyval :=
  if is_not_None css then dict_set "css" css kwargs else kwargs.

(** [Browser.elem(css=None, **kwargs)], also [Browser.__call__] *)
Definition elem (css : pyval) (kwargs : dict pyval) : M St future_element :=
  let kwargs := with_css css kwargs in
  i ← fresh;
  let self := FutureElement_obj i kwargs in
  clear_slot self;;
  mret self.

(** [Browser.find(css=None, **kwargs)] *)
Definition find (css : pyval) (kwargs : dict pyval) : M St (list elem_wrapper) :=
  let kwargs := with_css css kwargs in
  '(sel, val) ← lift (_get_selector kwargs selectors);
  found ← perform D (Rfind_elements None sel val);
  wrap_all found.

(** [Browser.wait], called with keyword arguments only *)
Definition wait (kwargs : dict pyval) : M St elem_wrapper :=
  '(meth, args) ← lift (_get_condition kwargs);
  match args with
  | [val] =>
      x ← WebDriverWait.until D polls (perform D (Rpage_condition meth val));
      new_ElemWrapper x
  | _ => raise (new_exn TypeError "__init__() takes 2 positional arguments")
  end.

End Methods.

End Browser.

(** What [getattr(wrapper, name)] gives *)
Inductive attr_value :=
  | WrapperMethod (w : elem_wrapper) (name : string)
  | WrapperField (x : pyobj)
  | WrapperTable (t : dict select_method)
  | Forwarded (a : elem_attr).

Module ElemWrapper.

(** [ElemWrapper._select_selectors] *)
Definition _select_selectors : dict select_method :=
  [ ("index", select_by_index);
    ("text", select_by_visible_text);
    ("value", select_by_value) ].

(** The methods the class body defines *)
Definition method_names : list string :=
  [ "__init__"; "elem"; "__call__"; "find"; "select"; "clear";
    "__getattr__"; "__repr__" ].

Section Methods.
Context {St : Type} (D : Driver St).

(** [ElemWrapper.elem(css=None, **kwargs)], also [ElemWrapper.__call__] *)
Definition elem (self : elem_wrapper) (css : pyval) (kwargs : dict pyval)
  : M St elem_wrapper :=
  let kwargs := Browser.with_css css kwargs in
  '(sel, val) ← lift (Browser._get_selector kwargs Browser.selectors);
  try_except
    (root ← as_elem (w_elem self) "find_element";
     found ← perform D (Rfind_element (Some root) sel val);
     new_ElemWrapper (OElem found))
    is_WebDriverException
    (fun e => do_raise e).

(** [ElemWrapper.find(css=None, **kwargs)] *)
Definition find (self : elem_wrapper) (css : pyval) (kwargs : dict pyval)
  : M St (list elem_wrapper) :=
  let kwargs := Browser.with_css css kwargs in
  '(sel, val) ← lift (Browser._get_selector kwargs Browser.selectors);
  root ← as_elem (w_elem self) "find_elements";
  found ← perform D (Rfind_elements (Some root) sel val);
  wrap_all found.

(** [ElemWrapper.select], keyword arguments only: [Select(self._elem)] reads the
    tag name of the element first *)
Definition select (self : elem_wrapper) (kwargs : dict pyval) : M St unit :=
  '(sel, val) ← lift (Browser._get_selector kwargs _select_selectors);
  root ← as_elem (w_elem self) "tag_name";
  perform D (Rselect sel root val).

(** [ElemWrapper.clear()] *)
Definition clear (self : elem_wrapper) : M St elem_wrapper :=
  root ← as_elem (w_elem self) "clear";
  perform D (Rclear root);;
  mret self.

(** [ElemWrapper.__getattr__(attr)]: [getattr(self._elem, attr)].  On a
    WebElement the driver answers; on a boolean the attribute is there
    or not, as [bool] has it. *)
Definition __getattr__ (self : elem_wrapper) (attr : string) : M St elem_attr :=
  match w_elem self with
  | OElem root => perform D (Rgetattr root attr)
  | OBool b =>
      if bool_has D attr then mret (BoolAttr b attr)
      else raise (new_exn AttributeError
                    ("'bool' object has no attribute '" +:+ attr +:+ "'"))
  end.

(** [getattr(self, attr)]: what the instance and the class define
    comes first and [__getattr__] is the fallback.  The names that
    every Python object has are left out. *)
Definition getattr (self : elem_wrapper) (attr : string) : M St attr_value :=
  if String.eqb attr "_elem" then mret (WrapperField (w_elem self))
  else if String.eqb attr "_select_selectors"
  then mret (WrapperTable _select_selectors)
  else if bool_decide (attr ∈ method_names)
  then mret (WrapperMethod self attr)
  else a ← __getattr__ self attr; mret (Forwarded a).

(** [self.click()], which [__getattr__] hands to the element *)
Definition click (self : elem_wrapper) : M St unit :=
  root ← as_elem (w_elem self) "click";
  perform D (Rclick root).

(** [self.send_keys] on its arguments, which [__getattr__] hands to the element *)
Definition send_keys (self : elem_wrapper) (args : list pyval) : M St unit :=
  root ← as_elem (w_elem self) "send_keys";
  perform D (Rsend_keys root args).

End Methods.

End ElemWrapper.

Module element_containing_text.
Section Methods.
Context {St : Type} (D : Driver St).

(** Selenium's [EC._find_element(driver, by)]: [driver.find_element] on the pair,
    every exception raised again *)
Definition _find_element (locator : By * pyval) : M St elem :=
  perform D (Rfind_element None (fst locator) (snd locator)).

(** [self.text in text]; only a string can be looked for in a string *)
Definition py_in (needle : pyval) (text : string) : M St bool :=
  match needle with
  | VStr s => mret (str_contains s text)
  | _ =>
      raise (new_exn TypeError
               ("'in <string>' requires string as left operand, not "
                +:+ type_name needle))
  end.

(** [element_containing_text(locator, text_)(driver)] *)
Definition __call__ (locator : By * pyval) (text_ : pyval) : M St pyobj :=
  try_except
    (elem ← _find_element locator;
     match text_ with
     | VNone =>
         t ← perform D (Rtext elem);
         if negb (String.eqb t "") then mret (OElem elem)
         else mret (OBool false)
     | _ =>
         t ← perform D (Rtext elem);
         found ← py_in text_ t;
         if (found : bool) then mret (OElem elem) else mret (OBool false)
     end)
    (fun c => bool_decide (c = StaleElementReferenceException))
    (fun _ => mret (OBool false)).

End Methods.
End element_containing_text.

Module FutureElement.

(** The value [meth] is bound to in [wait] *)
Inductive wait_method :=
  | Stock (c : stock_condition)
  | Text.

(** The chain [if condition == "present": ... else: raise TypeError] *)
Definition method_of (condition : string) : outcome wait_method :=
  if String.eqb condition "present" then Ok (Stock presence_of_element_located)
  else if String.eqb condition "clickable" then Ok (Stock element_to_be_clickable)
  else if String.eqb condition "visible" then Ok (Stock visibility_of_element_located)
  else if String.eqb condition "text" then Ok Text
  else Raise (new_exn TypeError ("bad condition: " +:+ condition)).

(** The first lines of [wait]: the negation flag and the condition
    that is left, or the [IndexError] of [split(None, 1)[0]] on a
    string without a word *)
Definition parse_condition (condition : string) : outcome (bool * string) :=
  match first_word condition with
  | None => Raise (new_exn IndexError "list index out of range")
  | Some w =>
      let '(neg, condition) :=
        if String.eqb w "not"
        then (true, lstrip (drop_chars 3 condition))
        else (false, condition) in
      let condition :=
        if String.eqb condition "" then "present" else condition in
      Ok (neg, condition)
  end.

(** ["%s: %s" % p] for each item in key order, joined with [", "] *)
Definition describe (kwargs : dict pyval) : string :=
  join ", "
    (map (fun p : string * pyval => fst p +:+ ": " +:+ py_str (snd p))
         (sorted_items kwargs)).

(** The message of the exception [wait] raises in place of [e] *)
Definition wait_message (kwargs : dict pyval) (neg : bool)
    (condition : string) (arg : pyval) (e : exn) : string :=
  "error waiting for '" +:+ describe kwargs +:+ "' to be "
  +:+ (if neg then "not " else "")
  +:+ condition
  +:+ (if is_not_None arg then " (" +:+ py_str arg +:+ ")" else "")
  +:+ ": " +:+ class_name (exn_cls e) +:+ " " +:+ exn_str e.

Section Methods.
Context {St : Type} (D : Driver St).

(** How many more polls the two seconds of [browser._wait] leave
    room for after the first *)
Variable polls : nat.

(** [meth] applied to [args], with [args = [(sel, val)]] and [arg] appended when
    it is not [None]: a condition of Selenium takes the locator
    alone, [element_containing_text] takes the text as well. *)
Definition instantiate (meth : wait_method) (locator : By * pyval)
    (arg : pyval) : outcome (M St pyobj) :=
  match meth with
  | Stock c =>
      if is_not_None arg
      then Raise (new_exn TypeError
                    "__init__() takes 2 positional arguments but 3 were given")
      else Ok (perform D (Rcondition c locator))
  | Text => Ok (element_containing_text.__call__ D locator arg)
  end.

(** [FutureElement.wait(condition="present", arg=None)] *)
Definition wait (self : future_element) (condition : string) (arg : pyval)
  : M St (option elem_wrapper) :=
  '(neg, condition) ← lift (parse_condition condition);
  meth ← lift (method_of condition);
  '(sel, val) ← lift (Browser._get_selector (fe_kwargs self) Browser.selectors);
  let wmeth :=
    if negb neg then WebDriverWait.until D polls
    else WebDriverWait.until_not D polls in
  try_except
    (method ← lift (instantiate meth (sel, val) arg);
     x ← wmeth method;
     wr ← new_ElemWrapper x;
     write_slot self wr)
    is_WebDriverException
    (fun e =>
       do_raise
         (new_exn (exn_cls e)
            (wait_message (fe_kwargs self) neg condition arg e)));;
  read_slot self.

(** [x.<name>] on what [wait] returned; [None] has no attributes *)
Definition attr_of (x : option elem_wrapper) (name : string)
  : M St elem_wrapper :=
  match x with
  | Some wr => mret wr
  | None =>
      raise (new_exn AttributeError
               ("'NoneType' object has no attribute '" +:+ name +:+ "'"))
  end.

(** [FutureElement.__getattr__(attr)] *)
Definition __getattr__ (self : future_element) (attr : string)
  : M St attr_value :=
  cur ← read_slot self;
  match cur with
  | None =>
      '(sel, val) ← lift (Browser._get_selector (fe_kwargs self) Browser.selectors);
      try_except
        (found ← perform D (Rfind_element None sel val);
         wr ← new_ElemWrapper (OElem found);
         write_slot self wr)
        is_WebDriverException
        (fun e => do_raise e)
  | Some _ => mret tt
  end;;
  cur ← read_slot self;
  wr ← attr_of cur attr;
  ElemWrapper.getattr D wr attr.

(** [FutureElement.clear()] *)
Definition clear (self : future_element) : M St elem_wrapper :=
  elem ← wait self "clickable" VNone;
  wr ← attr_of elem "clear";
  ElemWrapper.clear D wr.

(** [FutureElement.click()] *)
Definition click (self : future_element) : M St unit :=
  elem ← wait self "clickable" VNone;
  wr ← attr_of elem "click";
  ElemWrapper.click D wr.

(** [FutureElement.send_keys] on its arguments *)
Definition send_keys (self : future_element) (args : list pyval) : M St unit :=
  elem ← wait self "clickable" VNone;
  wr ← attr_of elem "send_keys";
  ElemWrapper.send_keys D wr args.

(** [FutureElement.select], keyword arguments only *)
Definition select (self : future_element) (kwargs : dict pyval) : M St unit :=
  elem ← wait self "clickable" VNone;
  wr ← attr_of elem "select";
  ElemWrapper.select D wr kwargs.

End Methods.

End FutureElement.

(** ** A scripted driver for concrete runs

The state counts the lookups answered so far; the script says what
the n-th lookup and the n-th evaluation of a condition give. *)

Module Scripted.

Record script := {
  on_find : nat -> outcome elem;
  on_find_all : outcome (list elem);
  on_text : elem -> outcome string;
  on_condition : nat -> outcome pyobj;
  on_action : outcome unit
}.

Definition answer (sc : script) (A : Type) (r : request A) (n : nat)
  : outcome A * nat :=
  match r in request T return outcome T * nat with
  | Rfind_element _ _ _ => (on_find sc n, S n)
  | Rfind_elements _ _ _ => (on_find_all sc, S n)
  | Rtext e => (on_text sc e, n)
  | Rgetattr e name => (Ok (Property (VStr name)), n)
  | Rclear _ => (on_action sc, n)
  | Rclick _ => (on_action sc, n)
  | Rsend_keys _ _ => (on_action sc, n)
  | Rselect _ _ _ => (on_action sc, n)
  | Rcondition _ _ => (on_condition sc n, S n)
  | Rpage_condition _ _ => (Ok (OBool true), n)
  end.

(** Names [bool] has, as far as the runs here ask *)
Definition names_of_bool : list string :=
  [ "real"; "imag"; "numerator"; "denominator"; "bit_length"; "conjugate";
    "to_bytes"; "from_bytes"; "__class__"; "__doc__" ].

Definition driver (sc : script) : Driver nat :=
  {| respond := answer sc; sleep := fun n => n;
     bool_has := fun name => bool_decide (name ∈ names_of_bool) |}.

(** The world before anything happened *)
Definition start : World nat :=
  {| drv := 0; calls := []; next_id := 0; slots := ∅ |}.

Definition no_such_element : exn :=
  new_exn NoSuchElementException "no such element".

Definition stale : exn :=
  new_exn StaleElementReferenceException "stale element reference".

(** A page on which every lookup finds element [7 + n] at the n-th
    try, with the text [hello] *)
Definition lively : script :=
  {| on_find := fun n => Ok (7 + n);
     on_find_all := Ok [3; 1; 2];
     on_text := fun _ => Ok "hello";
     on_condition := fun n => Ok (OElem (7 + n));
     on_action := Ok tt |}.

(** A page without the element *)
Definition barren : script :=
  {| on_find := fun _ => Raise no_such_element;
     on_find_all := Ok [];
     on_text := fun _ => Ok "";
     on_condition := fun _ => Raise no_such_element;
     on_action := Ok tt |}.

(** A page whose first lookup hits a stale element and whose later
    ones find element [5] *)
Definition flaky : script :=
  {| on_find := fun n => match n with O => Raise stale | _ => Ok 5 end;
     on_find_all := Ok [5];
     on_text := fun _ => Ok "ready";
     on_condition := fun n => match n with O => Raise stale | _ => Ok (OElem 5) end;
     on_action := Ok tt |}.

End Scripted.

(** ** Vocabulary of the properties *)

(** A mapping is fit for resolution against a table when it has one
    item and the table knows its key. *)
Definition resolvable {V T} (kwargs : dict V) (table : dict T) : Prop :=
  exists k v, kwargs = [(k, v)] /\ dict_mem k table = true.

(** The three ways the specification names for a mapping to be unfit *)
Definition unfit {V T} (kwargs : dict V) (table : dict T) : Prop :=
  kwargs = [] \/ 1 < length kwargs
  \/ exists k, In k (keys kwargs) /\ dict_mem k table = false.

(** The world after [n] more objects were made and nothing else *)
Definition allocated {St} (n : nat) (w : World St) : World St :=
  {| drv := drv w; calls := calls w; next_id := n + next_id w; slots := slots w |}.

(** The world after the driver answered request [r] *)
Definition answered {St A} (D : Driver St) (r : request A) (w : World St) : World St :=
  {| drv := snd (respond D r (drv w)); calls := calls w ++ [Call r];
     next_id := next_id w; slots := slots w |}.

(** The wrappers [[ElemWrapper(i) for i in found]] makes when the next
    free identity is [n] *)
Fixpoint wrappers_from (n : nat) (found : list elem) : list elem_wrapper :=
  match found with
  | [] => []
  | i :: rest => ElemWrapper_obj n (OElem i) :: wrappers_from (S n) rest
  end.

(** A call of [f] on positional and keyword arguments, for a method with the signature
    [(self, css=None, **kwargs)] *)
Definition call_with {St A} (fname : string)
    (f : pyval -> dict pyval -> M St A)
    (positional : list pyval) (keywords : dict pyval) : M St A :=
  '(css, kwargs) ← lift (bind_css fname positional keywords);
  f css kwargs.

(** The world after [self._elem = wr] *)
Definition stored {St} (self : future_element) (wr : elem_wrapper) (w : World St)
  : World St :=
  {| drv := drv w; calls := calls w; next_id := next_id w;
     slots := <[fe_id self := wr]> (slots w) |}.

(** [wmeth] in [FutureElement.wait]: [wait.until] or [wait.until_not] *)
Definition driver_wait {St} (D : Driver St) (polls : nat) (neg : bool)
  : M St pyobj -> M St pyobj :=
  if negb neg then WebDriverWait.until D polls
  else WebDriverWait.until_not D polls.

(** Two worlds with the same objects of the wrapper: no handle was
    assigned to and no wrapper was made *)
Definition same_objects {St} (w w' : World St) : Prop :=
  slots w' = slots w /\ next_id w' = next_id w.

(** A computation that only talks to the driver *)
Definition driver_only {St A} (m : M St A) : Prop :=
  forall w, same_objects w (snd (m w)).

(** [w'] comes after [w] and no lookup was sent in between *)
Definition no_lookup_since {St} (w w' : World St) : Prop :=
  exists new, calls w' = calls w ++ new
              /\ forallb (fun c => negb (is_lookup c)) new = true.

(** The operations a caller has on a lazy handle *)
Inductive operation :=
  | Getattr (attr : string)
  | Wait (condition : string) (arg : pyval)
  | Clear
  | Click
  | SendKeys (args : list pyval)
  | Select (kwargs : dict pyval).

(** The exception an operation raises, if any, and the world it leaves *)
Definition attempt {St A} (m : M St A) (w : World St) : option exn * World St :=
  (raised (fst (m w)), snd (m w)).

Definition operate {St} (D : Driver St) (polls : nat) (self : future_element)
    (op : operation) (w : World St) : option exn * World St :=
  match op with
  | Getattr attr => attempt (FutureElement.__getattr__ D self attr) w
  | Wait condition arg => attempt (FutureElement.wait D polls self condition arg) w
  | Clear => attempt (FutureElement.clear D polls self) w
  | Click => attempt (FutureElement.click D polls self) w
  | SendKeys args => attempt (FutureElement.send_keys D polls self args) w
  | Select kwargs => attempt (FutureElement.select D polls self kwargs) w
  end.

(** Between [w] and [w'] the cache of [self] either stayed as it was
    or was assigned a wrapper made in between, the first object made
    since [w]; no other handle was touched. *)
Definition cache_kept_or_replaced {St} (self : future_element) (w w' : World St)
  : Prop :=
  slots w' = slots w
  \/ exists x, slots w' = <[fe_id self := ElemWrapper_obj (next_id w) x]> (slots w).

(** The reading of "a handle resolves at most once" for one operation
    on one world: if the handle holds a wrapper, the operation sends no
    lookup to the driver and leaves that wrapper in the handle. *)
Definition resolves_at_most_once {St} (D : Driver St) (polls : nat)
    (self : future_element) (op : operation) (w : World St) : Prop :=
  forall wr, slots w !! fe_id self = Some wr ->
    no_lookup_since w (snd (operate D polls self op w))
    /\ slots (snd (operate D polls self op w)) !! fe_id self = Some wr.

(** The reading of "the argument error is raised at the call site" for
    [Browser.elem]: called with a mapping unfit for resolution, the
    call itself ends in a [TypeError]. *)
Definition elem_raises_at_call {St} (css : pyval) (kwargs : dict pyval)
    (w : World St) : Prop :=
  unfit (Browser.with_css css kwargs) Browser.selectors ->
  raises_class TypeError (fst (Browser.elem css kwargs w)).

(** The world after [Browser.elem] made the handle numbered [next_id w] *)
Definition handle_made {St} (w : World St) : World St :=
  {| drv := drv w; calls := calls w; next_id := S (next_id w);
     slots := delete (next_id w) (slots w) |}.

(** The world after one [time.sleep(poll)] *)
Definition paused {St} (D : Driver St) (w : World St) : World St :=
  snd (pause D w).

(** The world in which poll number [i] of [method] begins, counting
    from 0 at [w], when every poll before it was followed by a sleep *)
Fixpoint poll_start {St} (D : Driver St) (method : M St pyobj) (i : nat)
    (w : World St) : World St :=
  match i with
  | O => w
  | S i' => poll_start D method i' (paused D (snd (method w)))
  end.

(** The driver reports that the condition holds: the method returns a
    true value *)
Definition holds {St} (method : M St pyobj) (w : World St) : bool :=
  match fst (method w) with
  | Ok x => truthy x
  | Raise _ => false
  end.

(** The driver reports that the condition does not hold: the method
    returns a false value, or raises an exception that the polling
    ignores because the element is not there *)
Definition absent {St} (method : M St pyobj) (w : World St) : bool :=
  match fst (method w) with
  | Ok x => negb (truthy x)
  | Raise e => WebDriverWait.ignored (exn_cls e)
  end.

(** The second argument of [element_containing_text]: a target
    substring, or [None] for any text *)
Definition text_arg (target : option string) : pyval :=
  match target with
  | None => VNone
  | Some s => VStr s
  end.

(** The text is not empty when there is no target, and has the target
    as a substring when there is one *)
Definition text_satisfies (target : option string) (text : string) : Prop :=
  match target with
  | None => text <> ""
  | Some s => exists before after, text = before +:+ s +:+ after
  end.

(** The lookups among the requests the driver got so far *)
Definition lookups {St} (w : World St) : list call :=
  List.filter is_lookup (calls w).

(** The names [getattr] finds on an [ElemWrapper] itself; every other
    name goes to [ElemWrapper.__getattr__] *)
Definition own_name (attr : string) : bool :=
  String.eqb attr "_elem" || String.eqb attr "_select_selectors"
  || bool_decide (attr ∈ ElemWrapper.method_names).

(** A computation that assigns to no handle, though it may make
    wrappers *)
Definition cache_safe {St A} (m : M St A) : Prop :=
  forall w, slots (snd (m w)) = slots w.

(** What the four condition names of [wait] stand for, at a locator
    and with the argument of the call: [present], [clickable] and
    [visible] are the conditions of Selenium of that meaning, which
    take the locator alone, and [text] is the text predicate, which
    takes the argument as its target *)
Inductive names_method {St} (D : Driver St) (locator : By * pyval) (arg : pyval)
  : string -> M St pyobj -> Prop :=
  | names_present :
      arg = VNone ->
      names_method D locator arg "present"
        (perform D (Rcondition presence_of_element_located locator))
  | names_clickable :
      arg = VNone ->
      names_method D locator arg "clickable"
        (perform D (Rcondition element_to_be_clickable locator))
  | names_visible :
      arg = VNone ->
      names_method D locator arg "visible"
        (perform D (Rcondition visibility_of_element_located locator))
  | names_text :
      names_method D locator arg "text"
        (element_containing_text.__call__ D locator arg).

(** A computation that only adds to the record of requests *)
Definition appends {St A} (m : M St A) : Prop :=
  forall w, exists new, calls (snd (m w)) = calls w ++ new.

(** A computation whose first request, whatever else it does, is [c] *)
Definition starts_with {St A} (c : call) (m : M St A) : Prop :=
  forall w, exists rest, calls (snd (m w)) = calls w ++ c :: rest.

(** A name that does not begin with an underscore *)
Definition public_name (attr : string) : bool :=
  match attr with
  | String c _ => negb (Ascii.eqb c "_")
  | EmptyString => true
  end.

(** * Properties *)

(** ** Dictionaries and the two resolvers *)

Lemma dict_mem_get {V} (k : string) (d : dict V) :
  dict_mem k d = true <-> exists v, dict_get k d = Some v.
Proof.
  unfold dict_mem. destruct (dict_get k d) as [v|].
  - split; [eauto | reflexivity].
  - split; [discriminate | intros [v Hv]; discriminate].
Qed.

Lemma first_bad_key_Some {V T} (kwargs : dict V) (table : dict T) (k : string) :
  Browser.first_bad_key kwargs table = Some k ->
  In k (keys kwargs) /\ dict_mem k table = false.
Proof.
  unfold Browser.first_bad_key. intros H.
  apply find_some in H as [Hin Hbad].
  split; [exact Hin | now apply negb_true_iff].
Qed.

Lemma first_bad_key_None {V T} (kwargs : dict V) (table : dict T) :
  Browser.first_bad_key kwargs table = None <->
  forall k, In k (keys kwargs) -> dict_mem k table = true.
Proof.
  unfold Browser.first_bad_key. split.
  - intros H k Hin.
    pose proof (find_none _ _ H k Hin) as Hk. cbn in Hk.
    now apply negb_false_iff.
  - intros H. destruct (List.find _ _) as [k|] eqn:E; [|reflexivity].
    apply find_some in E as [Hin Hbad].
    rewrite (H k Hin) in Hbad. discriminate.
Qed.

Lemma first_bad_key_is_Some {V T} (kwargs : dict V) (table : dict T) (k : string) :
  In k (keys kwargs) -> dict_mem k table = false ->
  exists k', Browser.first_bad_key kwargs table = Some k'.
Proof.
  intros Hin Hbad.
  destruct (Browser.first_bad_key kwargs table) as [k'|] eqn:E; [eauto|].
  rewrite first_bad_key_None in E. rewrite (E k Hin) in Hbad. discriminate.
Qed.

Lemma unfit_not_resolvable {V T} (kwargs : dict V) (table : dict T) :
  unfit kwargs table <-> ~ resolvable kwargs table.
Proof.
  split.
  - intros [-> | [Hlen | (k & Hin & Hbad)]] (k0 & v0 & Heq & Hmem).
    + discriminate.
    + subst. cbn in Hlen. lia.
    + subst. cbn in Hin. destruct Hin as [<- | []]. congruence.
  - intros Hnot. destruct kwargs as [|[k v] [|item rest]].
    + now left.
    + right; right. exists k. split; [now left|].
      destruct (dict_mem k table) eqn:E; [|reflexivity].
      exfalso. apply Hnot. now exists k, v.
    + right; left. cbn. lia.
Qed.

Lemma _get_selector_one {T} (table : dict T) (k : string) (v : pyval) (s : T) :
  dict_get k table = Some s ->
  Browser._get_selector [(k, v)] table = Ok (s, v).
Proof.
  intros Hk. unfold Browser._get_selector, Browser.first_bad_key, dict_mem.
  cbn. now rewrite Hk.
Qed.

Lemma _get_selector_unfit {T} (kwargs : dict pyval) (table : dict T) :
  unfit kwargs table ->
  raises_class TypeError (Browser._get_selector kwargs table).
Proof.
  intros Hbad. unfold Browser._get_selector.
  destruct (Browser.first_bad_key kwargs table) as [k|] eqn:E.
  { eexists. split; reflexivity. }
  destruct Hbad as [-> | [Hlen | (k & Hin & Hk)]].
  - eexists. split; reflexivity.
  - destruct kwargs as [|[sel val] rest]; [cbn in Hlen; lia|].
    apply Nat.ltb_lt in Hlen. rewrite Hlen. eexists. split; reflexivity.
  - rewrite first_bad_key_None in E. rewrite (E k Hin) in Hk. discriminate.
Qed.

Lemma _get_condition_one (k : string) (v : pyval) (c : page_condition) :
  dict_get k Browser.conditions = Some c ->
  Browser._get_condition [(k, v)] = Ok (c, [v]).
Proof.
  intros Hk. unfold Browser._get_condition, Browser.first_bad_key, dict_mem.
  cbn [keys map fst List.find negb length Nat.ltb Nat.leb].
  now rewrite Hk.
Qed.

Lemma _get_condition_unfit (kwargs : dict pyval) :
  unfit kwargs Browser.conditions ->
  raises_class TypeError (Browser._get_condition kwargs).
Proof.
  intros Hbad. unfold Browser._get_condition.
  destruct (Browser.first_bad_key kwargs Browser.conditions) as [k|] eqn:E.
  { eexists. split; reflexivity. }
  destruct Hbad as [-> | [Hlen | (k & Hin & Hk)]].
  - eexists. split; reflexivity.
  - apply Nat.ltb_lt in Hlen. rewrite Hlen. eexists. split; reflexivity.
  - rewrite first_bad_key_None in E. rewrite (E k Hin) in Hk. discriminate.
Qed.

(** What a successful resolution says about the mapping *)
Lemma _get_selector_Ok {T} (kwargs : dict pyval) (table : dict T) (s : T) (v : pyval) :
  Browser._get_selector kwargs table = Ok (s, v) ->
  exists k, kwargs = [(k, v)] /\ dict_get k table = Some s.
Proof.
  unfold Browser._get_selector.
  destruct (Browser.first_bad_key kwargs table); [discriminate|].
  destruct kwargs as [|[sel val] rest]; [discriminate|].
  destruct rest as [|item rest]; cbn; [|discriminate].
  destruct (dict_get sel table) as [s'|] eqn:E; [|discriminate].
  intros [= -> ->]. now exists sel.
Qed.

(** C1: a mapping with exactly one recognised key resolves to the pair
    of its strategy and its value (for a selector) or of its condition
    and the one-element list of its value (for a page condition); an
    empty mapping, one with more than one key, and one with an unknown
    key each end in a [TypeError], so nothing is returned. *)
Theorem one_key_contract {T} (table : dict T) (kwargs : dict pyval) :
  (forall k v s, kwargs = [(k, v)] -> dict_get k table = Some s ->
     Browser._get_selector kwargs table = Ok (s, v))
  /\ (forall k v c, kwargs = [(k, v)] -> dict_get k Browser.conditions = Some c ->
     Browser._get_condition kwargs = Ok (c, [v]))
  /\ (unfit kwargs table ->
     raises_class TypeError (Browser._get_selector kwargs table))
  /\ (unfit kwargs Browser.conditions ->
     raises_class TypeError (Browser._get_condition kwargs)).
Proof.
  repeat split.
  - intros k v s -> Hk. now apply _get_selector_one.
  - intros k v c -> Hk. now apply _get_condition_one.
  - apply _get_selector_unfit.
  - apply _get_condition_unfit.
Qed.

Lemma one_key_contract_witness :
  Browser._get_selector [("id", VStr "go")] Browser.selectors
    = Ok (By_ID, VStr "go")
  /\ Browser._get_condition [("title", VStr "Home")] = Ok (title_is, [VStr "Home"])
  /\ raises_class TypeError
       (Browser._get_selector [("id", VStr "a"); ("css", VStr "b")] Browser.selectors)
  /\ raises_class TypeError (Browser._get_condition [("colour", VStr "red")]).
Proof.
  split; [|split; [|split]].
  - apply (one_key_contract Browser.selectors [("id", VStr "go")]) with (k := "id");
      reflexivity.
  - apply (one_key_contract Browser.selectors [("title", VStr "Home")]) with (k := "title");
      reflexivity.
  - apply (one_key_contract Browser.selectors [("id", VStr "a"); ("css", VStr "b")]).
    right; left. cbn. lia.
  - apply (one_key_contract Browser.selectors [("colour", VStr "red")]).
    right; right. exists "colour". split; [now left | reflexivity].
Defined.

(** ** Running the monad *)

Ltac run :=
  cbv [mbind M_bind mret M_ret lift raise do_raise try_except
       new_ElemWrapper fresh as_elem].

Lemma perform_answered {St A} (D : Driver St) (r : request A) (w : World St) :
  perform D r w = (fst (respond D r (drv w)), answered D r w).
Proof.
  unfold perform, answered. now destruct (respond D r (drv w)).
Qed.

Lemma allocated_0 {St} (w : World St) : allocated 0 w = w.
Proof. now destruct w. Qed.

Lemma allocated_S {St} (n : nat) (w : World St) :
  allocated n (allocated 1 w) = allocated (S n) w.
Proof. unfold allocated; cbn. f_equal. lia. Qed.

Lemma wrap_all_run {St} (found : list elem) (w : World St) :
  wrap_all found w
  = (Ok (wrappers_from (next_id w) found), allocated (length found) w).
Proof.
  revert w. induction found as [|i rest IH]; intros w.
  - cbn. now rewrite allocated_0.
  - cbn [wrap_all]. run. rewrite IH. cbn.
    f_equal. unfold allocated; cbn. f_equal. lia.
Qed.

Lemma wrappers_from_elems (n : nat) (found : list elem) :
  map w_elem (wrappers_from n found) = map OElem found.
Proof.
  revert n. induction found as [|i rest IH]; intros n; cbn; [reflexivity|].
  now rewrite IH.
Qed.

Lemma wrappers_from_ids (n : nat) (found : list elem) :
  map w_id (wrappers_from n found) = seq n (length found).
Proof.
  revert n. induction found as [|i rest IH]; intros n; cbn; [reflexivity|].
  now rewrite IH.
Qed.

(** ** Eager lookups *)

Lemma Browser_find_run {St} (D : Driver St) (css : pyval) (kwargs : dict pyval)
    (sel : By) (val : pyval) (w : World St) :
  Browser._get_selector (Browser.with_css css kwargs) Browser.selectors = Ok (sel, val) ->
  Browser.find D css kwargs w
  = match fst (respond D (Rfind_elements None sel val) (drv w)) with
    | Ok found =>
        (Ok (wrappers_from (next_id w) found),
         allocated (length found) (answered D (Rfind_elements None sel val) w))
    | Raise e => (Raise e, answered D (Rfind_elements None sel val) w)
    end.
Proof.
  intros Hsel. unfold Browser.find. run. rewrite Hsel, perform_answered.
  destruct (fst (respond D _ (drv w))) as [found|e]; [|reflexivity].
  now rewrite wrap_all_run.
Qed.

Lemma ElemWrapper_find_run {St} (D : Driver St) (i : nat) (root : elem)
    (css : pyval) (kwargs : dict pyval) (sel : By) (val : pyval) (w : World St) :
  Browser._get_selector (Browser.with_css css kwargs) Browser.selectors = Ok (sel, val) ->
  ElemWrapper.find D (ElemWrapper_obj i (OElem root)) css kwargs w
  = match fst (respond D (Rfind_elements (Some root) sel val) (drv w)) with
    | Ok found =>
        (Ok (wrappers_from (next_id w) found),
         allocated (length found) (answered D (Rfind_elements (Some root) sel val) w))
    | Raise e => (Raise e, answered D (Rfind_elements (Some root) sel val) w)
    end.
Proof.
  intros Hsel. unfold ElemWrapper.find. run. rewrite Hsel. cbn [w_elem].
  rewrite perform_answered.
  destruct (fst (respond D _ (drv w))) as [found|e]; [|reflexivity].
  now rewrite wrap_all_run.
Qed.

(** C8: with a selector that resolves, [Browser.find] and
    [ElemWrapper.find] return one wrapper for each element the driver
    reports, in the order of the driver, after that one request; when
    the driver reports no element the result is the empty list and no
    exception. *)
Theorem find_wraps_what_the_driver_reports {St} (D : Driver St)
    (css : pyval) (kwargs : dict pyval) (sel : By) (val : pyval)
    (self : elem_wrapper) (root : elem) (found : list elem) (w : World St) :
  Browser._get_selector (Browser.with_css css kwargs) Browser.selectors = Ok (sel, val) ->
  (fst (respond D (Rfind_elements None sel val) (drv w)) = Ok found ->
   exists wrs w',
     Browser.find D css kwargs w = (Ok wrs, w')
     /\ map w_elem wrs = map OElem found
     /\ calls w' = calls w ++ [Call (Rfind_elements None sel val)]
     /\ (found = [] -> wrs = []))
  /\ (w_elem self = OElem root ->
      fst (respond D (Rfind_elements (Some root) sel val) (drv w)) = Ok found ->
      exists wrs w',
        ElemWrapper.find D self css kwargs w = (Ok wrs, w')
        /\ map w_elem wrs = map OElem found
        /\ calls w' = calls w ++ [Call (Rfind_elements (Some root) sel val)]
        /\ (found = [] -> wrs = [])).
Proof.
  intros Hsel. split.
  - intros Hfound. rewrite (Browser_find_run D css kwargs sel val w Hsel), Hfound.
    do 2 eexists. split; [reflexivity|]. split; [apply wrappers_from_elems|].
    split; [reflexivity|]. now intros ->.
  - intros Hroot Hfound. destruct self as [i x]. cbn in Hroot. subst x.
    rewrite (ElemWrapper_find_run D i root css kwargs sel val w Hsel), Hfound.
    do 2 eexists. split; [reflexivity|]. split; [apply wrappers_from_elems|].
    split; [reflexivity|]. now intros ->.
Qed.

Lemma find_wraps_what_the_driver_reports_witness :
  (exists wrs w',
     Browser.find (Scripted.driver Scripted.barren) VNone [("cls", VStr "row")]
       Scripted.start = (Ok wrs, w')
     /\ map w_elem wrs = map OElem []
     /\ calls w' = calls Scripted.start
                   ++ [Call (Rfind_elements None By_CLASS_NAME (VStr "row"))]
     /\ (@nil elem = [] -> wrs = []))
  /\ (exists wrs w',
     ElemWrapper.find (Scripted.driver Scripted.lively) (ElemWrapper_obj 0 (OElem 4))
       (VStr "li") [] Scripted.start = (Ok wrs, w')
     /\ map w_elem wrs = map OElem [3; 1; 2]
     /\ calls w' = calls Scripted.start
                   ++ [Call (Rfind_elements (Some 4) By_CSS_SELECTOR (VStr "li"))]
     /\ ([3; 1; 2] = [] -> wrs = [])).
Proof.
  split.
  - apply (find_wraps_what_the_driver_reports (Scripted.driver Scripted.barren)
             VNone [("cls", VStr "row")] By_CLASS_NAME (VStr "row")
             (ElemWrapper_obj 0 (OElem 4)) 4 [] Scripted.start);
      reflexivity.
  - apply (find_wraps_what_the_driver_reports (Scripted.driver Scripted.lively)
             (VStr "li") [] By_CSS_SELECTOR (VStr "li")
             (ElemWrapper_obj 0 (OElem 4)) 4 [3; 1; 2] Scripted.start);
      reflexivity.
Defined.

(** ** Chaining on a wrapper *)

Lemma ElemWrapper_clear_run {St} (D : Driver St) (self : elem_wrapper) (e : elem)
    (w : World St) :
  w_elem self = OElem e ->
  ElemWrapper.clear D self w
  = (match fst (respond D (Rclear e) (drv w)) with
     | Ok _ => Ok self
     | Raise x => Raise x
     end, answered D (Rclear e) w).
Proof.
  intros He. unfold ElemWrapper.clear. run. rewrite He, perform_answered.
  now destruct (fst (respond D (Rclear e) (drv w))).
Qed.

Lemma ElemWrapper_send_keys_run {St} (D : Driver St) (self : elem_wrapper) (e : elem)
    (args : list pyval) (w : World St) :
  w_elem self = OElem e ->
  ElemWrapper.send_keys D self args w
  = (fst (respond D (Rsend_keys e args) (drv w)), answered D (Rsend_keys e args) w).
Proof.
  intros He. unfold ElemWrapper.send_keys. run. now rewrite He, perform_answered.
Qed.

(** C9: on a wrapper of an element, [clear()] sends the element's own
    [clear] to the driver and, when that returns, gives back the very
    wrapper it was called on; the chain [clear().send_keys(...)] then
    runs [send_keys] on that same element, and the two requests are all
    the driver sees: no lookup comes between them. *)
Theorem clear_returns_the_wrapper {St} (D : Driver St) (self : elem_wrapper)
    (e : elem) (args : list pyval) (w : World St) :
  w_elem self = OElem e ->
  fst (respond D (Rclear e) (drv w)) = Ok tt ->
  ElemWrapper.clear D self w = (Ok self, answered D (Rclear e) w)
  /\ (wr ← ElemWrapper.clear D self; ElemWrapper.send_keys D wr args) w
     = ElemWrapper.send_keys D self args (answered D (Rclear e) w)
  /\ calls (snd ((wr ← ElemWrapper.clear D self;
                  ElemWrapper.send_keys D wr args) w))
     = calls w ++ [Call (Rclear e); Call (Rsend_keys e args)].
Proof.
  intros He Hclear.
  assert (Hrun : ElemWrapper.clear D self w = (Ok self, answered D (Rclear e) w)).
  { rewrite (ElemWrapper_clear_run D self e w He). now rewrite Hclear. }
  split; [exact Hrun|].
  assert (Hchain : (wr ← ElemWrapper.clear D self; ElemWrapper.send_keys D wr args) w
                   = ElemWrapper.send_keys D self args (answered D (Rclear e) w)).
  { unfold mbind at 1, M_bind at 1. now rewrite Hrun. }
  split; [exact Hchain|].
  rewrite Hchain, (ElemWrapper_send_keys_run D self e args _ He). cbn.
  now rewrite <- app_assoc.
Qed.

Lemma clear_returns_the_wrapper_witness :
  ElemWrapper.clear (Scripted.driver Scripted.lively) (ElemWrapper_obj 3 (OElem 9))
    Scripted.start
  = (Ok (ElemWrapper_obj 3 (OElem 9)),
     answered (Scripted.driver Scripted.lively) (Rclear 9) Scripted.start)
  /\ calls (snd ((wr ← ElemWrapper.clear (Scripted.driver Scripted.lively)
                         (ElemWrapper_obj 3 (OElem 9));
                  ElemWrapper.send_keys (Scripted.driver Scripted.lively) wr
                    [VStr "abc"]) Scripted.start))
     = calls Scripted.start ++ [Call (Rclear 9); Call (Rsend_keys 9 [VStr "abc"])].
Proof.
  destruct (clear_returns_the_wrapper (Scripted.driver Scripted.lively)
              (ElemWrapper_obj 3 (OElem 9)) 9 [VStr "abc"] Scripted.start)
    as (Hclear & _ & Hcalls); [reflexivity | reflexivity |].
  split; [exact Hclear | exact Hcalls].
Defined.

(** ** The positional argument *)

Lemma dict_set_fresh {V} (k : string) (v : V) (d : dict V) :
  dict_mem k d = false -> dict_set k v d = d ++ [(k, v)].
Proof.
  unfold dict_mem. induction d as [|[k' v'] rest IH]; cbn; [reflexivity|].
  destruct (String.eqb k k'); [discriminate|].
  intros H. now rewrite IH.
Qed.

Lemma dict_get_set {V} (k : string) (v : V) (d : dict V) :
  dict_get k (dict_set k v d) = Some v.
Proof.
  induction d as [|[k' v'] rest IH]; cbn.
  - now rewrite String.eqb_refl.
  - destruct (String.eqb k k') eqn:E; cbn.
    + now rewrite String.eqb_refl.
    + now rewrite E.
Qed.

Lemma dict_set_keeps_wf {V} (k : string) (v : V) (d : dict V) :
  dict_wf d -> dict_wf (dict_set k v d).
Proof.
  unfold dict_wf, keys. induction d as [|[k' v'] rest IH]; cbn; intros Hwf.
  - apply NoDup_cons. split; [apply not_elem_of_nil | constructor].
  - apply NoDup_cons in Hwf as [Hnotin Hrest].
    destruct (String.eqb k k') eqn:E; cbn.
    + apply String.eqb_eq in E. subst k'. now apply NoDup_cons.
    + apply NoDup_cons. split; [|now apply IH].
      apply String.eqb_neq in E.
      intros Hin. apply Hnotin. clear IH Hrest Hnotin.
      induction rest as [|[k2 v2] rest IH]; cbn in *.
      * apply list_elem_of_singleton in Hin. congruence.
      * destruct (String.eqb k k2) eqn:E2; cbn in *.
        -- apply String.eqb_eq in E2. subst k2. exact Hin.
        -- apply elem_of_cons in Hin as [-> | Hin]; [left|right; now apply IH].
Qed.

Lemma with_css_given (v : pyval) (kwargs : dict pyval) :
  v <> VNone -> Browser.with_css v kwargs = dict_set "css" v kwargs.
Proof. intros Hv. unfold Browser.with_css. now destruct v. Qed.

Lemma call_with_positional {St A} (fname : string)
    (f : pyval -> dict pyval -> M St A) (v : pyval) :
  call_with fname f [v] [] = call_with fname f [] [("css", v)].
Proof. reflexivity. Qed.

(** C10: a positional argument that is not [None] is the [css]
    parameter, so a call with it alone is the call with the keyword
    [css], and both are the method applied to that value and no other
    keyword.  Each of the four methods then puts it into the mapping
    under the key [css]: [Browser.elem] returns a handle that holds the
    mapping with [css] set to the value, and [Browser.find],
    [ElemWrapper.elem] and [ElemWrapper.find] send the driver the
    lookup by CSS selector with that value.  When the call has other
    keywords as well, the mapping holds them and [css], its resolution
    ends in a [TypeError], the three eager methods raise it with the
    world untouched, and the handle of [Browser.elem] holds that
    mapping. *)
Theorem positional_argument_is_css {St} (D : Driver St) (v : pyval)
    (keywords : dict pyval) (w : World St) :
  v <> VNone ->
  (forall A fname (f : pyval -> dict pyval -> M St A),
     call_with fname f [v] [] = f v []
     /\ call_with fname f [] [("css", v)] = f v [])
  /\ Browser.with_css v keywords = dict_set "css" v keywords
  /\ dict_get "css" (Browser.with_css v keywords) = Some v
  /\ Browser.elem v keywords w
     = (Ok (FutureElement_obj (next_id w) (dict_set "css" v keywords)),
        handle_made w)
  /\ Browser._get_selector (Browser.with_css v []) Browser.selectors
     = Ok (By_CSS_SELECTOR, v)
  /\ Browser.find D v [] w
     = match fst (respond D (Rfind_elements None By_CSS_SELECTOR v) (drv w)) with
       | Ok found =>
           (Ok (wrappers_from (next_id w) found),
            allocated (length found)
              (answered D (Rfind_elements None By_CSS_SELECTOR v) w))
       | Raise e => (Raise e, answered D (Rfind_elements None By_CSS_SELECTOR v) w)
       end
  /\ (forall i root,
        ElemWrapper.find D (ElemWrapper_obj i (OElem root)) v [] w
        = match fst (respond D (Rfind_elements (Some root) By_CSS_SELECTOR v)
                       (drv w)) with
          | Ok found =>
              (Ok (wrappers_from (next_id w) found),
               allocated (length found)
                 (answered D (Rfind_elements (Some root) By_CSS_SELECTOR v) w))
          | Raise e =>
              (Raise e, answered D (Rfind_elements (Some root) By_CSS_SELECTOR v) w)
          end)
  /\ (forall i root,
        ElemWrapper.elem D (ElemWrapper_obj i (OElem root)) v [] w
        = match fst (respond D (Rfind_element (Some root) By_CSS_SELECTOR v)
                       (drv w)) with
          | Ok found =>
              (Ok (ElemWrapper_obj (next_id w) (OElem found)),
               allocated 1 (answered D (Rfind_element (Some root) By_CSS_SELECTOR v) w))
          | Raise e =>
              (Raise e, answered D (Rfind_element (Some root) By_CSS_SELECTOR v) w)
          end)
  /\ (keywords <> [] -> dict_mem "css" keywords = false ->
      (forall fname, bind_css fname [v] keywords = Ok (v, keywords))
      /\ Browser.with_css v keywords = keywords ++ [("css", v)]
      /\ exists e,
           exn_cls e = TypeError
           /\ Browser._get_selector (keywords ++ [("css", v)]) Browser.selectors
              = Raise e
           /\ Browser.find D v keywords w = (Raise e, w)
           /\ (forall self, ElemWrapper.find D self v keywords w = (Raise e, w))
           /\ (forall self, ElemWrapper.elem D self v keywords w = (Raise e, w))
           /\ fst (Browser.elem v keywords w)
              = Ok (FutureElement_obj (next_id w) (keywords ++ [("css", v)]))).
Proof.
  intros Hv.
  assert (Hcss : Browser.with_css v [] = [("css", v)])
    by (now rewrite with_css_given).
  assert (Hsel : Browser._get_selector (Browser.with_css v []) Browser.selectors
                 = Ok (By_CSS_SELECTOR, v)) by (now rewrite Hcss).
  split; [intros A fname f; split; reflexivity|].
  split; [now apply with_css_given|].
  split; [rewrite with_css_given by exact Hv; apply dict_get_set|].
  split; [unfold Browser.elem; rewrite with_css_given by exact Hv; reflexivity|].
  split; [exact Hsel|].
  split; [exact (Browser_find_run D v [] By_CSS_SELECTOR v w Hsel)|].
  split; [intros i root;
          exact (ElemWrapper_find_run D i root v [] By_CSS_SELECTOR v w Hsel)|].
  split.
  { intros i root. unfold ElemWrapper.elem. run. rewrite Hsel. cbn [w_elem].
    rewrite perform_answered.
    destruct (fst (respond D (Rfind_element (Some root) By_CSS_SELECTOR v) (drv w)))
      as [found|e]; cbn; [reflexivity|].
    now destruct (is_WebDriverException (exn_cls e)). }
  intros Hne Hfresh.
  assert (Hmap : Browser.with_css v keywords = keywords ++ [("css", v)]).
  { rewrite with_css_given by exact Hv. now apply dict_set_fresh. }
  split; [intros fname; unfold bind_css; now rewrite Hfresh|].
  split; [exact Hmap|].
  destruct (_get_selector_unfit (keywords ++ [("css", v)]) Browser.selectors)
    as (e & He & Hcls).
  { right; left. rewrite length_app. cbn. destruct keywords; [congruence | cbn; lia]. }
  exists e. split; [exact Hcls|]. split; [exact He|].
  split; [unfold Browser.find; run; now rewrite Hmap, He|].
  split; [intros self; unfold ElemWrapper.find; run; now rewrite Hmap, He|].
  split; [intros self; unfold ElemWrapper.elem; run; now rewrite Hmap, He|].
  unfold Browser.elem. now rewrite Hmap.
Qed.

Lemma positional_argument_is_css_witness :
  let D := Scripted.driver Scripted.lively in
  call_with "find" (Browser.find D) [VStr "li.row"] []
  = Browser.find D (VStr "li.row") []
  /\ call_with "find" (Browser.find D) [] [("css", VStr "li.row")]
     = Browser.find D (VStr "li.row") []
  /\ fst (Browser.find D (VStr "li.row") [] Scripted.start)
     = Ok (wrappers_from 0 [3; 1; 2])
  /\ calls (snd (Browser.find D (VStr "li.row") [] Scripted.start))
     = [Call (Rfind_elements None By_CSS_SELECTOR (VStr "li.row"))]
  /\ fst (Browser.elem (VStr "li.row") [("id", VStr "main")] Scripted.start)
     = Ok (FutureElement_obj 0 [("id", VStr "main"); ("css", VStr "li.row")])
  /\ exists e, exn_cls e = TypeError
               /\ Browser.find D (VStr "li.row") [("id", VStr "main")] Scripted.start
                  = (Raise e, Scripted.start).
Proof.
  intros D.
  destruct (positional_argument_is_css D (VStr "li.row") [("id", VStr "main")]
              Scripted.start)
    as (Hcall & _ & _ & _ & _ & Hfind & _ & _ & Hmore); [discriminate|].
  destruct (Hcall _ "find" (Browser.find D)) as [Hpos Hkey].
  destruct Hmore as (_ & _ & e & Hcls & _ & Hraise & _ & _ & Hhandle);
    [discriminate | reflexivity |].
  split; [exact Hpos|]. split; [exact Hkey|].
  split; [now rewrite Hfind|]. split; [now rewrite Hfind|].
  split; [exact Hhandle|]. exists e. split; [exact Hcls | exact Hraise].
Defined.

(** ** Computations that leave the objects of the wrapper alone *)

Create HintDb frame.

Lemma same_objects_refl {St} (w : World St) : same_objects w w.
Proof. now split. Qed.

Lemma same_objects_trans {St} (w1 w2 w3 : World St) :
  same_objects w1 w2 -> same_objects w2 w3 -> same_objects w1 w3.
Proof. intros [Hs1 Hn1] [Hs2 Hn2]. split; congruence. Qed.

Lemma driver_only_ret {St A} (a : A) : driver_only (mret a : M St A).
Proof. intros w. apply same_objects_refl. Qed.

Lemma driver_only_raise {St A} (e : exn) : driver_only (raise e : M St A).
Proof. intros w. apply same_objects_refl. Qed.

Lemma driver_only_lift {St A} (o : outcome A) : driver_only (lift o : M St A).
Proof. intros w. apply same_objects_refl. Qed.

Lemma driver_only_bind {St A B} (m : M St A) (f : A -> M St B) :
  driver_only m -> (forall a, driver_only (f a)) -> driver_only (m ≫= f).
Proof.
  intros Hm Hf w. unfold mbind, M_bind. specialize (Hm w).
  destruct (m w) as [[a|e] w1]; cbn in *; [|exact Hm].
  eapply same_objects_trans; [exact Hm | apply Hf].
Qed.

Lemma driver_only_try_except {St A} (body : M St A) (catches : exn_class -> bool)
    (handler : exn -> M St A) :
  driver_only body -> (forall e, driver_only (handler e)) ->
  driver_only (try_except body catches handler).
Proof.
  intros Hb Hh w. unfold try_except. specialize (Hb w).
  destruct (body w) as [[a|e] w1]; cbn in *; [exact Hb|].
  destruct (catches (exn_cls e)); [|exact Hb].
  eapply same_objects_trans; [exact Hb | apply Hh].
Qed.

Lemma driver_only_perform {St A} (D : Driver St) (r : request A) :
  driver_only (perform D r).
Proof. intros w. rewrite perform_answered. now split. Qed.

Lemma driver_only_pause {St} (D : Driver St) : driver_only (pause D).
Proof. intros w. now split. Qed.

Lemma driver_only_as_elem {St} (x : pyobj) (name : string) :
  driver_only (as_elem x name : M St elem).
Proof. intros w. destruct x; apply same_objects_refl. Qed.

#[export] Hint Resolve driver_only_ret driver_only_raise driver_only_lift
  driver_only_perform driver_only_pause driver_only_as_elem : frame.

Ltac frame :=
  repeat first
    [ apply driver_only_bind; [|intros ?]
    | apply driver_only_try_except; [|intros ?]
    | solve [auto with frame]
    | match goal with
      | |- driver_only (match ?x with _ => _ end) => destruct x
      | |- driver_only (if ?b then _ else _) => destruct b
      | |- driver_only (let '(_, _) := ?p in _) => destruct p
      end ].

Lemma driver_only_text_predicate {St} (D : Driver St) (locator : By * pyval)
    (text_ : pyval) :
  driver_only (element_containing_text.__call__ D locator text_).
Proof.
  unfold element_containing_text.__call__, element_containing_text._find_element,
    element_containing_text.py_in.
  frame.
Qed.

Lemma driver_only_until_from {St} (D : Driver St) (method : M St pyobj) :
  driver_only method ->
  forall polls screen stacktrace,
    driver_only (WebDriverWait.until_from D polls screen stacktrace method).
Proof.
  intros Hm polls. induction polls as [|polls IH]; intros screen stacktrace w;
    cbn [WebDriverWait.until_from]; specialize (Hm w);
    destruct (method w) as [[x|e] w1]; cbn in *.
  - destruct (truthy x); [exact Hm|]. exact Hm.
  - destruct (WebDriverWait.ignored (exn_cls e)); exact Hm.
  - destruct (truthy x); [exact Hm|].
    eapply same_objects_trans; [exact Hm|].
    apply (IH screen stacktrace (snd (pause D w1))).
  - destruct (WebDriverWait.ignored (exn_cls e)); [|exact Hm].
    eapply same_objects_trans; [exact Hm|].
    apply (IH (exn_screen e) (exn_stacktrace e) (snd (pause D w1))).
Qed.

Lemma driver_only_until_not {St} (D : Driver St) (method : M St pyobj) :
  driver_only method ->
  forall polls, driver_only (WebDriverWait.until_not D polls method).
Proof.
  intros Hm polls. induction polls as [|polls IH]; intros w;
    cbn [WebDriverWait.until_not]; specialize (Hm w);
    destruct (method w) as [[x|e] w1]; cbn in *.
  - destruct (truthy x); exact Hm.
  - destruct (WebDriverWait.ignored (exn_cls e)); exact Hm.
  - destruct (truthy x); cbn; [|exact Hm].
    eapply same_objects_trans; [exact Hm|].
    apply (IH (snd (pause D w1))).
  - destruct (WebDriverWait.ignored (exn_cls e)); exact Hm.
Qed.

Lemma driver_only_driver_wait {St} (D : Driver St) (polls : nat) (neg : bool)
    (method : M St pyobj) :
  driver_only method -> driver_only (driver_wait D polls neg method).
Proof.
  intros Hm. unfold driver_wait, WebDriverWait.until.
  destruct neg; cbn.
  - now apply driver_only_until_not.
  - now apply driver_only_until_from.
Qed.

Lemma driver_only_instantiate {St} (D : Driver St) (meth : FutureElement.wait_method)
    (locator : By * pyval) (arg : pyval) (method : M St pyobj) :
  FutureElement.instantiate D meth locator arg = Ok method -> driver_only method.
Proof.
  unfold FutureElement.instantiate. destruct meth as [c|].
  - destruct (is_not_None arg); [discriminate|]. intros [= <-]. auto with frame.
  - intros [= <-]. apply driver_only_text_predicate.
Qed.

Lemma driver_only_wrapper_clear {St} (D : Driver St) (wr : elem_wrapper) :
  driver_only (ElemWrapper.clear D wr).
Proof. unfold ElemWrapper.clear. frame. Qed.

Lemma driver_only_wrapper_click {St} (D : Driver St) (wr : elem_wrapper) :
  driver_only (ElemWrapper.click D wr).
Proof. unfold ElemWrapper.click. frame. Qed.

Lemma driver_only_wrapper_send_keys {St} (D : Driver St) (wr : elem_wrapper)
    (args : list pyval) :
  driver_only (ElemWrapper.send_keys D wr args).
Proof. unfold ElemWrapper.send_keys. frame. Qed.

Lemma driver_only_wrapper_select {St} (D : Driver St) (wr : elem_wrapper)
    (kwargs : dict pyval) :
  driver_only (ElemWrapper.select D wr kwargs).
Proof. unfold ElemWrapper.select. frame. Qed.

Lemma driver_only_wrapper_getattr {St} (D : Driver St) (wr : elem_wrapper)
    (attr : string) :
  driver_only (ElemWrapper.getattr D wr attr).
Proof. unfold ElemWrapper.getattr, ElemWrapper.__getattr__. frame. Qed.

Lemma driver_only_attr_of {St} (x : option elem_wrapper) (name : string) :
  driver_only (FutureElement.attr_of x name : M St elem_wrapper).
Proof. unfold FutureElement.attr_of. frame. Qed.

#[export] Hint Resolve driver_only_wrapper_clear driver_only_wrapper_click
  driver_only_wrapper_send_keys driver_only_wrapper_select
  driver_only_wrapper_getattr driver_only_attr_of : frame.

(** ** What [FutureElement.wait] does, step by step *)

Lemma wait_bad_condition {St} (D : Driver St) (polls : nat) (self : future_element)
    (condition : string) (arg : pyval) (e : exn) (w : World St) :
  FutureElement.parse_condition condition = Raise e ->
  FutureElement.wait D polls self condition arg w = (Raise e, w).
Proof. intros H. unfold FutureElement.wait. run. now rewrite H. Qed.

Lemma wait_bad_method {St} (D : Driver St) (polls : nat) (self : future_element)
    (condition : string) (arg : pyval) (neg : bool) (cond : string) (e : exn)
    (w : World St) :
  FutureElement.parse_condition condition = Ok (neg, cond) ->
  FutureElement.method_of cond = Raise e ->
  FutureElement.wait D polls self condition arg w = (Raise e, w).
Proof. intros H1 H2. unfold FutureElement.wait. run. now rewrite H1, H2. Qed.

Lemma wait_bad_selector {St} (D : Driver St) (polls : nat) (self : future_element)
    (condition : string) (arg : pyval) (neg : bool) (cond : string)
    (meth : FutureElement.wait_method) (e : exn) (w : World St) :
  FutureElement.parse_condition condition = Ok (neg, cond) ->
  FutureElement.method_of cond = Ok meth ->
  Browser._get_selector (fe_kwargs self) Browser.selectors = Raise e ->
  FutureElement.wait D polls self condition arg w = (Raise e, w).
Proof.
  intros H1 H2 H3. unfold FutureElement.wait. run. now rewrite H1, H2, H3.
Qed.

Lemma wait_bad_argument {St} (D : Driver St) (polls : nat) (self : future_element)
    (condition : string) (arg : pyval) (neg : bool) (cond : string)
    (meth : FutureElement.wait_method) (sel : By) (val : pyval) (e : exn)
    (w : World St) :
  FutureElement.parse_condition condition = Ok (neg, cond) ->
  FutureElement.method_of cond = Ok meth ->
  Browser._get_selector (fe_kwargs self) Browser.selectors = Ok (sel, val) ->
  FutureElement.instantiate D meth (sel, val) arg = Raise e ->
  FutureElement.wait D polls self condition arg w = (Raise e, w).
Proof.
  intros H1 H2 H3 H4. unfold FutureElement.wait. run. rewrite H1, H2, H3, H4.
  unfold FutureElement.instantiate in H4. destruct meth; [|discriminate].
  destruct (is_not_None arg); [|discriminate]. now injection H4 as <-.
Qed.

Lemma wait_run {St} (D : Driver St) (polls : nat) (self : future_element)
    (condition : string) (arg : pyval) (neg : bool) (cond : string)
    (meth : FutureElement.wait_method) (sel : By) (val : pyval)
    (method : M St pyobj) (w : World St) :
  FutureElement.parse_condition condition = Ok (neg, cond) ->
  FutureElement.method_of cond = Ok meth ->
  Browser._get_selector (fe_kwargs self) Browser.selectors = Ok (sel, val) ->
  FutureElement.instantiate D meth (sel, val) arg = Ok method ->
  FutureElement.wait D polls self condition arg w
  = match driver_wait D polls neg method w with
    | (Ok x, w1) =>
        (Ok (Some (ElemWrapper_obj (next_id w1) x)),
         stored self (ElemWrapper_obj (next_id w1) x) (allocated 1 w1))
    | (Raise e, w1) =>
        if is_WebDriverException (exn_cls e)
        then (Raise (new_exn (exn_cls e)
                       (FutureElement.wait_message (fe_kwargs self) neg cond arg e)),
              w1)
        else (Raise e, w1)
    end.
Proof.
  intros H1 H2 H3 H4. unfold FutureElement.wait. run. rewrite H1, H2, H3, H4.
  unfold driver_wait.
  destruct ((if negb neg then WebDriverWait.until D polls
             else WebDriverWait.until_not D polls) method w) as [[x|e] w1].
  - unfold write_slot, read_slot, stored, allocated. cbn.
    now rewrite lookup_insert_eq.
  - now destruct (is_WebDriverException (exn_cls e)).
Qed.

Lemma describe_one (k : string) (v : pyval) :
  FutureElement.describe [(k, v)] = k +:+ ": " +:+ py_str v.
Proof. reflexivity. Qed.

Lemma exn_str_WebDriver (e : exn) :
  is_WebDriverException (exn_cls e) = true ->
  exists tail, exn_str e = "Message: " +:+ exn_msg e +:+ tail.
Proof.
  intros H. unfold exn_str. rewrite H. unfold WebDriverException_str.
  eexists. reflexivity.
Qed.

(** C4: when the wait of the driver ends in a driver error, [wait]
    raises an exception of the same class whose message is, in this
    order, the selector as [key: value], the word [not] exactly when
    the condition was negated, the condition, the argument in brackets
    when one was given, the name of the class of the original error and
    its text, which holds its message; when the wait returns a value,
    a wrapper of that value is stored in the handle and returned. *)
Theorem wait_reraises_with_context {St} (D : Driver St) (polls : nat)
    (self : future_element) (condition : string) (arg : pyval)
    (neg : bool) (cond : string) (meth : FutureElement.wait_method)
    (sel : By) (val : pyval) (method : M St pyobj) (w : World St) :
  FutureElement.parse_condition condition = Ok (neg, cond) ->
  FutureElement.method_of cond = Ok meth ->
  Browser._get_selector (fe_kwargs self) Browser.selectors = Ok (sel, val) ->
  FutureElement.instantiate D meth (sel, val) arg = Ok method ->
  (forall e w1,
     driver_wait D polls neg method w = (Raise e, w1) ->
     is_WebDriverException (exn_cls e) = true ->
     exists k e' tail,
       fe_kwargs self = [(k, val)]
       /\ FutureElement.wait D polls self condition arg w = (Raise e', w1)
       /\ exn_cls e' = exn_cls e
       /\ exn_msg e'
          = "error waiting for '" +:+ (k +:+ ": " +:+ py_str val) +:+ "' to be "
            +:+ (if neg then "not " else "")
            +:+ cond
            +:+ (if is_not_None arg then " (" +:+ py_str arg +:+ ")" else "")
            +:+ ": " +:+ class_name (exn_cls e) +:+ " " +:+ exn_str e
       /\ exn_str e = "Message: " +:+ exn_msg e +:+ tail)
  /\ (forall x w1,
     driver_wait D polls neg method w = (Ok x, w1) ->
     exists wr w2,
       FutureElement.wait D polls self condition arg w = (Ok (Some wr), w2)
       /\ w_elem wr = x
       /\ slots w2 !! fe_id self = Some wr).
Proof.
  intros H1 H2 H3 H4.
  pose proof (wait_run D polls self condition arg neg cond meth sel val
                method w H1 H2 H3 H4) as Hrun.
  split.
  - intros e w1 Hwait Hcls. rewrite Hwait, Hcls in Hrun.
    destruct (_get_selector_Ok _ _ _ _ H3) as (k & Hk & _).
    destruct (exn_str_WebDriver e Hcls) as [tail Htail].
    exists k, (new_exn (exn_cls e)
                 (FutureElement.wait_message (fe_kwargs self) neg cond arg e)), tail.
    split; [exact Hk|]. split; [exact Hrun|]. split; [reflexivity|].
    split; [|exact Htail].
    cbn [exn_msg new_exn]. unfold FutureElement.wait_message.
    now rewrite Hk, describe_one.
  - intros x w1 Hwait. rewrite Hwait in Hrun.
    do 2 eexists. split; [exact Hrun|]. split; [reflexivity|].
    cbn. apply lookup_insert_eq.
Qed.

Lemma wait_reraises_with_context_witness :
  exists e' w1,
    FutureElement.wait (Scripted.driver Scripted.lively) 1
      (FutureElement_obj 0 [("id", VStr "go")]) "not text" (VStr "ell")
      Scripted.start
    = (Raise e', w1)
    /\ exn_cls e' = TimeoutException
    /\ exn_msg e'
       = "error waiting for 'id: go' to be not text (ell): "
         +:+ "TimeoutException Message: " +:+ newline.
Proof.
  pose (D := Scripted.driver Scripted.lively).
  pose (self := FutureElement_obj 0 [("id", VStr "go")]).
  pose (method := element_containing_text.__call__ D (By_ID, VStr "go") (VStr "ell")).
  destruct (wait_reraises_with_context D 1 self "not text" (VStr "ell")
              true "text" FutureElement.Text By_ID (VStr "go") method
              Scripted.start eq_refl eq_refl eq_refl eq_refl) as [Herr _].
  destruct (Herr (Exn TimeoutException "" None None)
              (snd (driver_wait D 1 true method Scripted.start))
              eq_refl eq_refl)
    as (k & e' & tail & Hk & Hrun & Hcls & Hmsg & _).
  exists e', (snd (driver_wait D 1 true method Scripted.start)).
  split; [exact Hrun|]. split; [exact Hcls|].
  injection Hk as <-. exact Hmsg.
Defined.

(** ** Attribute access on a handle *)

Lemma no_lookup_since_refl {St} (w : World St) : no_lookup_since w w.
Proof. exists []. split; [now rewrite app_nil_r | reflexivity]. Qed.

Lemma no_lookup_since_trans {St} (w1 w2 w3 : World St) :
  no_lookup_since w1 w2 -> no_lookup_since w2 w3 -> no_lookup_since w1 w3.
Proof.
  intros (n1 & H1 & Hq1) (n2 & H2 & Hq2). exists (n1 ++ n2). split.
  - now rewrite H2, H1, app_assoc.
  - rewrite forallb_app, Hq1, Hq2. reflexivity.
Qed.

Lemma getattr_resolved {St} (D : Driver St) (self : future_element)
    (attr : string) (wr : elem_wrapper) (w : World St) :
  slots w !! fe_id self = Some wr ->
  FutureElement.__getattr__ D self attr w = ElemWrapper.getattr D wr attr w.
Proof.
  intros Hslot. unfold FutureElement.__getattr__, read_slot,
    FutureElement.attr_of. run. now do 2 rewrite Hslot.
Qed.

Lemma wrapper_getattr_calls {St} (D : Driver St) (wr : elem_wrapper)
    (attr : string) (w : World St) :
  calls (snd (ElemWrapper.getattr D wr attr w)) = calls w
  \/ exists e, w_elem wr = OElem e
               /\ calls (snd (ElemWrapper.getattr D wr attr w))
                  = calls w ++ [Call (Rgetattr e attr)].
Proof.
  unfold ElemWrapper.getattr, ElemWrapper.__getattr__.
  destruct (String.eqb attr "_elem"); [now left|].
  destruct (String.eqb attr "_select_selectors"); [now left|].
  destruct (bool_decide (attr ∈ ElemWrapper.method_names)); [now left|].
  run. destruct (w_elem wr) as [e|b];
    [|destruct (bool_has D attr); now left].
  right. exists e. split; [reflexivity|]. rewrite perform_answered.
  now destruct (fst (respond D (Rgetattr e attr) (drv w))).
Qed.

Lemma wrapper_getattr_no_lookup {St} (D : Driver St) (wr : elem_wrapper)
    (attr : string) (w : World St) :
  no_lookup_since w (snd (ElemWrapper.getattr D wr attr w)).
Proof.
  destruct (wrapper_getattr_calls D wr attr w) as [H | (e & _ & H)].
  - exists []. split; [now rewrite app_nil_r | reflexivity].
  - exists [Call (Rgetattr e attr)]. split; [exact H | reflexivity].
Qed.

(** C6: on a handle whose cache holds a wrapper, [__getattr__] is
    [getattr] on that very wrapper: same result, same effect.  The
    cache and every other handle stay as they were, no wrapper is
    made, and the driver sees no lookup: at most the one read of the
    attribute on the element the wrapper holds. *)
Theorem resolved_handle_answers_from_cache {St} (D : Driver St)
    (self : future_element) (attr : string) (wr : elem_wrapper) (w : World St) :
  slots w !! fe_id self = Some wr ->
  FutureElement.__getattr__ D self attr w = ElemWrapper.getattr D wr attr w
  /\ slots (snd (FutureElement.__getattr__ D self attr w)) = slots w
  /\ next_id (snd (FutureElement.__getattr__ D self attr w)) = next_id w
  /\ no_lookup_since w (snd (FutureElement.__getattr__ D self attr w))
  /\ (calls (snd (FutureElement.__getattr__ D self attr w)) = calls w
      \/ exists e, w_elem wr = OElem e
                   /\ calls (snd (FutureElement.__getattr__ D self attr w))
                      = calls w ++ [Call (Rgetattr e attr)]).
Proof.
  intros Hslot. rewrite (getattr_resolved D self attr wr w Hslot).
  split; [reflexivity|].
  destruct (driver_only_wrapper_getattr D wr attr w) as [Hslots Hnext].
  split; [exact Hslots|]. split; [exact Hnext|].
  split; [apply wrapper_getattr_no_lookup | apply wrapper_getattr_calls].
Qed.

Lemma resolved_handle_answers_from_cache_witness :
  let D := Scripted.driver Scripted.lively in
  let self := FutureElement_obj 0 [("id", VStr "go")] in
  let wr := ElemWrapper_obj 1 (OElem 7) in
  let w := stored self wr (allocated 2 Scripted.start) in
  FutureElement.__getattr__ D self "text" w = ElemWrapper.getattr D wr "text" w
  /\ slots (snd (FutureElement.__getattr__ D self "text" w)) = slots w
  /\ calls (snd (FutureElement.__getattr__ D self "text" w))
     = [Call (Rgetattr 7 "text")].
Proof.
  intros D self wr w.
  destruct (resolved_handle_answers_from_cache D self "text" wr w)
    as (Hsame & Hslots & _ & _ & _); [reflexivity|].
  split; [exact Hsame|]. split; [exact Hslots|]. reflexivity.
Defined.

(** ** The cache of a handle over time *)

Lemma wait_effect {St} (D : Driver St) (polls : nat) (self : future_element)
    (condition : string) (arg : pyval) (w : World St) :
  match FutureElement.wait D polls self condition arg w with
  | (Ok r, w') =>
      exists x w1,
        same_objects w w1
        /\ w' = stored self (ElemWrapper_obj (next_id w) x) (allocated 1 w1)
        /\ r = Some (ElemWrapper_obj (next_id w) x)
  | (Raise _, w') => same_objects w w'
  end.
Proof.
  destruct (FutureElement.parse_condition condition) as [[neg cond]|e] eqn:H1;
    [|rewrite (wait_bad_condition D polls self condition arg e w H1);
      apply same_objects_refl].
  destruct (FutureElement.method_of cond) as [meth|e] eqn:H2;
    [|rewrite (wait_bad_method D polls self condition arg neg cond e w H1 H2);
      apply same_objects_refl].
  destruct (Browser._get_selector (fe_kwargs self) Browser.selectors)
    as [[sel val]|e] eqn:H3;
    [|rewrite (wait_bad_selector D polls self condition arg neg cond meth e w
                 H1 H2 H3); apply same_objects_refl].
  destruct (FutureElement.instantiate D meth (sel, val) arg) as [method|e] eqn:H4;
    [|rewrite (wait_bad_argument D polls self condition arg neg cond meth sel val
                 e w H1 H2 H3 H4); apply same_objects_refl].
  rewrite (wait_run D polls self condition arg neg cond meth sel val method w
             H1 H2 H3 H4).
  pose proof (driver_only_driver_wait D polls neg method
                (driver_only_instantiate D meth (sel, val) arg method H4) w) as Hw.
  destruct (driver_wait D polls neg method w) as [[x|e] w1]; cbn in Hw.
  - exists x, w1. destruct Hw as [Hs Hn]. rewrite Hn. repeat split; assumption.
  - destruct (is_WebDriverException (exn_cls e)); exact Hw.
Qed.

Lemma wait_cache {St} (D : Driver St) (polls : nat) (self : future_element)
    (condition : string) (arg : pyval) (w : World St) :
  cache_kept_or_replaced self w
    (snd (FutureElement.wait D polls self condition arg w)).
Proof.
  pose proof (wait_effect D polls self condition arg w) as H.
  destruct (FutureElement.wait D polls self condition arg w) as [[r|e] w']; cbn.
  - destruct H as (x & w1 & [Hs Hn] & -> & _). right. exists x. cbn. now rewrite Hs.
  - left. apply H.
Qed.

Lemma helper_cache {St A} (D : Driver St) (polls : nat) (self : future_element)
    (name : string) (f : elem_wrapper -> M St A) (w : World St) :
  (forall wr, driver_only (f wr)) ->
  cache_kept_or_replaced self w
    (snd ((elem ← FutureElement.wait D polls self "clickable" VNone;
           wr ← FutureElement.attr_of elem name;
           f wr) w)).
Proof.
  intros Hf. pose proof (wait_cache D polls self "clickable" VNone w) as Hw.
  unfold mbind at 1, M_bind at 1.
  destruct (FutureElement.wait D polls self "clickable" VNone w) as [[r|e] w1];
    cbn in Hw |- *; [|exact Hw].
  assert (Hrest : driver_only (wr ← FutureElement.attr_of r name; f wr)).
  { apply driver_only_bind; [apply driver_only_attr_of | exact Hf]. }
  destruct (Hrest w1) as [Hs _].
  destruct Hw as [Hw | [x Hw]]; [left | right; exists x]; congruence.
Qed.

Lemma operate_cache {St} (D : Driver St) (polls : nat) (self : future_element)
    (op : operation) (w : World St) :
  (exists attr, op = Getattr attr) \/
  cache_kept_or_replaced self w (snd (operate D polls self op w)).
Proof.
  destruct op as [attr|condition arg| | |args|kwargs]; [left; eauto|right..];
    unfold operate, attempt; cbn [snd].
  - apply wait_cache.
  - apply helper_cache. auto with frame.
  - apply helper_cache. auto with frame.
  - apply helper_cache. auto with frame.
  - apply helper_cache. auto with frame.
Qed.

Lemma cache_kept_or_replaced_Some {St} (self : future_element) (w w' : World St) :
  cache_kept_or_replaced self w w' ->
  is_Some (slots w !! fe_id self) -> is_Some (slots w' !! fe_id self).
Proof.
  intros [-> | [x ->]] Hsome; [exact Hsome|].
  rewrite lookup_insert_eq. eauto.
Qed.

(** ** Requests only pile up *)

Create HintDb appends.

Lemma appends_ret {St A} (a : A) : appends (mret a : M St A).
Proof. intros w. exists []. cbn. now rewrite app_nil_r. Qed.

Lemma appends_raise {St A} (e : exn) : appends (raise e : M St A).
Proof. intros w. exists []. cbn. now rewrite app_nil_r. Qed.

Lemma appends_lift {St A} (o : outcome A) : appends (lift o : M St A).
Proof. intros w. exists []. cbn. now rewrite app_nil_r. Qed.

Lemma appends_write_slot {St} (self : future_element) (wr : elem_wrapper) :
  appends (write_slot self wr : M St unit).
Proof. intros w. exists []. cbn. now rewrite app_nil_r. Qed.

Lemma appends_new_ElemWrapper {St} (x : pyobj) :
  appends (new_ElemWrapper x : M St elem_wrapper).
Proof. intros w. exists []. cbn. now rewrite app_nil_r. Qed.

Lemma appends_as_elem {St} (x : pyobj) (name : string) :
  appends (as_elem x name : M St elem).
Proof. intros w. exists []. destruct x; cbn; now rewrite app_nil_r. Qed.

Lemma appends_perform {St A} (D : Driver St) (r : request A) :
  appends (perform D r).
Proof. intros w. exists [Call r]. now rewrite perform_answered. Qed.

Lemma appends_bind {St A B} (m : M St A) (f : A -> M St B) :
  appends m -> (forall a, appends (f a)) -> appends (m ≫= f).
Proof.
  intros Hm Hf w. unfold mbind, M_bind. destruct (Hm w) as [n1 H1].
  destruct (m w) as [[a|e] w1]; cbn in *; [|eauto].
  destruct (Hf a w1) as [n2 H2]. exists (n1 ++ n2).
  now rewrite H2, H1, app_assoc.
Qed.

Lemma appends_try_except {St A} (body : M St A) (catches : exn_class -> bool)
    (handler : exn -> M St A) :
  appends body -> (forall e, appends (handler e)) ->
  appends (try_except body catches handler).
Proof.
  intros Hb Hh w. unfold try_except. destruct (Hb w) as [n1 H1].
  destruct (body w) as [[a|e] w1]; cbn in *; [eauto|].
  destruct (catches (exn_cls e)); [|eauto].
  destruct (Hh e w1) as [n2 H2]. exists (n1 ++ n2).
  now rewrite H2, H1, app_assoc.
Qed.

#[export] Hint Resolve appends_ret appends_raise appends_lift appends_write_slot
  appends_new_ElemWrapper appends_as_elem appends_perform : appends.

Ltac appends :=
  repeat first
    [ solve [auto with appends]
    | apply appends_bind; [|intros ?]
    | apply appends_try_except; [|intros ?]
    | match goal with
      | |- appends (match ?x with _ => _ end) => destruct x
      | |- appends (if ?b then _ else _) => destruct b
      | |- appends (let '(_, _) := ?p in _) => destruct p
      end ].

Lemma starts_with_appends {St A} (c : call) (m : M St A) :
  starts_with c m -> appends m.
Proof. intros H w. destruct (H w) as [rest Hr]. eauto. Qed.

Lemma starts_with_perform {St A} (D : Driver St) (r : request A) :
  starts_with (Call r) (perform D r).
Proof. intros w. exists []. now rewrite perform_answered. Qed.

Lemma starts_with_bind {St A B} (c : call) (m : M St A) (f : A -> M St B) :
  starts_with c m -> (forall a, appends (f a)) -> starts_with c (m ≫= f).
Proof.
  intros Hm Hf w. unfold mbind, M_bind. destruct (Hm w) as [r1 H1].
  destruct (m w) as [[a|e] w1]; cbn in *; [|eauto].
  destruct (Hf a w1) as [n2 H2]. exists (r1 ++ n2).
  now rewrite H2, H1, <- app_assoc.
Qed.

Lemma starts_with_try_except {St A} (c : call) (body : M St A)
    (catches : exn_class -> bool) (handler : exn -> M St A) :
  starts_with c body -> (forall e, appends (handler e)) ->
  starts_with c (try_except body catches handler).
Proof.
  intros Hb Hh w. unfold try_except. destruct (Hb w) as [r1 H1].
  destruct (body w) as [[a|e] w1]; cbn in *; [eauto|].
  destruct (catches (exn_cls e)); [|eauto].
  destruct (Hh e w1) as [n2 H2]. exists (r1 ++ n2).
  now rewrite H2, H1, <- app_assoc.
Qed.

Lemma starts_with_text_predicate {St} (D : Driver St) (sel : By) (val : pyval)
    (text_ : pyval) :
  starts_with (Call (Rfind_element None sel val))
    (element_containing_text.__call__ D (sel, val) text_).
Proof.
  unfold element_containing_text.__call__, element_containing_text._find_element,
    element_containing_text.py_in.
  apply starts_with_try_except; [|intros e; appends].
  apply starts_with_bind; [apply starts_with_perform|]. intros el. appends.
Qed.

Lemma starts_with_until_from {St} (D : Driver St) (c : call) (method : M St pyobj) :
  starts_with c method ->
  forall polls screen stacktrace,
    starts_with c (WebDriverWait.until_from D polls screen stacktrace method).
Proof.
  intros Hm polls. induction polls as [|polls IH]; intros screen stacktrace w;
    cbn [WebDriverWait.until_from]; destruct (Hm w) as [r1 H1];
    destruct (method w) as [[x|e] w1]; cbn in H1.
  - destruct (truthy x); cbn; [eauto|]. exists (r1 ++ [Sleep]).
    now rewrite H1, <- app_assoc.
  - destruct (WebDriverWait.ignored (exn_cls e)); cbn; [|eauto].
    exists (r1 ++ [Sleep]). now rewrite H1, <- app_assoc.
  - destruct (truthy x); cbn; [eauto|].
    destruct (IH screen stacktrace (snd (pause D w1))) as [r2 H2].
    exists (r1 ++ Sleep :: c :: r2). cbn in H2 |- *. rewrite H2, H1.
    now rewrite <- !app_assoc.
  - destruct (WebDriverWait.ignored (exn_cls e)); cbn; [|eauto].
    destruct (IH (exn_screen e) (exn_stacktrace e) (snd (pause D w1))) as [r2 H2].
    exists (r1 ++ Sleep :: c :: r2). cbn in H2 |- *. rewrite H2, H1.
    now rewrite <- !app_assoc.
Qed.

Lemma starts_with_until_not {St} (D : Driver St) (c : call) (method : M St pyobj) :
  starts_with c method ->
  forall polls, starts_with c (WebDriverWait.until_not D polls method).
Proof.
  intros Hm polls. induction polls as [|polls IH]; intros w;
    cbn [WebDriverWait.until_not]; destruct (Hm w) as [r1 H1];
    destruct (method w) as [[x|e] w1]; cbn in H1.
  - destruct (truthy x); cbn; [|eauto]. exists (r1 ++ [Sleep]).
    now rewrite H1, <- app_assoc.
  - destruct (WebDriverWait.ignored (exn_cls e)); cbn; eauto.
  - destruct (truthy x); cbn; [|eauto].
    destruct (IH (snd (pause D w1))) as [r2 H2].
    exists (r1 ++ Sleep :: c :: r2). cbn in H2 |- *. rewrite H2, H1.
    now rewrite <- !app_assoc.
  - destruct (WebDriverWait.ignored (exn_cls e)); cbn; eauto.
Qed.

Lemma names_method_resolves {St} (D : Driver St) (locator : By * pyval)
    (arg : pyval) (name : string) (method : M St pyobj) :
  names_method D locator arg name method ->
  exists meth,
    FutureElement.method_of name = Ok meth
    /\ FutureElement.instantiate D meth locator arg = Ok method.
Proof.
  intros [-> | -> | -> | ]; eexists; split; reflexivity.
Qed.

Lemma names_method_starts {St} (D : Driver St) (sel : By) (val : pyval)
    (arg : pyval) (name : string) (method : M St pyobj) :
  names_method D (sel, val) arg name method ->
  exists first, is_lookup first = true /\ starts_with first method.
Proof.
  intros [_ | _ | _ | ].
  - eexists. split; [|apply starts_with_perform]. reflexivity.
  - eexists. split; [|apply starts_with_perform]. reflexivity.
  - eexists. split; [|apply starts_with_perform]. reflexivity.
  - eexists. split; [|apply starts_with_text_predicate]. reflexivity.
Qed.

Lemma wait_starts_with {St} (D : Driver St) (polls : nat) (self : future_element)
    (condition : string) (arg : pyval) (neg : bool) (cond : string)
    (meth : FutureElement.wait_method) (sel : By) (val : pyval)
    (method : M St pyobj) (first : call) (w : World St) :
  FutureElement.parse_condition condition = Ok (neg, cond) ->
  FutureElement.method_of cond = Ok meth ->
  Browser._get_selector (fe_kwargs self) Browser.selectors = Ok (sel, val) ->
  FutureElement.instantiate D meth (sel, val) arg = Ok method ->
  starts_with first method ->
  exists rest,
    calls (snd (FutureElement.wait D polls self condition arg w))
    = calls w ++ first :: rest.
Proof.
  intros H1 H2 H3 H4 Hfirst.
  rewrite (wait_run D polls self condition arg neg cond meth sel val method w
             H1 H2 H3 H4).
  assert (Hwait : starts_with first (driver_wait D polls neg method)).
  { unfold driver_wait, WebDriverWait.until. destruct neg; cbn [negb].
    - now apply starts_with_until_not.
    - now apply starts_with_until_from. }
  destruct (Hwait w) as [rest Hrest]. exists rest.
  destruct (driver_wait D polls neg method w) as [[x|e] w1]; cbn in Hrest |- *.
  - exact Hrest.
  - now destruct (is_WebDriverException (exn_cls e)).
Qed.

Lemma helper_starts_with {St A} (D : Driver St) (polls : nat)
    (self : future_element) (name : string) (f : elem_wrapper -> M St A)
    (sel : By) (val : pyval) (w : World St) :
  Browser._get_selector (fe_kwargs self) Browser.selectors = Ok (sel, val) ->
  (forall wr, appends (f wr)) ->
  exists rest,
    calls (snd ((elem ← FutureElement.wait D polls self "clickable" VNone;
                 wr ← FutureElement.attr_of elem name;
                 f wr) w))
    = calls w ++ Call (Rcondition element_to_be_clickable (sel, val)) :: rest.
Proof.
  intros Hsel Hf.
  destruct (wait_starts_with D polls self "clickable" VNone false "clickable"
              (FutureElement.Stock element_to_be_clickable) sel val
              (perform D (Rcondition element_to_be_clickable (sel, val)))
              (Call (Rcondition element_to_be_clickable (sel, val))) w
              eq_refl eq_refl Hsel eq_refl (starts_with_perform D _))
    as [r1 H1].
  unfold mbind at 1, M_bind at 1.
  destruct (FutureElement.wait D polls self "clickable" VNone w) as [[r|e] w1];
    cbn in H1 |- *; [|eauto].
  assert (Hrest : appends (wr ← FutureElement.attr_of r name; f wr)).
  { apply appends_bind; [unfold FutureElement.attr_of; appends | exact Hf]. }
  destruct (Hrest w1) as [n2 H2]. exists (r1 ++ n2).
  now rewrite H2, H1, <- app_assoc.
Qed.

(** C2, as stated, fails: a handle that attribute access has resolved
    to a wrapper of element 7 is told to [wait()]; the driver is asked
    for the element again, answers with element 8, and the handle then
    holds a new wrapper of element 8. *)
Lemma resolved_handle_waits_again :
  let D := Scripted.driver Scripted.lively in
  let self := FutureElement_obj 0 [("id", VStr "go")] in
  let w1 := snd (FutureElement.__getattr__ D self "text" (allocated 1 Scripted.start)) in
  let w2 := snd (operate D 1 self (Wait "present" VNone) w1) in
  slots w1 !! fe_id self = Some (ElemWrapper_obj 1 (OElem 7))
  /\ calls w2
     = calls w1 ++ [Call (Rcondition presence_of_element_located (By_ID, VStr "go"))]
  /\ slots w2 !! fe_id self = Some (ElemWrapper_obj 2 (OElem 8))
  /\ ~ resolves_at_most_once D 1 self (Wait "present" VNone) w1.
Proof.
  intros D self w1 w2.
  assert (H1 : slots w1 !! fe_id self = Some (ElemWrapper_obj 1 (OElem 7)))
    by reflexivity.
  assert (H2 : slots w2 !! fe_id self = Some (ElemWrapper_obj 2 (OElem 8)))
    by reflexivity.
  split; [exact H1|]. split; [reflexivity|]. split; [exact H2|].
  intros Hclaim. destruct (Hclaim _ H1) as [_ Hkept].
  fold w2 in Hkept. rewrite H2 in Hkept. discriminate Hkept.
Qed.

(** C2, amended: once a handle holds a wrapper it holds one after every
    operation, so the resolved state is terminal.  Attribute access
    sends no lookup and leaves the wrapper in place.  [wait()] and the
    four helpers do not look at the cache: on a handle whose selector
    resolves, each helper begins with a new evaluation of [clickable]
    against the driver, and [wait()] with one of the four conditions it
    knows begins with a new lookup.  They leave the cache either as it
    was or holding a wrapper made during the call, and [wait()] itself
    stores and returns a new wrapper exactly when it returns, keeping
    the old one when it raises. *)
Theorem resolved_state_is_terminal {St} (D : Driver St) (polls : nat)
    (self : future_element) (op : operation) (wr : elem_wrapper) (w : World St) :
  slots w !! fe_id self = Some wr ->
  is_Some (slots (snd (operate D polls self op w)) !! fe_id self)
  /\ (forall attr, op = Getattr attr -> resolves_at_most_once D polls self op w)
  /\ ((forall attr, op <> Getattr attr) ->
      cache_kept_or_replaced self w (snd (operate D polls self op w)))
  /\ (forall condition arg, op = Wait condition arg ->
      match FutureElement.wait D polls self condition arg w with
      | (Ok r, w') =>
          slots w' !! fe_id self = r
          /\ exists x, r = Some (ElemWrapper_obj (next_id w) x)
      | (Raise _, w') => slots w' !! fe_id self = Some wr
      end)
  /\ (forall sel val,
        Browser._get_selector (fe_kwargs self) Browser.selectors = Ok (sel, val) ->
        (forall attr, op <> Getattr attr) ->
        (forall condition arg, op <> Wait condition arg) ->
        exists rest,
          calls (snd (operate D polls self op w))
          = calls w ++ Call (Rcondition element_to_be_clickable (sel, val)) :: rest)
  /\ (forall sel val condition arg neg cond method,
        Browser._get_selector (fe_kwargs self) Browser.selectors = Ok (sel, val) ->
        op = Wait condition arg ->
        FutureElement.parse_condition condition = Ok (neg, cond) ->
        names_method D (sel, val) arg cond method ->
        exists first rest,
          is_lookup first = true
          /\ calls (snd (operate D polls self op w)) = calls w ++ first :: rest).
Proof.
  intros Hslot.
  assert (Hget : forall attr, op = Getattr attr ->
                 resolves_at_most_once D polls self op w).
  { intros attr -> wr' Hwr'. unfold operate, attempt. cbn [snd].
    rewrite (getattr_resolved D self attr wr' w Hwr').
    split; [apply wrapper_getattr_no_lookup|].
    destruct (driver_only_wrapper_getattr D wr' attr w) as [Hs _].
    now rewrite Hs. }
  split; [|split; [exact Hget|split; [|split; [|split]]]].
  - destruct (operate_cache D polls self op w) as [[attr ->] | Hcache].
    + destruct (Hget attr eq_refl wr Hslot) as [_ Hkept]. rewrite Hkept. eauto.
    + eapply cache_kept_or_replaced_Some; [exact Hcache|]. rewrite Hslot. eauto.
  - intros Hop. destruct (operate_cache D polls self op w) as [[attr ->] | Hcache];
      [now destruct (Hop attr) | exact Hcache].
  - intros condition arg _.
    pose proof (wait_effect D polls self condition arg w) as H.
    destruct (FutureElement.wait D polls self condition arg w) as [[r|e] w'].
    + destruct H as (x & w1 & _ & -> & ->). split; [|eauto].
      cbn. apply lookup_insert_eq.
    + destruct H as [Hs _]. now rewrite Hs.
  - intros sel val Hsel Hnotget Hnotwait.
    destruct op as [attr|condition arg| | |args|kwargs];
      [now destruct (Hnotget attr) | now destruct (Hnotwait condition arg) |..];
      unfold operate, attempt; cbn [snd];
      apply (helper_starts_with D polls self _ _ sel val w Hsel); intros wr0.
    + unfold ElemWrapper.clear. appends.
    + unfold ElemWrapper.click. appends.
    + unfold ElemWrapper.send_keys. appends.
    + unfold ElemWrapper.select. appends.
  - intros sel val condition arg neg cond method Hsel -> Hparse Hnames.
    destruct (names_method_resolves D (sel, val) arg cond method Hnames)
      as (meth & Hmeth & Hinst).
    destruct (names_method_starts D sel val arg cond method Hnames)
      as (first & Hlook & Hfirst).
    destruct (wait_starts_with D polls self condition arg neg cond meth sel val
                method first w Hparse Hmeth Hsel Hinst Hfirst) as [rest Hrest].
    exists first, rest. split; [exact Hlook | exact Hrest].
Qed.

Lemma resolved_state_is_terminal_witness :
  let D := Scripted.driver Scripted.lively in
  let self := FutureElement_obj 0 [("id", VStr "go")] in
  let wr := ElemWrapper_obj 1 (OElem 7) in
  let w := stored self wr (allocated 2 Scripted.start) in
  is_Some (slots (snd (operate D 1 self Click w)) !! fe_id self)
  /\ resolves_at_most_once D 1 self (Getattr "text") w
  /\ cache_kept_or_replaced self w (snd (operate D 1 self Click w))
  /\ (exists rest,
        calls (snd (operate D 1 self Click w))
        = calls w ++ Call (Rcondition element_to_be_clickable (By_ID, VStr "go"))
                     :: rest)
  /\ (exists first rest,
        is_lookup first = true
        /\ calls (snd (operate D 1 self (Wait "not text" (VStr "x")) w))
           = calls w ++ first :: rest).
Proof.
  intros D self wr w.
  destruct (resolved_state_is_terminal D 1 self Click wr w eq_refl)
    as (Hsome & _ & Hcache & _ & Hhelper & _).
  destruct (resolved_state_is_terminal D 1 self (Getattr "text") wr w eq_refl)
    as (_ & Hget & _).
  destruct (resolved_state_is_terminal D 1 self (Wait "not text" (VStr "x")) wr w
              eq_refl) as (_ & _ & _ & _ & _ & Hwait).
  split; [exact Hsome|]. split; [now apply (Hget "text")|].
  split; [apply Hcache; discriminate|].
  split; [apply (Hhelper By_ID (VStr "go")); [reflexivity | discriminate..]|].
  apply (Hwait By_ID (VStr "go") "not text" (VStr "x") true "text"
           (element_containing_text.__call__ D (By_ID, VStr "go") (VStr "x")));
    [reflexivity | reflexivity | reflexivity | constructor].
Defined.

(** ** Where a bad selector is reported *)

Lemma Browser_elem_run {St} (css : pyval) (kwargs : dict pyval) (w : World St) :
  Browser.elem css kwargs w
  = (Ok (FutureElement_obj (next_id w) (Browser.with_css css kwargs)),
     handle_made w).
Proof. reflexivity. Qed.

Lemma Browser_find_bad_selector {St} (D : Driver St) (css : pyval)
    (kwargs : dict pyval) (e : exn) (w : World St) :
  Browser._get_selector (Browser.with_css css kwargs) Browser.selectors = Raise e ->
  Browser.find D css kwargs w = (Raise e, w).
Proof. intros H. unfold Browser.find. run. now rewrite H. Qed.

Lemma ElemWrapper_elem_bad_selector {St} (D : Driver St) (self : elem_wrapper)
    (css : pyval) (kwargs : dict pyval) (e : exn) (w : World St) :
  Browser._get_selector (Browser.with_css css kwargs) Browser.selectors = Raise e ->
  ElemWrapper.elem D self css kwargs w = (Raise e, w).
Proof. intros H. unfold ElemWrapper.elem. run. now rewrite H. Qed.

Lemma ElemWrapper_find_bad_selector {St} (D : Driver St) (self : elem_wrapper)
    (css : pyval) (kwargs : dict pyval) (e : exn) (w : World St) :
  Browser._get_selector (Browser.with_css css kwargs) Browser.selectors = Raise e ->
  ElemWrapper.find D self css kwargs w = (Raise e, w).
Proof. intros H. unfold ElemWrapper.find. run. now rewrite H. Qed.

Lemma getattr_bad_selector {St} (D : Driver St) (self : future_element)
    (attr : string) (e : exn) (w : World St) :
  slots w !! fe_id self = None ->
  Browser._get_selector (fe_kwargs self) Browser.selectors = Raise e ->
  FutureElement.__getattr__ D self attr w = (Raise e, w).
Proof.
  intros Hslot H. unfold FutureElement.__getattr__, read_slot. run.
  now rewrite Hslot, H.
Qed.

Lemma helper_bad_selector {St A} (D : Driver St) (polls : nat)
    (self : future_element) (name : string) (f : elem_wrapper -> M St A)
    (e : exn) (w : World St) :
  Browser._get_selector (fe_kwargs self) Browser.selectors = Raise e ->
  (elem ← FutureElement.wait D polls self "clickable" VNone;
   wr ← FutureElement.attr_of elem name;
   f wr) w = (Raise e, w).
Proof.
  intros H. unfold mbind at 1, M_bind at 1.
  now rewrite (wait_bad_selector D polls self "clickable" VNone false "clickable"
                 (FutureElement.Stock element_to_be_clickable) e w
                 eq_refl eq_refl H).
Qed.

(** C3, as stated, fails: [Browser.elem] with no selector at all raises
    nothing; it returns a handle, and the [TypeError] comes with the
    first attribute access on it. *)
Lemma elem_does_not_check_the_selector :
  let D := Scripted.driver Scripted.lively in
  unfit (Browser.with_css VNone []) Browser.selectors
  /\ Browser.elem VNone [] Scripted.start
     = (Ok (FutureElement_obj 0 []), handle_made Scripted.start)
  /\ FutureElement.__getattr__ D (FutureElement_obj 0 []) "text"
       (handle_made Scripted.start)
     = (Raise (new_exn TypeError "no selector specified"),
        handle_made Scripted.start)
  /\ ~ elem_raises_at_call VNone [] Scripted.start.
Proof.
  intros D. split; [now left|]. split; [reflexivity|]. split; [reflexivity|].
  intros Hclaim. destruct Hclaim as (e & Hraise & _); [now left|].
  discriminate Hraise.
Qed.

(** C3, amended: a mapping unfit for resolution makes [Browser.find],
    [ElemWrapper.elem] and [ElemWrapper.find] end in the [TypeError] of
    the resolver at the call itself, the world untouched, so that the
    driver saw nothing and nothing was tried twice.  [Browser.elem]
    does not resolve: it returns a handle holding the mapping and sends
    the driver nothing; the same [TypeError] comes at the first use of
    that handle, be it attribute access, [wait] with a condition it
    knows, or one of the four helpers, each time with the world
    untouched. *)
Theorem bad_selector_is_reported_at_first_resolution {St} (D : Driver St)
    (polls : nat) (css : pyval) (kwargs : dict pyval) (w : World St) :
  unfit (Browser.with_css css kwargs) Browser.selectors ->
  exists e h w',
    exn_cls e = TypeError
    /\ Browser.find D css kwargs w = (Raise e, w)
    /\ (forall wr, ElemWrapper.elem D wr css kwargs w = (Raise e, w))
    /\ (forall wr, ElemWrapper.find D wr css kwargs w = (Raise e, w))
    /\ Browser.elem css kwargs w = (Ok h, w')
    /\ fe_kwargs h = Browser.with_css css kwargs
    /\ calls w' = calls w /\ drv w' = drv w
    /\ (forall attr, FutureElement.__getattr__ D h attr w' = (Raise e, w'))
    /\ (forall condition arg neg cond meth,
          FutureElement.parse_condition condition = Ok (neg, cond) ->
          FutureElement.method_of cond = Ok meth ->
          FutureElement.wait D polls h condition arg w' = (Raise e, w'))
    /\ FutureElement.clear D polls h w' = (Raise e, w')
    /\ FutureElement.click D polls h w' = (Raise e, w')
    /\ (forall args, FutureElement.send_keys D polls h args w' = (Raise e, w'))
    /\ (forall kw, FutureElement.select D polls h kw w' = (Raise e, w')).
Proof.
  intros Hbad.
  destruct (_get_selector_unfit _ _ Hbad) as (e & He & Hcls).
  exists e, (FutureElement_obj (next_id w) (Browser.with_css css kwargs)),
    (handle_made w).
  split; [exact Hcls|].
  split; [now apply Browser_find_bad_selector|].
  split; [intros wr; now apply ElemWrapper_elem_bad_selector|].
  split; [intros wr; now apply ElemWrapper_find_bad_selector|].
  split; [apply Browser_elem_run|].
  split; [reflexivity|]. split; [reflexivity|]. split; [reflexivity|].
  split.
  { intros attr. apply getattr_bad_selector; [|exact He].
    cbn. apply lookup_delete_eq. }
  split.
  { intros condition arg neg cond meth H1 H2.
    now apply (wait_bad_selector D polls _ condition arg neg cond meth e). }
  split; [now apply helper_bad_selector|].
  split; [now apply helper_bad_selector|].
  split; intros; now apply helper_bad_selector.
Qed.

Lemma bad_selector_is_reported_at_first_resolution_witness :
  exists e h w',
    exn_cls e = TypeError
    /\ Browser.find (Scripted.driver Scripted.lively) (VStr "li")
         [("id", VStr "main")] Scripted.start = (Raise e, Scripted.start)
    /\ Browser.elem (VStr "li") [("id", VStr "main")] Scripted.start = (Ok h, w')
    /\ FutureElement.click (Scripted.driver Scripted.lively) 2 h w' = (Raise e, w').
Proof.
  destruct (bad_selector_is_reported_at_first_resolution
              (Scripted.driver Scripted.lively) 2 (VStr "li")
              [("id", VStr "main")] Scripted.start)
    as (e & h & w' & Hcls & Hfind & _ & _ & Helem & _ & _ & _ & _ & _ & _ & Hclick & _).
  { right; left. cbn. lia. }
  exists e, h, w'. repeat split; assumption.
Defined.

(** ** Substrings *)

Lemma append_String (c : Ascii.ascii) (s t : string) :
  String c s +:+ t = String c (s +:+ t).
Proof. reflexivity. Qed.

Lemma append_empty (t : string) : "" +:+ t = t.
Proof. reflexivity. Qed.

Lemma prefix_iff (s t : string) :
  String.prefix s t = true <-> exists after, t = s +:+ after.
Proof.
  revert t. induction s as [|c s IH]; intros t; cbn.
  - split; [intros _; now exists t | intros _; now destruct t].
  - destruct t as [|c' t]; cbn.
    + split; [discriminate | intros [after H]; rewrite append_String in H; discriminate].
    + destruct (Ascii.ascii_dec c c') as [->|Hne].
      * rewrite IH. split; intros [after H]; exists after;
          rewrite append_String in *; congruence.
      * split; [discriminate | intros [after H]; rewrite append_String in H; congruence].
Qed.

Lemma str_contains_iff (s t : string) :
  str_contains s t = true <-> exists before after, t = before +:+ s +:+ after.
Proof.
  induction t as [|c t IH].
  - cbn [str_contains]. rewrite orb_false_r, prefix_iff. split.
    + intros [after H]. now exists "", after.
    + intros (before & after & H). destruct before as [|c' before];
        [now exists after | rewrite append_String in H; discriminate].
  - cbn [str_contains]. rewrite orb_true_iff, prefix_iff, IH. split.
    + intros [[after H] | (before & after & H)].
      * now exists "", after.
      * exists (String c before), after. rewrite append_String. now rewrite H.
    + intros (before & after & H). destruct before as [|c' before].
      * left. now exists after.
      * right. exists before, after. rewrite append_String in H. congruence.
Qed.

(** ** The text predicate *)

Lemma text_predicate_lookup_raises {St} (D : Driver St) (sel : By) (val : pyval)
    (text_ : pyval) (e : exn) (w : World St) :
  fst (respond D (Rfind_element None sel val) (drv w)) = Raise e ->
  element_containing_text.__call__ D (sel, val) text_ w
  = (if bool_decide (exn_cls e = StaleElementReferenceException)
     then Ok (OBool false) else Raise e,
     answered D (Rfind_element None sel val) w).
Proof.
  intros Hfind. unfold element_containing_text.__call__,
    element_containing_text._find_element. run. cbn [fst snd].
  rewrite perform_answered, Hfind.
  now destruct (bool_decide (exn_cls e = StaleElementReferenceException)).
Qed.

Lemma text_predicate_found {St} (D : Driver St) (sel : By) (val : pyval)
    (target : option string) (el : elem) (text : string) (w : World St) :
  fst (respond D (Rfind_element None sel val) (drv w)) = Ok el ->
  fst (respond D (Rtext el) (drv (answered D (Rfind_element None sel val) w)))
    = Ok text ->
  exists x,
    element_containing_text.__call__ D (sel, val) (text_arg target) w
    = (Ok x, answered D (Rtext el) (answered D (Rfind_element None sel val) w))
    /\ (text_satisfies target text -> x = OElem el)
    /\ (~ text_satisfies target text -> x = OBool false).
Proof.
  intros Hfind Htext. unfold element_containing_text.__call__,
    element_containing_text._find_element, element_containing_text.py_in.
  run. cbn [fst snd]. rewrite perform_answered, Hfind.
  destruct target as [s|]; cbn [text_arg text_satisfies].
  - rewrite perform_answered, Htext.
    destruct (str_contains s text) eqn:E.
    + eexists. split; [reflexivity|]. split; [reflexivity|].
      intros Hnot. exfalso. apply Hnot. now apply str_contains_iff.
    + eexists. split; [reflexivity|]. split; [|reflexivity].
      intros Hsat. apply str_contains_iff in Hsat. congruence.
  - rewrite perform_answered, Htext.
    destruct (String.eqb text "") eqn:E; cbn [negb].
    + apply String.eqb_eq in E. eexists. split; [reflexivity|].
      split; [intros Hne; now destruct Hne | reflexivity].
    + apply String.eqb_neq in E. eexists. split; [reflexivity|].
      split; [reflexivity | intros Hnot; now destruct Hnot].
Qed.

(** ** One poll at a time *)

Lemma until_from_done {St} (D : Driver St) (polls : nat) (screen : option string)
    (stacktrace : option (list string)) (method : M St pyobj)
    (x : pyobj) (w w1 : World St) :
  method w = (Ok x, w1) -> truthy x = true ->
  WebDriverWait.until_from D polls screen stacktrace method w = (Ok x, w1).
Proof.
  intros Hm Hx. destruct polls; cbn [WebDriverWait.until_from];
    now rewrite Hm, Hx.
Qed.

Lemma until_from_retry {St} (D : Driver St) (polls : nat) (screen : option string)
    (stacktrace : option (list string)) (method : M St pyobj)
    (x : pyobj) (w w1 : World St) :
  method w = (Ok x, w1) -> truthy x = false ->
  WebDriverWait.until_from D (S polls) screen stacktrace method w
  = WebDriverWait.until_from D polls screen stacktrace method (paused D w1).
Proof.
  intros Hm Hx. cbn [WebDriverWait.until_from]. now rewrite Hm, Hx.
Qed.

Lemma text_predicate_text_raises {St} (D : Driver St) (sel : By) (val : pyval)
    (target : option string) (el : elem) (e : exn) (w : World St) :
  fst (respond D (Rfind_element None sel val) (drv w)) = Ok el ->
  fst (respond D (Rtext el) (drv (answered D (Rfind_element None sel val) w)))
    = Raise e ->
  element_containing_text.__call__ D (sel, val) (text_arg target) w
  = (if bool_decide (exn_cls e = StaleElementReferenceException)
     then Ok (OBool false) else Raise e,
     answered D (Rtext el) (answered D (Rfind_element None sel val) w)).
Proof.
  intros Hfind Htext. unfold element_containing_text.__call__,
    element_containing_text._find_element, element_containing_text.py_in.
  run. cbn [fst snd]. rewrite perform_answered, Hfind.
  destruct target as [s|]; cbn [text_arg]; rewrite perform_answered, Htext;
    now destruct (bool_decide (exn_cls e = StaleElementReferenceException)).
Qed.

(** C7: the text predicate answers [False] when the lookup, or the
    reading of the text, hits a stale element, so that the poll goes
    on; when the element is found and its text read, it answers with
    the element exactly when the text is not empty (no target) or has
    the target as a substring, and with [False] otherwise; and when the
    first poll hits a stale element and the second finds the element
    with a fitting text, [until] returns the element and
    [FutureElement.wait] stores and returns a wrapper of it. *)
Theorem text_predicate_retries_on_stale {St} (D : Driver St) (polls : nat)
    (self : future_element) (sel : By) (val : pyval) (target : option string)
    (el : elem) (text : string) (e : exn) (w : World St) :
  exn_cls e = StaleElementReferenceException ->
  (fst (respond D (Rfind_element None sel val) (drv w)) = Raise e ->
   element_containing_text.__call__ D (sel, val) (text_arg target) w
   = (Ok (OBool false), answered D (Rfind_element None sel val) w))
  /\ (fst (respond D (Rfind_element None sel val) (drv w)) = Ok el ->
      fst (respond D (Rtext el) (drv (answered D (Rfind_element None sel val) w)))
        = Raise e ->
      element_containing_text.__call__ D (sel, val) (text_arg target) w
      = (Ok (OBool false),
         answered D (Rtext el) (answered D (Rfind_element None sel val) w)))
  /\ (fst (respond D (Rfind_element None sel val) (drv w)) = Ok el ->
      fst (respond D (Rtext el) (drv (answered D (Rfind_element None sel val) w)))
        = Ok text ->
      exists x,
        element_containing_text.__call__ D (sel, val) (text_arg target) w
        = (Ok x, answered D (Rtext el) (answered D (Rfind_element None sel val) w))
        /\ (text_satisfies target text -> x = OElem el)
        /\ (~ text_satisfies target text -> x = OBool false))
  /\ (let w1 := paused D (answered D (Rfind_element None sel val) w) in
      let w2 := answered D (Rtext el) (answered D (Rfind_element None sel val) w1) in
      Browser._get_selector (fe_kwargs self) Browser.selectors = Ok (sel, val) ->
      fst (respond D (Rfind_element None sel val) (drv w)) = Raise e ->
      fst (respond D (Rfind_element None sel val) (drv w1)) = Ok el ->
      fst (respond D (Rtext el) (drv (answered D (Rfind_element None sel val) w1)))
        = Ok text ->
      text_satisfies target text ->
      WebDriverWait.until D (S polls)
        (element_containing_text.__call__ D (sel, val) (text_arg target)) w
      = (Ok (OElem el), w2)
      /\ FutureElement.wait D (S polls) self "text" (text_arg target) w
         = (Ok (Some (ElemWrapper_obj (next_id w) (OElem el))),
            stored self (ElemWrapper_obj (next_id w) (OElem el)) (allocated 1 w2))).
Proof.
  intros Hstale.
  assert (Hdec : bool_decide (exn_cls e = StaleElementReferenceException) = true)
    by now apply bool_decide_eq_true.
  split; [|split; [|split]].
  - intros Hfind.
    rewrite (text_predicate_lookup_raises D sel val _ e w Hfind). now rewrite Hdec.
  - intros Hfind Htext.
    rewrite (text_predicate_text_raises D sel val target el e w Hfind Htext).
    now rewrite Hdec.
  - intros Hfind Htext. now apply text_predicate_found.
  - intros w1 w2 Hsel Hfirst Hfind Htext Hsat.
    pose (method := element_containing_text.__call__ D (sel, val) (text_arg target)).
    assert (Hpoll1 : method w
                     = (Ok (OBool false), answered D (Rfind_element None sel val) w)).
    { unfold method.
      rewrite (text_predicate_lookup_raises D sel val _ e w Hfirst). now rewrite Hdec. }
    assert (Hpoll2 : method w1 = (Ok (OElem el), w2)).
    { destruct (text_predicate_found D sel val target el text w1 Hfind Htext)
        as (x & Hrun & Hyes & _).
      unfold method. rewrite Hrun. now rewrite (Hyes Hsat). }
    assert (Huntil : WebDriverWait.until D (S polls) method w = (Ok (OElem el), w2)).
    { unfold WebDriverWait.until.
      rewrite (until_from_retry D polls None None method _ w _ Hpoll1 eq_refl).
      now apply until_from_done. }
    split; [exact Huntil|].
    rewrite (wait_run D (S polls) self "text" (text_arg target) false "text"
               FutureElement.Text sel val method w eq_refl eq_refl Hsel eq_refl).
    unfold driver_wait. cbn [negb]. rewrite Huntil.
    reflexivity.
Qed.

Lemma text_predicate_retries_on_stale_witness :
  let D := Scripted.driver Scripted.flaky in
  let self := FutureElement_obj 0 [("id", VStr "go")] in
  element_containing_text.__call__ D (By_ID, VStr "go") (VStr "ea") Scripted.start
  = (Ok (OBool false),
     answered D (Rfind_element None By_ID (VStr "go")) Scripted.start)
  /\ fst (WebDriverWait.until D 2
            (element_containing_text.__call__ D (By_ID, VStr "go") (VStr "ea"))
            Scripted.start)
     = Ok (OElem 5)
  /\ fst (FutureElement.wait D 2 self "text" (VStr "ea") Scripted.start)
     = Ok (Some (ElemWrapper_obj 0 (OElem 5))).
Proof.
  intros D self.
  destruct (text_predicate_retries_on_stale D 1 self By_ID (VStr "go")
              (Some "ea") 5 "ready" Scripted.stale Scripted.start eq_refl)
    as (Hfalse & _ & _ & Hwait).
  destruct Hwait as [Huntil Hrun];
    [reflexivity | reflexivity | reflexivity | reflexivity | |].
  { exists "r", "dy". reflexivity. }
  split; [apply Hfalse; reflexivity|].
  split.
  - change (VStr "ea") with (text_arg (Some "ea")). now rewrite Huntil.
  - change (VStr "ea") with (text_arg (Some "ea")). now rewrite Hrun.
Defined.

(** ** Negated waits *)

Lemma take_word_not (rest : string) :
  (rest = "" \/ exists c r, rest = String c r /\ is_space c = true) ->
  take_word ("not" +:+ rest) = "not".
Proof.
  intros [-> | (c & r & -> & Hc)].
  - reflexivity.
  - rewrite !append_String, append_empty. cbn [take_word].
    replace (is_space "n"%char) with false by reflexivity.
    replace (is_space "o"%char) with false by reflexivity.
    replace (is_space "t"%char) with false by reflexivity.
    now rewrite Hc.
Qed.

Lemma parse_condition_not (rest : string) :
  (rest = "" \/ exists c r, rest = String c r /\ is_space c = true) ->
  FutureElement.parse_condition ("not" +:+ rest)
  = Ok (true, if String.eqb (lstrip rest) "" then "present" else lstrip rest).
Proof.
  intros Hrest. unfold FutureElement.parse_condition, first_word.
  replace (lstrip ("not" +:+ rest)) with ("not" +:+ rest) by reflexivity.
  rewrite (take_word_not rest Hrest). cbn [String.eqb Ascii.eqb Bool.eqb].
  replace (drop_chars 3 ("not" +:+ rest)) with rest by reflexivity.
  reflexivity.
Qed.

Lemma until_not_succeeds_iff {St} (D : Driver St) (method : M St pyobj)
    (polls : nat) (w : World St) :
  (exists x w1, WebDriverWait.until_not D polls method w = (Ok x, w1))
  <-> exists i, i <= polls
                /\ absent method (poll_start D method i w) = true
                /\ forall j, j < i -> holds method (poll_start D method j w) = true.
Proof.
  revert w. induction polls as [|polls IH]; intros w;
    cbn [WebDriverWait.until_not]; destruct (method w) as [[x|e] w1] eqn:Hm.
  - destruct (truthy x) eqn:Hx; cbn [negb].
    + split; [intros (y & w2 & H); discriminate H|].
      intros (i & Hi & Habs & _). assert (i = 0) as -> by lia.
      cbn in Habs. unfold absent in Habs. rewrite Hm in Habs. cbn in Habs.
      rewrite Hx in Habs. discriminate.
    + split; [intros _|eauto]. exists 0. split; [lia|]. split; [|intros j Hj; lia].
      cbn. unfold absent. rewrite Hm. cbn. now rewrite Hx.
  - destruct (WebDriverWait.ignored (exn_cls e)) eqn:Hig.
    + split; [intros _|eauto]. exists 0. split; [lia|]. split; [|intros j Hj; lia].
      cbn. unfold absent. now rewrite Hm.
    + split; [intros (y & w2 & H); discriminate H|].
      intros (i & Hi & Habs & Hholds). destruct i as [|i].
      * cbn in Habs. unfold absent in Habs. rewrite Hm in Habs. cbn in Habs. congruence.
      * specialize (Hholds 0 ltac:(lia)). cbn in Hholds. unfold holds in Hholds.
        rewrite Hm in Hholds. discriminate.
  - destruct (truthy x) eqn:Hx; cbn [negb].
    + change (snd (pause D w1)) with (paused D w1).
      replace (let '(_, w2) := pause D w1 in WebDriverWait.until_not D polls method w2)
        with (WebDriverWait.until_not D polls method (paused D w1)) by reflexivity.
      rewrite (IH (paused D w1)). split.
      * intros (i & Hi & Habs & Hholds). exists (S i). split; [lia|].
        cbn [poll_start]. rewrite Hm. cbn [snd]. split; [exact Habs|].
        intros [|j] Hj.
        -- cbn. unfold holds. rewrite Hm. exact Hx.
        -- cbn [poll_start]. rewrite Hm. apply Hholds. lia.
      * intros (i & Hi & Habs & Hholds). destruct i as [|i].
        -- cbn in Habs. unfold absent in Habs. rewrite Hm in Habs. cbn in Habs.
           rewrite Hx in Habs. discriminate.
        -- exists i. split; [lia|]. cbn [poll_start] in Habs. rewrite Hm in Habs.
           split; [exact Habs|]. intros j Hj.
           specialize (Hholds (S j) ltac:(lia)). cbn [poll_start] in Hholds.
           now rewrite Hm in Hholds.
    + split; [intros _|eauto]. exists 0. split; [lia|]. split; [|intros j Hj; lia].
      cbn. unfold absent. rewrite Hm. cbn. now rewrite Hx.
  - destruct (WebDriverWait.ignored (exn_cls e)) eqn:Hig.
    + split; [intros _|eauto]. exists 0. split; [lia|]. split; [|intros j Hj; lia].
      cbn. unfold absent. now rewrite Hm.
    + split; [intros (y & w2 & H); discriminate H|].
      intros (i & Hi & Habs & Hholds). destruct i as [|i].
      * cbn in Habs. unfold absent in Habs. rewrite Hm in Habs. cbn in Habs. congruence.
      * specialize (Hholds 0 ltac:(lia)). cbn in Hholds. unfold holds in Hholds.
        rewrite Hm in Hholds. discriminate.
Qed.

Lemma until_not_times_out {St} (D : Driver St) (method : M St pyobj)
    (polls : nat) (w : World St) :
  (forall j, j <= polls -> holds method (poll_start D method j w) = true) ->
  exists w1,
    WebDriverWait.until_not D polls method w
    = (Raise (Exn TimeoutException "" None None), w1).
Proof.
  revert w. induction polls as [|polls IH]; intros w Hholds;
    cbn [WebDriverWait.until_not];
    pose proof (Hholds 0 ltac:(lia)) as H0; cbn in H0; unfold holds in H0;
    destruct (method w) as [[x|e] w1] eqn:Hm; cbn in H0; try discriminate;
    rewrite H0; cbn [negb].
  - eexists. reflexivity.
  - apply (IH (paused D w1)). intros j Hj.
    specialize (Hholds (S j) ltac:(lia)). cbn [poll_start] in Hholds.
    now rewrite Hm in Hholds.
Qed.

(** C5: a condition that begins with the word [not] is split into the
    negation and the rest, [present] standing in for an empty rest;
    the wait then runs [until_not] on the method that the name left
    stands for: the condition of Selenium for [present], [clickable]
    and [visible], the text predicate for [text].  It returns exactly
    when, within the polls the timeout allows, the driver reports at
    some poll that the condition does not hold (a false value, or an
    exception that is a [NoSuchElementException], an
    [InvalidSelectorException] being one) after reporting at every
    earlier poll that it holds; what it returns is a wrapper
    of the value [until_not] gave.  When the driver reports at every
    poll that the condition holds, the wait ends in a
    [TimeoutException]. *)
Theorem negated_wait_is_inverted {St} (D : Driver St) (polls : nat)
    (self : future_element) (rest : string) (arg : pyval) (base : string)
    (sel : By) (val : pyval) (method : M St pyobj) (w : World St) :
  (rest = "" \/ exists c r, rest = String c r /\ is_space c = true) ->
  base = (if String.eqb (lstrip rest) "" then "present" else lstrip rest) ->
  Browser._get_selector (fe_kwargs self) Browser.selectors = Ok (sel, val) ->
  names_method D (sel, val) arg base method ->
  FutureElement.parse_condition ("not" +:+ rest) = Ok (true, base)
  /\ ((exists r w', FutureElement.wait D polls self ("not" +:+ rest) arg w = (Ok r, w'))
      <-> exists i, i <= polls
                    /\ absent method (poll_start D method i w) = true
                    /\ forall j, j < i ->
                         holds method (poll_start D method j w) = true)
  /\ (forall x w1,
        WebDriverWait.until_not D polls method w = (Ok x, w1) ->
        FutureElement.wait D polls self ("not" +:+ rest) arg w
        = (Ok (Some (ElemWrapper_obj (next_id w1) x)),
           stored self (ElemWrapper_obj (next_id w1) x) (allocated 1 w1)))
  /\ ((forall j, j <= polls -> holds method (poll_start D method j w) = true) ->
      exists e' w',
        FutureElement.wait D polls self ("not" +:+ rest) arg w = (Raise e', w')
        /\ exn_cls e' = TimeoutException).
Proof.
  intros Hrest -> Hsel Hnames.
  destruct (names_method_resolves D (sel, val) arg _ method Hnames)
    as (meth & Hmeth & Hinst).
  pose proof (parse_condition_not rest Hrest) as Hparse.
  pose proof (wait_run D polls self ("not" +:+ rest) arg true _ meth sel val
                method w Hparse Hmeth Hsel Hinst) as Hrun.
  unfold driver_wait in Hrun. cbn [negb] in Hrun.
  split; [exact Hparse|]. split; [|split].
  - rewrite <- until_not_succeeds_iff. rewrite Hrun.
    destruct (WebDriverWait.until_not D polls method w) as [[x|e] w1].
    + split; intros _; eauto.
    + split.
      * intros (r & w' & H).
        destruct (is_WebDriverException (exn_cls e)); discriminate H.
      * intros (y & w2 & H). discriminate H.
  - intros x w1 Huntil. now rewrite Hrun, Huntil.
  - intros Hholds.
    destruct (until_not_times_out D method polls w Hholds) as [w1 Hto].
    rewrite Hrun, Hto. cbn. eauto.
Qed.

Lemma negated_wait_is_inverted_witness :
  let self := FutureElement_obj 0 [("id", VStr "go")] in
  (exists r w',
     FutureElement.wait (Scripted.driver Scripted.barren) 2 self "not clickable"
       VNone Scripted.start = (Ok r, w'))
  /\ (exists e' w',
     FutureElement.wait (Scripted.driver Scripted.lively) 2 self "not clickable"
       VNone Scripted.start = (Raise e', w')
     /\ exn_cls e' = TimeoutException).
Proof.
  intros self. split.
  - destruct (negated_wait_is_inverted (Scripted.driver Scripted.barren) 2 self
                " clickable" VNone "clickable" By_ID (VStr "go")
                (perform (Scripted.driver Scripted.barren)
                   (Rcondition element_to_be_clickable (By_ID, VStr "go")))
                Scripted.start) as (_ & Hiff & _).
    + right. exists " "%char, "clickable". split; reflexivity.
    + reflexivity.
    + reflexivity.
    + now constructor.
    + apply Hiff. exists 0. split; [lia|]. split; [reflexivity|]. intros j Hj. lia.
  - destruct (negated_wait_is_inverted (Scripted.driver Scripted.lively) 2 self
                " clickable" VNone "clickable" By_ID (VStr "go")
                (perform (Scripted.driver Scripted.lively)
                   (Rcondition element_to_be_clickable (By_ID, VStr "go")))
                Scripted.start) as (_ & _ & _ & Hto).
    + right. exists " "%char, "clickable". split; reflexivity.
    + reflexivity.
    + reflexivity.
    + now constructor.
    + apply Hto. intros [|[|[|j]]] Hj; [reflexivity..|lia].
Defined.

(** * Further properties of the code *)

(** ** Which error the resolvers report *)

Lemma first_bad_key_split {V T} (kwargs : dict V) (table : dict T)
    (known : list string) (k : string) (later : list string) :
  keys kwargs = known ++ k :: later ->
  (forall k', In k' known -> dict_mem k' table = true) ->
  dict_mem k table = false ->
  Browser.first_bad_key kwargs table = Some k.
Proof.
  unfold Browser.first_bad_key. intros -> Hknown Hk.
  induction known as [|k0 known IH]; cbn [app List.find].
  - now rewrite Hk.
  - rewrite (Hknown k0 (or_introl eq_refl)). cbn [negb].
    apply IH. intros k' Hin. apply Hknown. now right.
Qed.

(** [_get_selector] checks the keys before it counts them.  A mapping
    with a key the table does not know is reported as
    [bad selector: k] for the first such key in the order of the call,
    however many keys there are; only a mapping of known keys is
    reported as empty ([no selector specified]) or as too large
    ([only one selector, please]). *)
Theorem _get_selector_reports {T} (table : dict T) (kwargs : dict pyval) :
  (forall known k later,
     keys kwargs = known ++ k :: later ->
     (forall k', In k' known -> dict_mem k' table = true) ->
     dict_mem k table = false ->
     Browser._get_selector kwargs table
     = Raise (new_exn TypeError ("bad selector: " +:+ k)))
  /\ (kwargs = [] ->
      Browser._get_selector kwargs table
      = Raise (new_exn TypeError "no selector specified"))
  /\ ((forall k, In k (keys kwargs) -> dict_mem k table = true) ->
      1 < length kwargs ->
      Browser._get_selector kwargs table
      = Raise (new_exn TypeError "only one selector, please")).
Proof.
  split; [|split].
  - intros known k later Hkeys Hknown Hk. unfold Browser._get_selector.
    now rewrite (first_bad_key_split kwargs table known k later Hkeys Hknown Hk).
  - now intros ->.
  - intros Hknown Hlen. unfold Browser._get_selector.
    apply first_bad_key_None in Hknown. rewrite Hknown.
    destruct kwargs as [|[sel val] rest]; [cbn in Hlen; lia|].
    apply Nat.ltb_lt in Hlen. now rewrite Hlen.
Qed.

Lemma _get_selector_reports_witness :
  Browser._get_selector [("id", VStr "a"); ("colour", VStr "red"); ("size", VInt 3)]
    Browser.selectors
  = Raise (new_exn TypeError "bad selector: colour")
  /\ Browser._get_selector [("id", VStr "a"); ("name", VStr "b")] Browser.selectors
     = Raise (new_exn TypeError "only one selector, please").
Proof.
  split.
  - apply (_get_selector_reports Browser.selectors
             [("id", VStr "a"); ("colour", VStr "red"); ("size", VInt 3)])
      with (known := ["id"]) (later := ["size"]).
    + reflexivity.
    + intros k' [<- | []]. reflexivity.
    + reflexivity.
  - apply (_get_selector_reports Browser.selectors
             [("id", VStr "a"); ("name", VStr "b")]).
    + intros k [<- | [<- | []]]; reflexivity.
    + cbn. lia.
Defined.

(** [_get_condition] checks the keys first as well, but counts in the
    other order: an unknown key gives [bad wait condition: k], then
    more than one key gives [only one condition, please], and the empty
    mapping gives [no condition specified]. *)
Theorem _get_condition_reports (kwargs : dict pyval) :
  (forall known k later,
     keys kwargs = known ++ k :: later ->
     (forall k', In k' known -> dict_mem k' Browser.conditions = true) ->
     dict_mem k Browser.conditions = false ->
     Browser._get_condition kwargs
     = Raise (new_exn TypeError ("bad wait condition: " +:+ k)))
  /\ (kwargs = [] ->
      Browser._get_condition kwargs
      = Raise (new_exn TypeError "no condition specified"))
  /\ ((forall k, In k (keys kwargs) -> dict_mem k Browser.conditions = true) ->
      1 < length kwargs ->
      Browser._get_condition kwargs
      = Raise (new_exn TypeError "only one condition, please")).
Proof.
  split; [|split].
  - intros known k later Hkeys Hknown Hk. unfold Browser._get_condition.
    now rewrite (first_bad_key_split kwargs _ known k later Hkeys Hknown Hk).
  - now intros ->.
  - intros Hknown Hlen. unfold Browser._get_condition.
    apply first_bad_key_None in Hknown. rewrite Hknown.
    apply Nat.ltb_lt in Hlen. now rewrite Hlen.
Qed.

Lemma _get_condition_reports_witness :
  Browser._get_condition [("title", VStr "a"); ("url", VStr "b")]
  = Raise (new_exn TypeError "bad wait condition: url")
  /\ Browser._get_condition [("title", VStr "a"); ("title_has", VStr "b")]
     = Raise (new_exn TypeError "only one condition, please").
Proof.
  split.
  - apply (_get_condition_reports [("title", VStr "a"); ("url", VStr "b")])
      with (known := ["title"]) (later := []).
    + reflexivity.
    + intros k' [<- | []]. reflexivity.
    + reflexivity.
  - apply (_get_condition_reports [("title", VStr "a"); ("title_has", VStr "b")]).
    + intros k [<- | [<- | []]]; reflexivity.
    + cbn. lia.
Defined.

(** ** Page-level waits *)

Lemma until_from_truthy {St} (D : Driver St) (method : M St pyobj) (polls : nat)
    (screen : option string) (stacktrace : option (list string))
    (x : pyobj) (w w1 : World St) :
  WebDriverWait.until_from D polls screen stacktrace method w = (Ok x, w1) ->
  truthy x = true.
Proof.
  revert screen stacktrace w. induction polls as [|polls IH];
    intros screen stacktrace w; cbn [WebDriverWait.until_from];
    destruct (method w) as [[y|e] w0].
  - destruct (truthy y) eqn:Hy; cbn; [now intros [= <- _] | discriminate].
  - destruct (WebDriverWait.ignored (exn_cls e)); cbn; discriminate.
  - destruct (truthy y) eqn:Hy; cbn; [now intros [= <- _] | apply IH].
  - destruct (WebDriverWait.ignored (exn_cls e)); cbn; [apply IH | discriminate].
Qed.

Lemma Browser_wait_run {St} (D : Driver St) (polls : nat) (k : string) (v : pyval)
    (c : page_condition) (w : World St) :
  dict_get k Browser.conditions = Some c ->
  Browser.wait D polls [(k, v)] w
  = match WebDriverWait.until D polls (perform D (Rpage_condition c v)) w with
    | (Ok x, w1) => (Ok (ElemWrapper_obj (next_id w1) x), allocated 1 w1)
    | (Raise e, w1) => (Raise e, w1)
    end.
Proof.
  intros Hk. unfold Browser.wait. run.
  rewrite (_get_condition_one k v c Hk).
  destruct (WebDriverWait.until D polls (perform D (Rpage_condition c v)) w)
    as [[x|e] w1]; reflexivity.
Qed.

(** [Browser.wait] resolves its mapping before it goes to the driver:
    an unfit mapping ends in a [TypeError] with the world untouched.
    With one known condition it polls that page condition; what it
    returns is a new wrapper of a true value, and whatever the polling
    raises, a timeout included, comes out as it is, without the added
    context of [FutureElement.wait].  No handle is touched either way. *)
Theorem Browser_wait_polls_the_page {St} (D : Driver St) (polls : nat)
    (kwargs : dict pyval) (w : World St) :
  (unfit kwargs Browser.conditions ->
   exists e, exn_cls e = TypeError /\ Browser.wait D polls kwargs w = (Raise e, w))
  /\ (forall k v c,
        kwargs = [(k, v)] -> dict_get k Browser.conditions = Some c ->
        match WebDriverWait.until D polls (perform D (Rpage_condition c v)) w with
        | (Ok x, w1) =>
            Browser.wait D polls kwargs w
            = (Ok (ElemWrapper_obj (next_id w) x), allocated 1 w1)
            /\ truthy x = true /\ slots w1 = slots w
        | (Raise e, w1) =>
            Browser.wait D polls kwargs w = (Raise e, w1) /\ slots w1 = slots w
        end).
Proof.
  split.
  - intros Hbad. destruct (_get_condition_unfit kwargs Hbad) as (e & He & Hcls).
    exists e. split; [exact Hcls|]. unfold Browser.wait. run. now rewrite He.
  - intros k v c -> Hk. rewrite (Browser_wait_run D polls k v c w Hk).
    pose proof (driver_only_until_from D (perform D (Rpage_condition c v))
                  (driver_only_perform D _) polls None None w) as Hframe.
    fold (WebDriverWait.until D polls (perform D (Rpage_condition c v))) in Hframe.
    destruct (WebDriverWait.until D polls (perform D (Rpage_condition c v)) w)
      as [[x|e] w1] eqn:Hu; destruct Hframe as [Hs Hn]; cbn in Hs, Hn.
    + split; [now rewrite Hn|]. split; [|exact Hs].
      exact (until_from_truthy D _ polls None None x w w1 Hu).
    + now split.
Qed.

Lemma Browser_wait_polls_the_page_witness :
  (exists e, exn_cls e = TypeError
             /\ Browser.wait (Scripted.driver Scripted.lively) 2
                  [("url", VStr "x")] Scripted.start = (Raise e, Scripted.start))
  /\ fst (Browser.wait (Scripted.driver Scripted.lively) 2
            [("title", VStr "Home")] Scripted.start)
     = Ok (ElemWrapper_obj 0 (OBool true)).
Proof.
  split.
  - apply (Browser_wait_polls_the_page (Scripted.driver Scripted.lively) 2
             [("url", VStr "x")] Scripted.start).
    right; right. exists "url". split; [now left | reflexivity].
  - destruct (Browser_wait_polls_the_page (Scripted.driver Scripted.lively) 2
                [("title", VStr "Home")] Scripted.start) as [_ Hrun].
    specialize (Hrun "title" (VStr "Home") title_is eq_refl eq_refl).
    cbn in Hrun. destruct Hrun as (Hrun & _). now rewrite Hrun.
Defined.

(** ** Picking an option, looking up a descendant *)

Lemma select_table_is_apart (k : string) :
  dict_mem k Browser.selectors = true ->
  dict_mem k ElemWrapper._select_selectors = false.
Proof.
  unfold dict_mem, Browser.selectors. cbn [dict_get].
  repeat match goal with
         | |- context [String.eqb k ?s] =>
             destruct (String.eqb k s) eqn:E;
             [apply String.eqb_eq in E; subst k; intros _; reflexivity | clear E]
         end.
  intros H. discriminate H.
Qed.

Lemma ElemWrapper_select_unfit {St} (D : Driver St) (self : elem_wrapper)
    (kwargs : dict pyval) (w : World St) :
  unfit kwargs ElemWrapper._select_selectors ->
  exists e, exn_cls e = TypeError
            /\ ElemWrapper.select D self kwargs w = (Raise e, w).
Proof.
  intros Hbad. destruct (_get_selector_unfit kwargs _ Hbad) as (e & He & Hcls).
  exists e. split; [exact Hcls|]. unfold ElemWrapper.select. run. now rewrite He.
Qed.

Lemma _get_selector_unknown_alone {T} (table : dict T) (k : string) (v : pyval) :
  dict_mem k table = false ->
  Browser._get_selector [(k, v)] table
  = Raise (new_exn TypeError ("bad selector: " +:+ k)).
Proof.
  intros Hk. unfold Browser._get_selector.
  rewrite (first_bad_key_split [(k, v)] table [] k [] eq_refl); [reflexivity| |exact Hk].
  intros k' [].
Qed.

(** [ElemWrapper.select] resolves its mapping against the table of the
    three [Select] methods, not against the selector table: a mapping
    unfit for that table ends in a [TypeError] with the world
    untouched, and every key that names a lookup strategy ([css], [id],
    ...) is such a mapping.  With [index], [text] or [value] alone, on
    a wrapper of an element, the one request the driver gets is that
    method with that value on the wrapped element, and its answer is
    the result. *)
Theorem select_resolves_against_its_own_table {St} (D : Driver St)
    (self : elem_wrapper) (kwargs : dict pyval) (w : World St) :
  (unfit kwargs ElemWrapper._select_selectors ->
   exists e, exn_cls e = TypeError
             /\ ElemWrapper.select D self kwargs w = (Raise e, w))
  /\ (forall k v, kwargs = [(k, v)] -> dict_mem k Browser.selectors = true ->
      ElemWrapper.select D self kwargs w
      = (Raise (new_exn TypeError ("bad selector: " +:+ k)), w))
  /\ (forall k v m el,
        kwargs = [(k, v)] -> dict_get k ElemWrapper._select_selectors = Some m ->
        w_elem self = OElem el ->
        ElemWrapper.select D self kwargs w
        = (fst (respond D (Rselect m el v) (drv w)), answered D (Rselect m el v) w)).
Proof.
  split; [|split].
  - apply ElemWrapper_select_unfit.
  - intros k v -> Hk. apply select_table_is_apart in Hk.
    unfold ElemWrapper.select. run.
    now rewrite (_get_selector_unknown_alone _ k v Hk).
  - intros k v m el -> Hk Hel. unfold ElemWrapper.select. run.
    rewrite (_get_selector_one _ k v m Hk), Hel. cbn.
    now rewrite perform_answered.
Qed.

Lemma select_resolves_against_its_own_table_witness :
  let D := Scripted.driver Scripted.lively in
  let self := ElemWrapper_obj 0 (OElem 4) in
  ElemWrapper.select D self [("css", VStr "option")] Scripted.start
  = (Raise (new_exn TypeError "bad selector: css"), Scripted.start)
  /\ ElemWrapper.select D self [("index", VInt 2)] Scripted.start
     = (Ok tt, answered D (Rselect select_by_index 4 (VInt 2)) Scripted.start).
Proof.
  intros D self. split.
  - apply (select_resolves_against_its_own_table D self [("css", VStr "option")]
             Scripted.start) with (v := VStr "option"); reflexivity.
  - destruct (select_resolves_against_its_own_table D self [("index", VInt 2)]
                Scripted.start) as (_ & _ & Hrun).
    now rewrite (Hrun "index" (VInt 2) select_by_index 4 eq_refl eq_refl eq_refl).
Defined.

(** [ElemWrapper.elem] with a selector that resolves, on a wrapper of
    an element, sends one [find_element] rooted at that element.  The
    answer comes back as a new wrapper; an exception of the driver
    comes back as the same exception, of whatever class, after that one
    request, and no wrapper is made.  On a wrapper that holds a
    boolean the call ends in an [AttributeError] and the driver is not
    asked. *)
Theorem ElemWrapper_elem_looks_up_once {St} (D : Driver St) (self : elem_wrapper)
    (css : pyval) (kwargs : dict pyval) (sel : By) (val : pyval) (w : World St) :
  Browser._get_selector (Browser.with_css css kwargs) Browser.selectors = Ok (sel, val) ->
  (forall root,
     w_elem self = OElem root ->
     ElemWrapper.elem D self css kwargs w
     = match fst (respond D (Rfind_element (Some root) sel val) (drv w)) with
       | Ok found =>
           (Ok (ElemWrapper_obj (next_id w) (OElem found)),
            allocated 1 (answered D (Rfind_element (Some root) sel val) w))
       | Raise e => (Raise e, answered D (Rfind_element (Some root) sel val) w)
       end)
  /\ (forall b,
        w_elem self = OBool b ->
        exists e, exn_cls e = AttributeError
                  /\ ElemWrapper.elem D self css kwargs w = (Raise e, w)).
Proof.
  intros Hsel. split.
  - intros root Hroot. unfold ElemWrapper.elem. run. rewrite Hsel, Hroot.
    cbn. rewrite perform_answered.
    destruct (fst (respond D (Rfind_element (Some root) sel val) (drv w)))
      as [found|e]; cbn; [reflexivity|].
    now destruct (is_WebDriverException (exn_cls e)).
  - intros b Hb. eexists. split; [|unfold ElemWrapper.elem; run;
                                    rewrite Hsel, Hb; reflexivity].
    reflexivity.
Qed.

Lemma ElemWrapper_elem_looks_up_once_witness :
  let self := ElemWrapper_obj 0 (OElem 4) in
  ElemWrapper.elem (Scripted.driver Scripted.barren) self (VStr "li") []
    Scripted.start
  = (Raise Scripted.no_such_element,
     answered (Scripted.driver Scripted.barren)
       (Rfind_element (Some 4) By_CSS_SELECTOR (VStr "li")) Scripted.start)
  /\ fst (ElemWrapper.elem (Scripted.driver Scripted.lively) self (VStr "li") []
            Scripted.start)
     = Ok (ElemWrapper_obj 0 (OElem 7)).
Proof.
  intros self. split.
  - destruct (ElemWrapper_elem_looks_up_once (Scripted.driver Scripted.barren)
                self (VStr "li") [] By_CSS_SELECTOR (VStr "li") Scripted.start
                eq_refl) as [Hrun _].
    now rewrite (Hrun 4 eq_refl).
  - destruct (ElemWrapper_elem_looks_up_once (Scripted.driver Scripted.lively)
                self (VStr "li") [] By_CSS_SELECTOR (VStr "li") Scripted.start
                eq_refl) as [Hrun _].
    now rewrite (Hrun 4 eq_refl).
Defined.

(** ** The first attribute access on a handle *)

Lemma lookups_no_lookup_since {St} (w w' : World St) :
  no_lookup_since w w' -> lookups w' = lookups w.
Proof.
  intros (new & Hcalls & Hnew). unfold lookups. rewrite Hcalls, List.filter_app.
  assert (Hnil : List.filter is_lookup new = []).
  { clear Hcalls. induction new as [|c new IH]; cbn in *; [reflexivity|].
    apply andb_true_iff in Hnew as [Hc Hnew].
    apply negb_true_iff in Hc. rewrite Hc. now apply IH. }
  now rewrite Hnil, app_nil_r.
Qed.

Lemma getattr_unresolved_run {St} (D : Driver St) (self : future_element)
    (attr : string) (sel : By) (val : pyval) (w : World St) :
  slots w !! fe_id self = None ->
  Browser._get_selector (fe_kwargs self) Browser.selectors = Ok (sel, val) ->
  FutureElement.__getattr__ D self attr w
  = match fst (respond D (Rfind_element None sel val) (drv w)) with
    | Ok found =>
        ElemWrapper.getattr D (ElemWrapper_obj (next_id w) (OElem found)) attr
          (stored self (ElemWrapper_obj (next_id w) (OElem found))
             (allocated 1 (answered D (Rfind_element None sel val) w)))
    | Raise e => (Raise e, answered D (Rfind_element None sel val) w)
    end.
Proof.
  intros Hslot Hsel. unfold FutureElement.__getattr__, read_slot,
    FutureElement.attr_of, write_slot. run.
  rewrite Hslot, Hsel. cbn. rewrite perform_answered.
  destruct (fst (respond D (Rfind_element None sel val) (drv w))) as [found|e]; cbn.
  - rewrite lookup_insert_eq. reflexivity.
  - now destruct (is_WebDriverException (exn_cls e)).
Qed.

Lemma getattr_unresolved_found {St} (D : Driver St) (self : future_element)
    (attr : string) (sel : By) (val : pyval) (found : elem) (w : World St) :
  slots w !! fe_id self = None ->
  Browser._get_selector (fe_kwargs self) Browser.selectors = Ok (sel, val) ->
  fst (respond D (Rfind_element None sel val) (drv w)) = Ok found ->
  slots (snd (FutureElement.__getattr__ D self attr w)) !! fe_id self
  = Some (ElemWrapper_obj (next_id w) (OElem found))
  /\ lookups (snd (FutureElement.__getattr__ D self attr w))
     = lookups w ++ [Call (Rfind_element None sel val)].
Proof.
  intros Hslot Hsel Hfound.
  rewrite (getattr_unresolved_run D self attr sel val w Hslot Hsel), Hfound.
  set (wr := ElemWrapper_obj (next_id w) (OElem found)).
  set (w1 := stored self wr (allocated 1 (answered D (Rfind_element None sel val) w))).
  split.
  - destruct (driver_only_wrapper_getattr D wr attr w1) as [Hs _].
    rewrite Hs. cbn. apply lookup_insert_eq.
  - rewrite (lookups_no_lookup_since w1 _ (wrapper_getattr_no_lookup D wr attr w1)).
    unfold lookups, w1. cbn. now rewrite List.filter_app.
Qed.

(** The first attribute access on an unresolved handle whose selector
    resolves sends one [find_element] and does not poll.  When the
    driver raises, that exception comes out as it is and the handle
    stays unresolved, so the next access looks up again.  When the
    driver finds the element, a new wrapper of it is stored in the
    handle and the access goes on as [getattr] on that wrapper, which
    adds no lookup. *)
Theorem first_access_looks_up_once {St} (D : Driver St) (self : future_element)
    (attr : string) (sel : By) (val : pyval) (w : World St) :
  slots w !! fe_id self = None ->
  Browser._get_selector (fe_kwargs self) Browser.selectors = Ok (sel, val) ->
  (forall e,
     fst (respond D (Rfind_element None sel val) (drv w)) = Raise e ->
     FutureElement.__getattr__ D self attr w
     = (Raise e, answered D (Rfind_element None sel val) w)
     /\ slots (snd (FutureElement.__getattr__ D self attr w)) !! fe_id self = None)
  /\ (forall found,
        fst (respond D (Rfind_element None sel val) (drv w)) = Ok found ->
        let wr := ElemWrapper_obj (next_id w) (OElem found) in
        FutureElement.__getattr__ D self attr w
        = ElemWrapper.getattr D wr attr
            (stored self wr (allocated 1 (answered D (Rfind_element None sel val) w)))
        /\ slots (snd (FutureElement.__getattr__ D self attr w)) !! fe_id self
           = Some wr
        /\ lookups (snd (FutureElement.__getattr__ D self attr w))
           = lookups w ++ [Call (Rfind_element None sel val)]).
Proof.
  intros Hslot Hsel.
  pose proof (getattr_unresolved_run D self attr sel val w Hslot Hsel) as Hrun.
  split.
  - intros e He. rewrite He in Hrun. rewrite Hrun. split; [reflexivity|exact Hslot].
  - intros found Hfound wr.
    split; [now rewrite Hrun, Hfound|].
    exact (getattr_unresolved_found D self attr sel val found w Hslot Hsel Hfound).
Qed.

Lemma first_access_looks_up_once_witness :
  let self := FutureElement_obj 0 [("id", VStr "go")] in
  let w := allocated 1 Scripted.start in
  FutureElement.__getattr__ (Scripted.driver Scripted.barren) self "text" w
  = (Raise Scripted.no_such_element,
     answered (Scripted.driver Scripted.barren)
       (Rfind_element None By_ID (VStr "go")) w)
  /\ slots (snd (FutureElement.__getattr__ (Scripted.driver Scripted.lively)
                   self "text" w)) !! fe_id self
     = Some (ElemWrapper_obj 1 (OElem 7)).
Proof.
  intros self w. split.
  - destruct (first_access_looks_up_once (Scripted.driver Scripted.barren) self
                "text" By_ID (VStr "go") w eq_refl eq_refl) as [Herr _].
    now destruct (Herr Scripted.no_such_element eq_refl).
  - destruct (first_access_looks_up_once (Scripted.driver Scripted.lively) self
                "text" By_ID (VStr "go") w eq_refl eq_refl) as [_ Hok].
    now destruct (Hok 7 eq_refl) as (_ & Hslot & _).
Defined.

(** [Browser.elem] followed by two attribute accesses on the handle it
    returned sends the driver one lookup in all when the mapping
    resolves, whatever the driver answers and whichever attributes are
    read, and no lookup at all when the mapping does not resolve: the
    handle is made without a lookup, the first access looks up once or
    ends in the [TypeError] of the mapping, and the second either
    finds the cache filled or is never reached. *)
Theorem elem_then_accesses_look_up_once {St} (D : Driver St) (css : pyval)
    (kwargs : dict pyval) (attr1 attr2 : string) (w : World St) :
  lookups (snd ((h ← Browser.elem css kwargs;
                 FutureElement.__getattr__ D h attr1;;
                 FutureElement.__getattr__ D h attr2) w))
  = lookups w
    ++ match Browser._get_selector (Browser.with_css css kwargs)
               Browser.selectors with
       | Ok (sel, val) => [Call (Rfind_element None sel val)]
       | Raise _ => []
       end.
Proof.
  unfold mbind at 1, M_bind at 1. rewrite Browser_elem_run.
  set (h := FutureElement_obj (next_id w) (Browser.with_css css kwargs)).
  assert (Hnone : slots (handle_made w) !! fe_id h = None)
    by (cbn; apply lookup_delete_eq).
  destruct (Browser._get_selector (Browser.with_css css kwargs) Browser.selectors)
    as [[sel val]|e0] eqn:Hsel.
  - pose proof (getattr_unresolved_run D h attr1 sel val (handle_made w) Hnone Hsel)
      as Hrun1.
    unfold mbind, M_bind.
    destruct (fst (respond D (Rfind_element None sel val) (drv (handle_made w))))
      as [found|e] eqn:Hfind.
    + destruct (getattr_unresolved_found D h attr1 sel val found (handle_made w)
                  Hnone Hsel Hfind) as (Hslot & Hlook).
      clear Hrun1.
      destruct (FutureElement.__getattr__ D h attr1 (handle_made w)) as [[a|e] w1];
        cbn [snd] in *; [|exact Hlook].
      rewrite (getattr_resolved D h attr2 _ w1 Hslot).
      rewrite (lookups_no_lookup_since w1 _ (wrapper_getattr_no_lookup D _ attr2 w1)).
      exact Hlook.
    + rewrite Hrun1. cbn.
      unfold lookups. cbn. now rewrite List.filter_app.
  - unfold mbind, M_bind.
    rewrite (getattr_bad_selector D h attr1 e0 (handle_made w) Hnone Hsel).
    cbn. unfold lookups. cbn. now rewrite app_nil_r.
Qed.

Lemma elem_then_accesses_look_up_once_witness :
  lookups (snd ((h ← Browser.elem (VStr "#go") [];
                 FutureElement.__getattr__ (Scripted.driver Scripted.lively) h "text";;
                 FutureElement.__getattr__ (Scripted.driver Scripted.lively) h "tag_name")
                  Scripted.start))
  = lookups Scripted.start ++ [Call (Rfind_element None By_CSS_SELECTOR (VStr "#go"))]
  /\ lookups (snd ((h ← Browser.elem VNone [];
                    FutureElement.__getattr__ (Scripted.driver Scripted.lively) h "text";;
                    FutureElement.__getattr__ (Scripted.driver Scripted.lively) h "tag_name")
                     Scripted.start))
     = lookups Scripted.start ++ [].
Proof.
  split.
  - exact (elem_then_accesses_look_up_once (Scripted.driver Scripted.lively)
             (VStr "#go") [] "text" "tag_name" Scripted.start).
  - exact (elem_then_accesses_look_up_once (Scripted.driver Scripted.lively)
             VNone [] "text" "tag_name" Scripted.start).
Defined.

(** ** Conditions that [wait] turns down *)

Lemma lstrip_head (s : string) :
  lstrip s = "" \/ exists c r, lstrip s = String c r /\ is_space c = false.
Proof.
  induction s as [|c s IH]; cbn [lstrip]; [now left|].
  destruct (is_space c) eqn:Hc; [exact IH|].
  right. now exists c, s.
Qed.

Lemma first_word_None_iff (s : string) :
  first_word s = None <-> lstrip s = "".
Proof.
  unfold first_word. destruct (lstrip_head s) as [-> | (c & r & -> & Hc)].
  - split; reflexivity.
  - cbn [take_word]. rewrite Hc. split; discriminate.
Qed.

Lemma method_of_unknown (cond : string) :
  cond <> "present" -> cond <> "clickable" -> cond <> "visible" -> cond <> "text" ->
  FutureElement.method_of cond
  = Raise (new_exn TypeError ("bad condition: " +:+ cond)).
Proof.
  intros H1 H2 H3 H4. unfold FutureElement.method_of.
  apply String.eqb_neq in H1, H2, H3, H4. now rewrite H1, H2, H3, H4.
Qed.

(** [wait] turns a condition down before it resolves the selector and
    before it goes to the driver.  A condition without a word, the
    empty string included, ends in the [IndexError] of the split
    rather than in the default [present].  A condition whose first
    word is not [not] is taken as it is, white space and all.  And a
    condition that is left but is none of the four names ends in
    [TypeError: bad condition], whether or not the selector of the
    handle resolves. *)
Theorem wait_turns_down_conditions_first {St} (D : Driver St) (polls : nat)
    (self : future_element) (condition : string) (arg : pyval) (w : World St) :
  (lstrip condition = "" ->
   FutureElement.wait D polls self condition arg w
   = (Raise (new_exn IndexError "list index out of range"), w))
  /\ (forall wd, first_word condition = Some wd -> wd <> "not" ->
      FutureElement.parse_condition condition = Ok (false, condition))
  /\ (forall neg cond,
        FutureElement.parse_condition condition = Ok (neg, cond) ->
        cond <> "present" -> cond <> "clickable" -> cond <> "visible" ->
        cond <> "text" ->
        FutureElement.wait D polls self condition arg w
        = (Raise (new_exn TypeError ("bad condition: " +:+ cond)), w)).
Proof.
  split; [|split].
  - intros Hblank. apply first_word_None_iff in Hblank.
    apply wait_bad_condition. unfold FutureElement.parse_condition.
    now rewrite Hblank.
  - intros wd Hwd Hnot. unfold FutureElement.parse_condition. rewrite Hwd.
    apply String.eqb_neq in Hnot. rewrite Hnot.
    destruct condition as [|c rest]; [discriminate Hwd | reflexivity].
  - intros neg cond Hparse H1 H2 H3 H4.
    now apply (wait_bad_method D polls self condition arg neg cond),
      method_of_unknown.
Qed.

Lemma wait_turns_down_conditions_first_witness :
  let D := Scripted.driver Scripted.lively in
  let self := FutureElement_obj 0 [] in
  FutureElement.wait D 2 self "" VNone Scripted.start
  = (Raise (new_exn IndexError "list index out of range"), Scripted.start)
  /\ FutureElement.parse_condition " clickable" = Ok (false, " clickable")
  /\ FutureElement.wait D 2 self " clickable" VNone Scripted.start
     = (Raise (new_exn TypeError "bad condition:  clickable"), Scripted.start).
Proof.
  intros D self.
  destruct (wait_turns_down_conditions_first D 2 self "" VNone Scripted.start)
    as (Hblank & _ & _).
  destruct (wait_turns_down_conditions_first D 2 self " clickable" VNone
              Scripted.start) as (_ & Hplain & Hbad).
  split; [now apply Hblank|]. split.
  - apply (Hplain "clickable"); [reflexivity | discriminate].
  - apply (Hbad false " clickable"); [reflexivity | discriminate..].
Defined.

(** ** A wait that raises *)

(** Whatever [wait] raises, it raises with every handle as it was and
    no wrapper made: the cache is assigned only when the wait of the
    driver returned.  And an exception of the driver's wait that is not
    a [WebDriverException] comes out as it is, without the added
    context. *)
Theorem wait_that_raises_changes_no_object {St} (D : Driver St) (polls : nat)
    (self : future_element) (condition : string) (arg : pyval) (w : World St) :
  (forall e w',
     FutureElement.wait D polls self condition arg w = (Raise e, w') ->
     slots w' = slots w /\ next_id w' = next_id w)
  /\ (forall neg cond meth sel val method e w1,
        FutureElement.parse_condition condition = Ok (neg, cond) ->
        FutureElement.method_of cond = Ok meth ->
        Browser._get_selector (fe_kwargs self) Browser.selectors = Ok (sel, val) ->
        FutureElement.instantiate D meth (sel, val) arg = Ok method ->
        driver_wait D polls neg method w = (Raise e, w1) ->
        is_WebDriverException (exn_cls e) = false ->
        FutureElement.wait D polls self condition arg w = (Raise e, w1)).
Proof.
  split.
  - intros e w' Hrun. pose proof (wait_effect D polls self condition arg w) as H.
    rewrite Hrun in H. exact H.
  - intros neg cond meth sel val method e w1 H1 H2 H3 H4 Hwait Hcls.
    rewrite (wait_run D polls self condition arg neg cond meth sel val method w
               H1 H2 H3 H4).
    now rewrite Hwait, Hcls.
Qed.

Lemma wait_that_raises_changes_no_object_witness :
  let D := Scripted.driver Scripted.lively in
  let self := FutureElement_obj 0 [("id", VStr "go")] in
  exists w1,
    FutureElement.wait D 2 self "text" (VInt 3) Scripted.start
    = (Raise (new_exn TypeError
                "'in <string>' requires string as left operand, not int"),
       w1)
    /\ slots w1 = slots Scripted.start.
Proof.
  intros D self.
  destruct (wait_that_raises_changes_no_object D 2 self "text" (VInt 3)
              Scripted.start) as [Hkeep Hpass].
  pose (method := element_containing_text.__call__ D (By_ID, VStr "go") (VInt 3)).
  pose (w1 := snd (driver_wait D 2 false method Scripted.start)).
  assert (Hrun : FutureElement.wait D 2 self "text" (VInt 3) Scripted.start
                 = (Raise (new_exn TypeError
                             "'in <string>' requires string as left operand, not int"),
                    w1)).
  { apply (Hpass false "text" FutureElement.Text By_ID (VStr "go") method);
      reflexivity. }
  exists w1. split; [exact Hrun|]. now destruct (Hkeep _ _ Hrun).
Defined.

(** ** The helpers of a handle *)

Lemma wait_returns_the_cache {St} (D : Driver St) (polls : nat)
    (self : future_element) (condition : string) (arg : pyval)
    (r : option elem_wrapper) (w w1 : World St) :
  FutureElement.wait D polls self condition arg w = (Ok r, w1) ->
  exists wr, r = Some wr /\ slots w1 !! fe_id self = Some wr.
Proof.
  intros Hrun. pose proof (wait_effect D polls self condition arg w) as H.
  rewrite Hrun in H. destruct H as (x & w0 & _ & -> & ->).
  eexists. split; [reflexivity|]. cbn. apply lookup_insert_eq.
Qed.

(** [click], [send_keys] and [clear] on a handle wait for [clickable]
    first.  When that wait raises, its exception is the result and the
    action is not sent.  When it returns, the action goes, as the one
    further request, to the element of the wrapper the wait has just
    stored in the handle, not to one cached earlier; [click] and
    [send_keys] give the answer of the driver, and [clear] gives back
    that wrapper. *)
Theorem helpers_act_on_what_they_waited_for {St} (D : Driver St) (polls : nat)
    (self : future_element) (args : list pyval) (w : World St) :
  (forall e w1,
     FutureElement.wait D polls self "clickable" VNone w = (Raise e, w1) ->
     FutureElement.click D polls self w = (Raise e, w1)
     /\ FutureElement.send_keys D polls self args w = (Raise e, w1)
     /\ FutureElement.clear D polls self w = (Raise e, w1))
  /\ (forall r w1,
        FutureElement.wait D polls self "clickable" VNone w = (Ok r, w1) ->
        exists wr,
          r = Some wr /\ slots w1 !! fe_id self = Some wr
          /\ forall el, w_elem wr = OElem el ->
               FutureElement.click D polls self w
               = (fst (respond D (Rclick el) (drv w1)), answered D (Rclick el) w1)
               /\ FutureElement.send_keys D polls self args w
                  = (fst (respond D (Rsend_keys el args) (drv w1)),
                     answered D (Rsend_keys el args) w1)
               /\ FutureElement.clear D polls self w
                  = (match fst (respond D (Rclear el) (drv w1)) with
                     | Ok _ => Ok wr
                     | Raise x => Raise x
                     end, answered D (Rclear el) w1)).
Proof.
  split.
  - intros e w1 Hwait.
    unfold FutureElement.click, FutureElement.send_keys, FutureElement.clear,
      mbind, M_bind.
    now rewrite Hwait.
  - intros r w1 Hwait.
    destruct (wait_returns_the_cache D polls self _ _ r w w1 Hwait)
      as (wr & -> & Hslot).
    exists wr. split; [reflexivity|]. split; [exact Hslot|].
    intros el Hel.
    unfold FutureElement.click, FutureElement.send_keys, FutureElement.clear,
      FutureElement.attr_of, ElemWrapper.click.
    run. rewrite Hwait, Hel. cbn.
    rewrite (ElemWrapper_send_keys_run D wr el args w1 Hel),
      (ElemWrapper_clear_run D wr el w1 Hel), perform_answered.
    repeat split.
Qed.

Lemma helpers_act_on_what_they_waited_for_witness :
  let D := Scripted.driver Scripted.lively in
  let self := FutureElement_obj 0 [("id", VStr "go")] in
  let w := stored self (ElemWrapper_obj 1 (OElem 3)) (allocated 2 Scripted.start) in
  let w1 := snd (FutureElement.wait D 1 self "clickable" VNone w) in
  FutureElement.click D 1 self w = (Ok tt, answered D (Rclick 7) w1)
  /\ FutureElement.clear D 1 self w
     = (Ok (ElemWrapper_obj 2 (OElem 7)), answered D (Rclear 7) w1).
Proof.
  intros D self w w1.
  destruct (helpers_act_on_what_they_waited_for D 1 self [] w) as [_ Hok].
  destruct (Hok (Some (ElemWrapper_obj 2 (OElem 7))) w1 eq_refl)
    as (wr & Hwr & _ & Hact).
  injection Hwr as <-.
  destruct (Hact 7 eq_refl) as (Hclick & _ & Hclear).
  split; [exact Hclick | exact Hclear].
Defined.

(** [FutureElement.select] waits before it looks at its arguments: with
    a mapping unfit for the table of [Select] methods, it still waits
    for [clickable] first.  When the wait raises, that exception is the
    result; when the wait returns, the [TypeError] of the mapping comes
    after it, with the requests of the wait sent and the new wrapper
    stored in the handle. *)
Theorem handle_select_checks_after_waiting {St} (D : Driver St) (polls : nat)
    (self : future_element) (kwargs : dict pyval) (w : World St) :
  unfit kwargs ElemWrapper._select_selectors ->
  (forall e w1,
     FutureElement.wait D polls self "clickable" VNone w = (Raise e, w1) ->
     FutureElement.select D polls self kwargs w = (Raise e, w1))
  /\ (forall r w1,
        FutureElement.wait D polls self "clickable" VNone w = (Ok r, w1) ->
        exists e wr,
          exn_cls e = TypeError
          /\ FutureElement.select D polls self kwargs w = (Raise e, w1)
          /\ slots w1 !! fe_id self = Some wr /\ w_id wr = next_id w).
Proof.
  intros Hbad. split.
  - intros e w1 Hwait. unfold FutureElement.select, mbind, M_bind.
    now rewrite Hwait.
  - intros r w1 Hwait.
    pose proof (wait_effect D polls self "clickable" VNone w) as Heff.
    rewrite Hwait in Heff. destruct Heff as (x & w0 & _ & -> & ->).
    destruct (ElemWrapper_select_unfit D (ElemWrapper_obj (next_id w) x) kwargs
                (stored self (ElemWrapper_obj (next_id w) x) (allocated 1 w0)) Hbad)
      as (e & Hcls & Hrun).
    exists e, (ElemWrapper_obj (next_id w) x). split; [exact Hcls|].
    split; [|split; [cbn; apply lookup_insert_eq | reflexivity]].
    unfold FutureElement.select, FutureElement.attr_of. run.
    rewrite Hwait. cbn. exact Hrun.
Qed.

Lemma handle_select_checks_after_waiting_witness :
  let D := Scripted.driver Scripted.lively in
  let self := FutureElement_obj 0 [("id", VStr "go")] in
  let w := allocated 1 Scripted.start in
  exists e w1,
    exn_cls e = TypeError
    /\ FutureElement.select D 1 self [("css", VStr "option")] w = (Raise e, w1)
    /\ calls w1 = [Call (Rcondition element_to_be_clickable (By_ID, VStr "go"))].
Proof.
  intros D self w.
  destruct (handle_select_checks_after_waiting D 1 self [("css", VStr "option")] w)
    as [_ Hok].
  { right; right. exists "css". split; [now left | reflexivity]. }
  destruct (Hok (Some (ElemWrapper_obj 1 (OElem 7)))
              (snd (FutureElement.wait D 1 self "clickable" VNone w)) eq_refl)
    as (e & wr & Hcls & Hrun & _).
  exists e, (snd (FutureElement.wait D 1 self "clickable" VNone w)).
  split; [exact Hcls|]. split; [exact Hrun | reflexivity].
Defined.

(** ** Handles do not share a cache *)

Lemma getattr_cache {St} (D : Driver St) (self : future_element) (attr : string)
    (w : World St) :
  cache_kept_or_replaced self w (snd (FutureElement.__getattr__ D self attr w)).
Proof.
  destruct (slots w !! fe_id self) as [wr|] eqn:Hslot.
  - rewrite (getattr_resolved D self attr wr w Hslot). left.
    apply (driver_only_wrapper_getattr D wr attr w).
  - destruct (Browser._get_selector (fe_kwargs self) Browser.selectors)
      as [[sel val]|e] eqn:Hsel.
    + rewrite (getattr_unresolved_run D self attr sel val w Hslot Hsel).
      destruct (fst (respond D (Rfind_element None sel val) (drv w))) as [found|e].
      * right. exists (OElem found).
        destruct (driver_only_wrapper_getattr D
                    (ElemWrapper_obj (next_id w) (OElem found)) attr
                    (stored self (ElemWrapper_obj (next_id w) (OElem found))
                       (allocated 1 (answered D (Rfind_element None sel val) w))))
          as [Hs _].
        now rewrite Hs.
      * now left.
    + rewrite (getattr_bad_selector D self attr e w Hslot Hsel). now left.
Qed.

(** An operation on one handle, whichever it is and however it ends,
    leaves the cache of every other handle as it was; and making a new
    handle with [Browser.elem] leaves the cache of every handle made
    before as it was. *)
Theorem handles_do_not_share_a_cache {St} (D : Driver St) (polls : nat)
    (self other : future_element) (op : operation) (css : pyval)
    (kwargs : dict pyval) (w : World St) :
  fe_id other <> fe_id self ->
  slots (snd (operate D polls self op w)) !! fe_id other = slots w !! fe_id other
  /\ (fe_id other < next_id w ->
      slots (snd (Browser.elem css kwargs w)) !! fe_id other
      = slots w !! fe_id other).
Proof.
  intros Hne. split.
  - assert (Hcache : cache_kept_or_replaced self w (snd (operate D polls self op w))).
    { destruct (operate_cache D polls self op w) as [[attr ->] | H]; [|exact H].
      apply getattr_cache. }
    destruct Hcache as [-> | [x ->]]; [reflexivity|].
    apply lookup_insert_ne. congruence.
  - intros Hold. rewrite Browser_elem_run. cbn. apply lookup_delete_ne. lia.
Qed.

Lemma handles_do_not_share_a_cache_witness :
  let D := Scripted.driver Scripted.lively in
  let self := FutureElement_obj 0 [("id", VStr "go")] in
  let other := FutureElement_obj 1 [("id", VStr "stop")] in
  let w := stored other (ElemWrapper_obj 2 (OElem 3)) (allocated 3 Scripted.start) in
  slots (snd (operate D 1 self Click w)) !! fe_id other
  = Some (ElemWrapper_obj 2 (OElem 3)).
Proof.
  intros D self other w.
  destruct (handles_do_not_share_a_cache D 1 self other Click VNone [] w)
    as [Hkeep _]; [discriminate|].
  rewrite Hkeep. reflexivity.
Defined.

(** ** What the browser and a wrapper never do *)

Lemma cache_safe_driver_only {St A} (m : M St A) : driver_only m -> cache_safe m.
Proof. intros H w. apply (H w). Qed.

Lemma cache_safe_bind {St A B} (m : M St A) (f : A -> M St B) :
  cache_safe m -> (forall a, cache_safe (f a)) -> cache_safe (m ≫= f).
Proof.
  intros Hm Hf w. unfold mbind, M_bind. specialize (Hm w).
  destruct (m w) as [[a|e] w1]; cbn in *; [|exact Hm].
  now rewrite Hf.
Qed.

Lemma cache_safe_try_except {St A} (body : M St A) (catches : exn_class -> bool)
    (handler : exn -> M St A) :
  cache_safe body -> (forall e, cache_safe (handler e)) ->
  cache_safe (try_except body catches handler).
Proof.
  intros Hb Hh w. unfold try_except. specialize (Hb w).
  destruct (body w) as [[a|e] w1]; cbn in *; [exact Hb|].
  destruct (catches (exn_cls e)); [|exact Hb]. now rewrite Hh.
Qed.

Lemma cache_safe_new_ElemWrapper {St} (x : pyobj) :
  cache_safe (new_ElemWrapper x : M St elem_wrapper).
Proof. intros w. reflexivity. Qed.

Lemma cache_safe_wrap_all {St} (found : list elem) :
  cache_safe (wrap_all found : M St (list elem_wrapper)).
Proof. intros w. now rewrite wrap_all_run. Qed.

Ltac cache_safe :=
  repeat first
    [ apply cache_safe_new_ElemWrapper
    | apply cache_safe_wrap_all
    | solve [apply cache_safe_driver_only; auto with frame]
    | solve [apply cache_safe_driver_only, driver_only_until_from; auto with frame]
    | apply cache_safe_bind; [|intros ?]
    | apply cache_safe_try_except; [|intros ?]
    | match goal with
      | |- cache_safe (match ?x with _ => _ end) => destruct x
      | |- cache_safe (let '(_, _) := ?p in _) => destruct p
      end ].

(** No lookup through the browser or through a wrapper assigns to a
    handle: [Browser.find], [Browser.wait] and the methods of
    [ElemWrapper] leave every cache as it was, however they end.  Only
    an operation on a handle changes what that handle holds. *)
Theorem only_a_handle_fills_its_cache {St} (D : Driver St) (polls : nat)
    (wr : elem_wrapper) (css : pyval) (kwargs : dict pyval) :
  cache_safe (Browser.find D css kwargs)
  /\ cache_safe (Browser.wait D polls kwargs)
  /\ cache_safe (ElemWrapper.elem D wr css kwargs)
  /\ cache_safe (ElemWrapper.find D wr css kwargs)
  /\ cache_safe (ElemWrapper.select D wr kwargs)
  /\ cache_safe (ElemWrapper.clear D wr)
  /\ (forall attr, cache_safe (ElemWrapper.getattr D wr attr)).
Proof.
  repeat split.
  - unfold Browser.find. cache_safe.
  - unfold Browser.wait. cache_safe.
  - unfold ElemWrapper.elem. cache_safe.
  - unfold ElemWrapper.find. cache_safe.
  - apply cache_safe_driver_only. auto with frame.
  - apply cache_safe_driver_only. auto with frame.
  - intros attr. apply cache_safe_driver_only. auto with frame.
Qed.

(** ** What a negated wait leaves in the handle *)

Lemma until_not_returns_bool {St} (D : Driver St) (method : M St pyobj)
    (polls : nat) (x : pyobj) (w w1 : World St) :
  WebDriverWait.until_not D polls method w = (Ok x, w1) ->
  exists b, x = OBool b.
Proof.
  revert w. induction polls as [|polls IH]; intros w;
    cbn [WebDriverWait.until_not]; destruct (method w) as [[y|e] w0].
  - destruct y as [el|b]; cbn; [discriminate|].
    destruct b; cbn; [discriminate|]. intros [= <- _]. eauto.
  - destruct (WebDriverWait.ignored (exn_cls e)); [|discriminate].
    intros [= <- _]. eauto.
  - destruct y as [el|b]; cbn; [apply IH|].
    destruct b; cbn; [apply IH|]. intros [= <- _]. eauto.
  - destruct (WebDriverWait.ignored (exn_cls e)); [|discriminate].
    intros [= <- _]. eauto.
Qed.

Lemma own_name_public (attr : string) :
  public_name attr = true ->
  bool_decide (attr ∈ ElemWrapper.method_names) = false ->
  own_name attr = false.
Proof.
  intros Hpub Hmeth. unfold own_name. rewrite Hmeth.
  destruct attr as [|c rest]; [reflexivity|].
  cbn in Hpub. apply negb_true_iff in Hpub. cbn. now rewrite Hpub.
Qed.

Lemma wrapper_of_bool_getattr {St} (D : Driver St) (i : nat) (b : bool)
    (attr : string) (w : World St) :
  own_name attr = false ->
  ElemWrapper.getattr D (ElemWrapper_obj i (OBool b)) attr w
  = (if bool_has D attr then Ok (Forwarded (BoolAttr b attr))
     else Raise (new_exn AttributeError
                   ("'bool' object has no attribute '" +:+ attr +:+ "'")), w).
Proof.
  unfold own_name. intros Hown.
  apply orb_false_iff in Hown as [Hown H3].
  apply orb_false_iff in Hown as [H1 H2].
  unfold ElemWrapper.getattr, ElemWrapper.__getattr__. rewrite H1, H2, H3.
  run. cbn [w_elem]. now destruct (bool_has D attr).
Qed.

Lemma wrapper_of_bool_getattr_world {St} (D : Driver St) (i : nat) (b : bool)
    (attr : string) (w : World St) :
  snd (ElemWrapper.getattr D (ElemWrapper_obj i (OBool b)) attr w) = w.
Proof.
  unfold ElemWrapper.getattr, ElemWrapper.__getattr__.
  destruct (String.eqb attr "_elem"); [reflexivity|].
  destruct (String.eqb attr "_select_selectors"); [reflexivity|].
  destruct (bool_decide (attr ∈ ElemWrapper.method_names)); [reflexivity|].
  run. cbn [w_elem]. now destruct (bool_has D attr).
Qed.

(** A negated wait that returns stores a wrapper of a boolean in the
    handle, never of an element: [until_not] hands back the false value
    of the condition, or [True] when the element was not found.  From
    then on no attribute access on the handle reaches the driver or
    changes the world.  A public name that is not a method of the
    wrapper is looked for on the boolean: it ends in an
    [AttributeError] when [bool] has no such attribute, as for [text],
    and gives the attribute of the boolean when [bool] has it, as for
    [real]. *)
Theorem negated_wait_caches_a_boolean {St} (D : Driver St) (polls : nat)
    (self : future_element) (condition : string) (arg : pyval) (cond : string)
    (r : option elem_wrapper) (w w' : World St) :
  FutureElement.parse_condition condition = Ok (true, cond) ->
  FutureElement.wait D polls self condition arg w = (Ok r, w') ->
  exists b,
    r = Some (ElemWrapper_obj (next_id w) (OBool b))
    /\ slots w' !! fe_id self = r
    /\ (forall attr, snd (FutureElement.__getattr__ D self attr w') = w')
    /\ (forall attr,
          public_name attr = true ->
          bool_decide (attr ∈ ElemWrapper.method_names) = false ->
          FutureElement.__getattr__ D self attr w'
          = (if bool_has D attr then Ok (Forwarded (BoolAttr b attr))
             else Raise (new_exn AttributeError
                           ("'bool' object has no attribute '" +:+ attr +:+ "'")),
             w')).
Proof.
  intros Hparse Hrun.
  destruct (FutureElement.method_of cond) as [meth|e] eqn:H2;
    [|rewrite (wait_bad_method D polls self condition arg true cond e w Hparse H2)
        in Hrun; discriminate].
  destruct (Browser._get_selector (fe_kwargs self) Browser.selectors)
    as [[sel val]|e] eqn:H3;
    [|rewrite (wait_bad_selector D polls self condition arg true cond meth e w
                 Hparse H2 H3) in Hrun; discriminate].
  destruct (FutureElement.instantiate D meth (sel, val) arg) as [method|e] eqn:H4;
    [|rewrite (wait_bad_argument D polls self condition arg true cond meth sel val
                 e w Hparse H2 H3 H4) in Hrun; discriminate].
  rewrite (wait_run D polls self condition arg true cond meth sel val method w
             Hparse H2 H3 H4) in Hrun.
  unfold driver_wait in Hrun. cbn [negb] in Hrun.
  pose proof (driver_only_until_not D method
                (driver_only_instantiate D meth (sel, val) arg method H4) polls w)
    as [_ Hn].
  destruct (WebDriverWait.until_not D polls method w) as [[x|e] w1] eqn:Hu;
    [|destruct (is_WebDriverException (exn_cls e)); discriminate].
  destruct (until_not_returns_bool D method polls x w w1 Hu) as [b ->].
  cbn [snd] in Hn. rewrite Hn in Hrun. injection Hrun as <- <-.
  exists b. split; [reflexivity|].
  assert (Hslot : slots (stored self (ElemWrapper_obj (next_id w) (OBool b))
                           (allocated 1 w1)) !! fe_id self
                  = Some (ElemWrapper_obj (next_id w) (OBool b)))
    by (cbn; apply lookup_insert_eq).
  split; [exact Hslot|]. split.
  - intros attr. rewrite (getattr_resolved D self attr _ _ Hslot).
    apply wrapper_of_bool_getattr_world.
  - intros attr Hpub Hmeth. rewrite (getattr_resolved D self attr _ _ Hslot).
    apply wrapper_of_bool_getattr. now apply own_name_public.
Qed.

Lemma negated_wait_caches_a_boolean_witness :
  let D := Scripted.driver Scripted.barren in
  let self := FutureElement_obj 0 [("id", VStr "go")] in
  let w := allocated 1 Scripted.start in
  let w' := snd (FutureElement.wait D 2 self "not present" VNone w) in
  slots w' !! fe_id self = Some (ElemWrapper_obj 1 (OBool true))
  /\ FutureElement.__getattr__ D self "text" w'
     = (Raise (new_exn AttributeError "'bool' object has no attribute 'text'"), w')
  /\ FutureElement.__getattr__ D self "real" w'
     = (Ok (Forwarded (BoolAttr true "real")), w').
Proof.
  intros D self w w'.
  destruct (negated_wait_caches_a_boolean D 2 self "not present" VNone "present"
              (Some (ElemWrapper_obj 1 (OBool true))) w w' eq_refl eq_refl)
    as (b & Hb & Hslot & _ & Hattr).
  injection Hb as <-.
  split; [exact Hslot|]. split.
  - exact (Hattr "text" eq_refl eq_refl).
  - exact (Hattr "real" eq_refl eq_refl).
Defined.

(** ** The wrappers [find] makes *)

Lemma wrappers_from_bounds (n : nat) (found : list elem) (wr : elem_wrapper) :
  In wr (wrappers_from n found) -> n <= w_id wr < n + length found.
Proof.
  revert n. induction found as [|i rest IH]; intros n; cbn; [intros []|].
  intros [<- | Hin]; [cbn; lia|]. specialize (IH (S n) Hin). lia.
Qed.

(** Every call of [Browser.find] makes its wrappers anew: the wrappers
    of one result are pairwise different objects and none of them
    existed before the call, their identities being the first free
    ones.  When the call raises, no wrapper is made. *)
Theorem find_makes_new_wrappers {St} (D : Driver St) (css : pyval)
    (kwargs : dict pyval) (w : World St) :
  match Browser.find D css kwargs w with
  | (Ok wrs, w') =>
      NoDup (map w_id wrs)
      /\ next_id w' = next_id w + length wrs
      /\ forall wr, In wr wrs -> next_id w <= w_id wr < next_id w'
  | (Raise _, w') => next_id w' = next_id w
  end.
Proof.
  destruct (Browser._get_selector (Browser.with_css css kwargs) Browser.selectors)
    as [[sel val]|e] eqn:Hsel.
  - rewrite (Browser_find_run D css kwargs sel val w Hsel).
    destruct (fst (respond D (Rfind_elements None sel val) (drv w))) as [found|e];
      [|reflexivity].
    assert (Hlen : length (wrappers_from (next_id w) found) = length found).
    { rewrite <- (length_map w_elem), wrappers_from_elems. apply length_map. }
    split; [|split].
    + rewrite wrappers_from_ids. apply NoDup_ListNoDup, List.seq_NoDup.
    + cbn. rewrite Hlen. lia.
    + intros wr Hin. apply wrappers_from_bounds in Hin. cbn. lia.
  - now rewrite (Browser_find_bad_selector D css kwargs e w Hsel).
Qed.

Lemma find_makes_new_wrappers_witness :
  let r := Browser.find (Scripted.driver Scripted.lively) (VStr "li") []
             (allocated 4 Scripted.start) in
  fst r = Ok [ElemWrapper_obj 4 (OElem 3); ElemWrapper_obj 5 (OElem 1);
              ElemWrapper_obj 6 (OElem 2)]
  /\ next_id (snd r) = 7
  /\ forall wr, In wr [ElemWrapper_obj 4 (OElem 3); ElemWrapper_obj 5 (OElem 1);
                       ElemWrapper_obj 6 (OElem 2)] -> 4 <= w_id wr < 7.
Proof.
  intros r.
  pose proof (find_makes_new_wrappers (Scripted.driver Scripted.lively) (VStr "li")
                [] (allocated 4 Scripted.start)) as H.
  change (Browser.find (Scripted.driver Scripted.lively) (VStr "li") []
            (allocated 4 Scripted.start)) with r in H.
  destruct r as [[wrs|e] w'] eqn:Hr; [|discriminate Hr].
  injection Hr as <- <-. destruct H as (_ & Hnext & Hin).
  split; [reflexivity|]. split; [exact Hnext | exact Hin].
Defined.

(** ** Errors the text predicate lets through *)



(** An invalid selector is polled like a missing element: with three
    polls allowed, [wait("text")] ends in a [TimeoutException] after
    three lookups. *)
Example invalid_selector_is_polled_until_the_timeout :
  let bad := new_exn InvalidSelectorException "invalid selector" in
  let D := Scripted.driver
             {| Scripted.on_find := fun _ => Raise bad;
                Scripted.on_find_all := Ok [];
                Scripted.on_text := fun _ => Ok "";
                Scripted.on_condition := fun _ => Raise bad;
                Scripted.on_action := Ok tt |} in
  let self := FutureElement_obj 0 [("xpath", VStr "//[")] in
  let r := FutureElement.wait D 2 self "text" VNone Scripted.start in
  option_map exn_cls (raised (fst r)) = Some TimeoutException
  /\ length (lookups (snd r)) = 3.
Proof. split; reflexivity. Qed.
